(** * Employee management: server handlers and client view pipeline

A shallow embedding of the Express/PostgreSQL server (the route handlers,
the session gate and the two tables with their constraints) and of the
browser client [public/app.js] (the in-memory cache, the filter, sort and
pagination pipeline and the CSV export), followed by the properties
established about them.

Conventions.  JavaScript strings are modelled by [string] and are assumed
to hold ASCII text: [toLowerCase], [length] and the relational operators
on strings are the ASCII ones.  Integers are [Z].  A request handler is a
function from the request and the database to a response and the new
database; the values drawn from [Math.random] are arguments of the
handler, and the database is reachable, so that a statement fails only on
a constraint or on a parameter the database refuses: a text that holds the
character U+0000, or a salary that is no 32-bit integer.  The order of
[ORDER BY] is the one of the collation of the database, which the code does
not choose.  A client operation that awaits a [fetch] is one step that
takes the outcome of the fetch as an argument. *)

From Stdlib Require Import ZArith QArith Ascii String Bool Lia.
From Stdlib Require Import Numbers.DecimalString Numbers.DecimalPos.
From Stdlib Require OrderedTypeEx DecimalZ.
From stdpp Require Import gmap strings list fin_maps sorting.

Open Scope Z_scope.

(** ** JavaScript values and the built-ins the sources use *)

Module Js.

(** The values a JSON request body can hold.  An array is kept with its
    length only; [Object] stands for a plain object without a [length]
    property. *)
Inductive Value :=
| Undefined
| Null
| Bool (b : bool)
| Number (q : Q)
| Str (s : string)
| Array (len : nat)
| Object.

(** [!v] is [negb (truthy v)]. *)
Definition truthy (v : Value) : bool :=
  match v with
  | Undefined | Null => false
  | Bool b => b
  | Number q => negb (Qnum q =? 0)
  | Str s => negb (String.eqb s "")
  | Array _ | Object => true
  end.

(** [typeof v === 'number'] *)
Definition isNumber (v : Value) : bool :=
  match v with Number _ => true | _ => false end.

(** [v.length < n]: the property is a number for strings and arrays and
    [undefined] otherwise, and [undefined < n] is false. *)
Definition lengthBelow (v : Value) (n : Z) : bool :=
  match v with
  | Str s => Z.of_nat (String.length s) <? n
  | Array len => Z.of_nat len <? n
  | _ => false
  end.

(** The outcome of code that may throw. *)
Inductive Completion (A : Type) :=
| Normal (a : A)
| Throw.
Arguments Normal {A} a.
Arguments Throw {A}.

(** *** Strings *)

Definition lowerChar (c : ascii) : ascii :=
  let n := nat_of_ascii c in
  if ((65 <=? n)%nat && (n <=? 90)%nat)%bool then ascii_of_nat (n + 32) else c.

Fixpoint toLowerCase (s : string) : string :=
  match s with
  | EmptyString => EmptyString
  | String c s' => String (lowerChar c) (toLowerCase s')
  end.

(** [s.startsWith(p)] *)
Definition startsWith (s p : string) : bool := String.prefix p s.

(** [s.includes(sub)] *)
Fixpoint includes (s sub : string) : bool :=
  (String.prefix sub s ||
   match s with
   | EmptyString => false
   | String _ s' => includes s' sub
   end)%bool.

(** [s.slice(n)] for [n >= 0] *)
Fixpoint sliceFrom (n : nat) (s : string) : string :=
  match n, s with
  | O, _ => s
  | S n', String _ s' => sliceFrom n' s'
  | S _, EmptyString => EmptyString
  end.

Definition isSpace (c : ascii) : bool :=
  let n := nat_of_ascii c in
  ((n =? 32)%nat || ((9 <=? n)%nat && (n <=? 13)%nat))%bool.

Fixpoint trimStart (s : string) : string :=
  match s with
  | EmptyString => EmptyString
  | String c s' => if isSpace c then trimStart s' else s
  end.

Fixpoint trimEnd (s : string) : string :=
  match s with
  | EmptyString => EmptyString
  | String c s' =>
      let t := trimEnd s' in
      if (isSpace c && String.eqb t "")%bool then EmptyString else String c t
  end.

(** [s.trim()] *)
Definition trim (s : string) : string := trimEnd (trimStart s).

(** [s.split(sep)] for a one-character separator *)
Fixpoint split (sep : ascii) (s : string) : list string :=
  match s with
  | EmptyString => [EmptyString]
  | String c s' =>
      if Ascii.eqb c sep then EmptyString :: split sep s'
      else match split sep s' with
           | h :: t => String c h :: t
           | [] => [String c EmptyString]
           end
  end.

(** [parts.join(sep)] *)
Fixpoint join (sep : string) (parts : list string) : string :=
  match parts with
  | [] => EmptyString
  | [p] => p
  | p :: rest => p +:+ sep +:+ join sep rest
  end.

(** [n.toString()] for an integer below 10^21 in absolute value *)
Definition toString (n : Z) : string := NilEmpty.string_of_int (Z.to_int n).

(** *** Arrays *)

(** [a.slice(start, end)]: negative indices count from the end, and both
    are clipped to the array. *)
Definition sliceIndex (len i : Z) : Z :=
  if i <? 0 then Z.max (len + i) 0 else Z.min i len.

Definition slice {A} (a : list A) (start stop : Z) : list A :=
  let len := Z.of_nat (length a) in
  let k := sliceIndex len start in
  let final := sliceIndex len stop in
  take (Z.to_nat (final - k)) (drop (Z.to_nat k) a).

(** [a.sort(compareFn)].  The sort of the language is stable and orders
    [x] before [y] when [compareFn x y <= 0]; for a comparator that is a
    total preorder this fixes the result, which the insertion sort below
    computes. *)
Fixpoint insertSorted {A} (compareFn : A -> A -> Z) (x : A) (l : list A) : list A :=
  match l with
  | [] => [x]
  | y :: l' =>
      if compareFn x y <=? 0 then x :: y :: l'
      else y :: insertSorted compareFn x l'
  end.

Fixpoint sort {A} (compareFn : A -> A -> Z) (l : list A) : list A :=
  match l with
  | [] => []
  | x :: l' => insertSorted compareFn x (sort compareFn l')
  end.

(** [a.findIndex(p)], with [None] for -1 *)
Fixpoint findIndex {A} (p : A -> bool) (l : list A) : option nat :=
  match l with
  | [] => None
  | x :: l' => if p x then Some O else S <$> findIndex p l'
  end.

(** [Math.ceil(n / d)] on integers, for [d <> 0] *)
Definition ceilDiv (n d : Z) : Z := - ((- n) / d).

End Js.

(** ** The employee record on the wire: [{id, firstName, lastName, email,
department, salary}] *)

Module Emp.
Record t := make {
  id : string;
  firstName : string;
  lastName : string;
  email : string;
  department : string;
  salary : Z
}.
End Emp.

(** ** The server: tables, session gate and route handlers *)

Module Server.

(** What the handlers use of the platform: the built-in decoder of percent
    escapes ([None] when it throws [URIError]), the text the database
    client sends for a query parameter, the password hash with the salt
    it draws, and the order of the collation of the database on texts.  A
    string parameter is sent as it is, and no truthy value is sent as the
    empty text.  A collation is a total preorder: [collate a b] is [Lt],
    [Eq] or [Gt] as [a] sorts before, with or after [b]. *)
Class Runtime := {
  decodeURIComponent : string -> option string;
  prepareValue : Js.Value -> string;
  bcryptHash : string -> string;
  collate : string -> string -> comparison;
  prepareValue_string : forall s, prepareValue (Js.Str s) = s;
  prepareValue_truthy :
    forall v, Js.truthy v = true -> prepareValue v <> EmptyString;
  collate_antisym : forall a b, collate b a = CompOpp (collate a b);
  collate_trans :
    forall a b c, collate a b <> Gt -> collate b c <> Gt -> collate a c <> Gt
}.

(** *** Tables.  Each table is a finite map from its primary key [id] to
    the other columns of the row. *)

Module EmployeeRow.
Record t := make {
  firstname : string;
  lastname : string;
  email : string;
  department : string;
  salary : Z;
  userid : string
}.
End EmployeeRow.

Module UserRow.
Record t := make {
  name : string;
  email : string;
  password : string
}.
End UserRow.

Record Db := mkDb {
  users : gmap string UserRow.t;
  employees : gmap string EmployeeRow.t
}.

Definition emptyDb : Db := mkDb ∅ ∅.

(** The error of a rejected statement: code 23505 or any other code. *)
Inductive DbError := UniqueViolation | OtherError.

(** [LOWER(email)] *)
Definition LOWER (s : string) : string := Js.toLowerCase s.

(** The key of [employees_user_email_lower_unique ON employees (userId,
    LOWER(email))]. *)
Definition indexKey (r : EmployeeRow.t) : string * string :=
  (EmployeeRow.userid r, LOWER (EmployeeRow.email r)).

Definition sameKey (k1 k2 : string * string) : bool :=
  (String.eqb k1.1 k2.1 && String.eqb k1.2 k2.2)%bool.

(** A text bound to a parameter of a statement: the database refuses a
    text that holds the character U+0000 (error 22021), whatever the
    statement. *)
Fixpoint pgText (s : string) : bool :=
  match s with
  | EmptyString => true
  | String c s' => (negb (Ascii.eqb c "000") && pgText s')%bool
  end.

(** The text parameters of a statement are bound before it is executed, and
    the statement fails when one of them is refused. *)
Definition bindable (params : list string) : bool := forallb pgText params.

(** A value bound to the [salary INTEGER] column: the text of a number is
    read as a 32-bit integer, and any other text is an error. *)
Definition pgInt4 (v : Js.Value) : option Z :=
  match v with
  | Js.Number q =>
      let n := Qnum q / Zpos (Qden q) in
      if ((Qnum q mod Zpos (Qden q) =? 0) &&
          (- 2 ^ 31 <=? n) && (n <=? 2 ^ 31 - 1))%bool
      then Some n else None
  | _ => None
  end.

(** [INSERT INTO employees], once its parameters are bound: the primary key
    and the unique index are checked against the rows present. *)
Definition insertEmployee (id : string) (row : EmployeeRow.t)
    (tbl : gmap string EmployeeRow.t) : DbError + gmap string EmployeeRow.t :=
  match tbl !! id with
  | Some _ => inl UniqueViolation
  | None =>
      if existsb (fun kr => sameKey (indexKey kr.2) (indexKey row))
                 (map_to_list tbl)
      then inl UniqueViolation
      else inr (<[id := row]> tbl)
  end.

(** [UPDATE employees SET ... WHERE id=$6 AND userid=$7 RETURNING ...],
    once its parameters are bound: the rows returned and the new table; the
    unique index is checked against the other rows. *)
Definition updateEmployee (id userId : string)
    (firstName lastName email department : string) (salary : Z)
    (tbl : gmap string EmployeeRow.t)
    : DbError + (list (string * EmployeeRow.t) * gmap string EmployeeRow.t) :=
  match tbl !! id with
  | Some old =>
      if String.eqb (EmployeeRow.userid old) userId then
        let row := EmployeeRow.make firstName lastName email department
                     salary (EmployeeRow.userid old) in
        if existsb (fun kr => (negb (String.eqb kr.1 id) &&
                               sameKey (indexKey kr.2) (indexKey row))%bool)
                   (map_to_list tbl)
        then inl UniqueViolation
        else inr ([(id, row)], <[id := row]> tbl)
      else inr ([], tbl)
  | None => inr ([], tbl)
  end.

(** [DELETE FROM employees WHERE id=$1 AND userid=$2], once its parameters
    are bound: the row count and the new table. *)
Definition deleteEmployee (id userId : string)
    (tbl : gmap string EmployeeRow.t) : Z * gmap string EmployeeRow.t :=
  match tbl !! id with
  | Some old =>
      if String.eqb (EmployeeRow.userid old) userId
      then (1, delete id tbl) else (0, tbl)
  | None => (0, tbl)
  end.

(** [INSERT INTO users], once its parameters are bound: primary key, and
    [email TEXT UNIQUE]. *)
Definition insertUser (id : string) (row : UserRow.t)
    (tbl : gmap string UserRow.t) : DbError + gmap string UserRow.t :=
  match tbl !! id with
  | Some _ => inl UniqueViolation
  | None =>
      if existsb (fun kr => String.eqb (UserRow.email kr.2) (UserRow.email row))
                 (map_to_list tbl)
      then inl UniqueViolation
      else inr (<[id := row]> tbl)
  end.

(** The row as the [RETURNING] and [SELECT] clauses shape it. *)
Definition toEmployee (kr : string * EmployeeRow.t) : Emp.t :=
  Emp.make kr.1 (EmployeeRow.firstname kr.2) (EmployeeRow.lastname kr.2)
    (EmployeeRow.email kr.2) (EmployeeRow.department kr.2)
    (EmployeeRow.salary kr.2).

(** [ORDER BY lastname, firstname], in the collation of the database. *)
Definition orderByName `{RT : Runtime} (a b : Emp.t) : Z :=
  match collate (Emp.lastName a) (Emp.lastName b) with
  | Lt => -1
  | Gt => 1
  | Eq => match collate (Emp.firstName a) (Emp.firstName b) with
          | Lt => -1
          | Gt => 1
          | Eq => 0
          end
  end.

(** [SELECT ... FROM employees WHERE userid=$1 ORDER BY lastname, firstname],
    once its parameter is bound. *)
Definition selectEmployees `{RT : Runtime} (userId : string)
    (tbl : gmap string EmployeeRow.t) : list Emp.t :=
  Js.sort orderByName
    (map toEmployee
       (List.filter (fun kr => String.eqb (EmployeeRow.userid kr.2) userId)
                    (map_to_list tbl))).

(** *** Responses *)

Record User := mkUser { user_id : string; user_name : string; user_email : string }.

Inductive Payload :=
| Empty
| Error (error : string)
| Message (message : string)
| OneEmployee (e : Emp.t)
| Employees (rows : list Emp.t)
| Registered (message : string) (user : User)
| CurrentUser (user : User).

Record Response := respond { status : Z; payload : Payload }.

(** *** Request bodies *)

Record EmployeeBody := mkEmployeeBody {
  firstName : Js.Value;
  lastName : Js.Value;
  email : Js.Value;
  department : Js.Value;
  salary : Js.Value
}.

Record RegisterBody := mkRegisterBody {
  reg_name : Js.Value;
  reg_email : Js.Value;
  reg_password : Js.Value
}.

Section Handlers.
Context `{RT : Runtime}.

(** The loop of [getUserIdFromCookie] over the parts of the header. *)
Fixpoint firstUid (parts : list string) : Js.Completion (option string) :=
  match parts with
  | [] => Js.Normal None
  | part :: rest =>
      if Js.startsWith part "uid=" then
        match decodeURIComponent (Js.sliceFrom 4 part) with
        | Some v => Js.Normal (Some v)
        | None => Js.Throw
        end
      else firstUid rest
  end.

(** [cookie] is [req.headers.cookie], [None] when the header is absent. *)
Definition getUserIdFromCookie (cookie : option string)
    : Js.Completion (option string) :=
  let cookieHeader := match cookie with
                      | Some h => h
                      | None => EmptyString
                      end in
  firstUid (map Js.trim (Js.split ";" cookieHeader)).

(** The gate of the employee routes.  An exception of the decoder is
    answered by the framework with status 500. *)
Definition authRequired (cookie : option string) (db : Db)
    (next : string -> Response * Db) : Response * Db :=
  match getUserIdFromCookie cookie with
  | Js.Throw => (respond 500 Empty, db)
  | Js.Normal None => (respond 401 (Error "Unauthorized"), db)
  | Js.Normal (Some userId) =>
      if String.eqb userId "" then (respond 401 (Error "Unauthorized"), db)
      else next userId
  end.

(** [POST /api/auth/register].  The email is bound by the [SELECT] and
    again by the [INSERT]: a text that the database refuses matches no row
    and fails either statement with the same answer, so that the refusal is
    written once, at the [INSERT]. *)
Definition register (body : RegisterBody) (newId : string) (db : Db)
    : Response * Db :=
  let name := reg_name body in
  let email := reg_email body in
  let password := reg_password body in
  if (negb (Js.truthy name) || negb (Js.truthy email) ||
      negb (Js.truthy password))%bool
  then (respond 400 (Error "All fields are required"), db)
  else if Js.lengthBelow password 6
  then (respond 400 (Error "Password must be at least 6 characters"), db)
  else if existsb (fun kr => String.eqb (UserRow.email kr.2) (prepareValue email))
                  (map_to_list (users db))
  then (respond 409 (Error "User with this email already exists"), db)
  else
    match password with
    | Js.Str p =>
        let row := UserRow.make (prepareValue name) (prepareValue email)
                     (bcryptHash p) in
        if bindable [newId; UserRow.name row; UserRow.email row;
                     UserRow.password row]
        then
          match insertUser newId row (users db) with
          | inr tbl =>
              (respond 201
                 (Registered "Registration successful"
                    (mkUser newId (UserRow.name row) (UserRow.email row))),
               mkDb tbl (employees db))
          | inl _ => (respond 500 (Error "Failed to register user"), db)
          end
        else (respond 500 (Error "Failed to register user"), db)
    | _ => (respond 500 (Error "Failed to register user"), db)
    end.

(** [GET /api/auth/me].  The handler is asynchronous and calls the
    decoder outside its [try]: [Throw] is its rejected promise.  A failure
    of the query is caught and answered 500. *)
Definition me (cookie : option string) (db : Db) : Js.Completion Response :=
  match getUserIdFromCookie cookie with
  | Js.Throw => Js.Throw
  | Js.Normal None => Js.Normal (respond 401 (Error "Unauthorized"))
  | Js.Normal (Some userId) =>
      if String.eqb userId "" then Js.Normal (respond 401 (Error "Unauthorized"))
      else if negb (bindable [userId])
      then Js.Normal (respond 500 (Error "Failed to fetch user"))
      else match users db !! userId with
           | None => Js.Normal (respond 401 (Error "Unauthorized"))
           | Some u =>
               Js.Normal (respond 200
                 (CurrentUser (mkUser userId (UserRow.name u) (UserRow.email u))))
           end
  end.

(** [GET /api/employees] *)
Definition getEmployees (cookie : option string) (db : Db) : Response * Db :=
  authRequired cookie db (fun userId =>
    if bindable [userId]
    then (respond 200 (Employees (selectEmployees userId (employees db))), db)
    else (respond 500 (Message "Failed to fetch employees"), db)).

(** The test both [POST] and [PUT] apply to the body. *)
Definition invalidEmployeeData (body : EmployeeBody) : bool :=
  (negb (Js.truthy (firstName body)) || negb (Js.truthy (lastName body)) ||
   negb (Js.truthy (email body)) || negb (Js.truthy (department body)) ||
   negb (Js.isNumber (salary body)))%bool.

(** [POST /api/employees] *)
Definition postEmployees (cookie : option string) (body : EmployeeBody)
    (newId : string) (db : Db) : Response * Db :=
  authRequired cookie db (fun userId =>
    if invalidEmployeeData body
    then (respond 400 (Message "Invalid employee data"), db)
    else
      match pgInt4 (salary body) with
      | None => (respond 500 (Message "Failed to add employee"), db)
      | Some sal =>
          let row := EmployeeRow.make
                       (prepareValue (firstName body))
                       (prepareValue (lastName body))
                       (prepareValue (email body))
                       (prepareValue (department body)) sal userId in
          if bindable [newId; EmployeeRow.firstname row; EmployeeRow.lastname row;
                       EmployeeRow.email row; EmployeeRow.department row; userId]
          then
            match insertEmployee newId row (employees db) with
            | inr tbl =>
                (respond 201 (OneEmployee (toEmployee (newId, row))),
                 mkDb (users db) tbl)
            | inl UniqueViolation =>
                (respond 409
                   (Message "An employee with this email already exists."), db)
            | inl OtherError =>
                (respond 500 (Message "Failed to add employee"), db)
            end
          else (respond 500 (Message "Failed to add employee"), db)
      end).

(** [PUT /api/employees/:id] *)
Definition putEmployees (cookie : option string) (id : string)
    (body : EmployeeBody) (db : Db) : Response * Db :=
  authRequired cookie db (fun userId =>
    if invalidEmployeeData body
    then (respond 400 (Message "Invalid employee data"), db)
    else
      match pgInt4 (salary body) with
      | None => (respond 500 (Message "Failed to update employee"), db)
      | Some sal =>
          if bindable [prepareValue (firstName body); prepareValue (lastName body);
                       prepareValue (email body); prepareValue (department body);
                       id; userId]
          then
            match updateEmployee id userId
                    (prepareValue (firstName body))
                    (prepareValue (lastName body))
                    (prepareValue (email body))
                    (prepareValue (department body)) sal (employees db) with
            | inr ([], _) => (respond 404 (Message "Employee not found"), db)
            | inr (kr :: _, tbl) =>
                (respond 200 (OneEmployee (toEmployee kr)), mkDb (users db) tbl)
            | inl UniqueViolation =>
                (respond 409
                   (Message "An employee with this email already exists."), db)
            | inl OtherError =>
                (respond 500 (Message "Failed to update employee"), db)
            end
          else (respond 500 (Message "Failed to update employee"), db)
      end).

(** [DELETE /api/employees/:id] *)
Definition deleteEmployees (cookie : option string) (id : string) (db : Db)
    : Response * Db :=
  authRequired cookie db (fun userId =>
    if bindable [id; userId]
    then
      let '(rowCount, tbl) := deleteEmployee id userId (employees db) in
      if rowCount =? 0 then (respond 404 (Message "Employee not found"), db)
      else (respond 204 Empty, mkDb (users db) tbl)
    else (respond 500 (Message "Failed to delete employee"), db)).

End Handlers.

End Server.


(** ** The client: module state, view pipeline and export *)

Module Client.

Inductive SortDirection := asc | desc.

(** The columns [a[sortField]] can read as text. *)
Inductive Column := ColId | ColFirstName | ColLastName | ColEmail | ColDepartment.

(** [sortField]: ['name'], ['salary'], or the name of a text column. *)
Inductive SortField := SortName | SortSalary | SortColumn (c : Column).

Record Toast := mkToast { title : string; description : string; variant : string }.

(** The form data sent with an add or an edit; [salary] is the result of
    [parseInt], [None] for [NaN]. *)
Record FormData := mkFormData {
  firstName : string;
  lastName : string;
  email : string;
  department : string;
  salary : option Z
}.

(** The outcome of [await fetch(...)] followed, for an [ok] response, by
    [await response.json()]: the promise is rejected with an error message,
    or a response arrives whose body parses to a value or fails to parse. *)
Inductive FetchResult (A : Type) :=
| Rejected (message : string)
| Responded (ok : bool) (json : string + A).
Arguments Rejected {A} message.
Arguments Responded {A} ok json.

(** What [updatePagination] writes to the page. *)
Record Pagination := mkPagination {
  totalResults : Z;
  pageInfo : Z * Z;
  prevDisabled : bool;
  nextDisabled : bool
}.

(** The module-level variables, and the parts of the page the functions read
    and write: the values of the search box and of the department selector,
    the rows of the table body (no row stands for the "No employees found"
    placeholder), the pagination footer and the notifications shown. *)
Record State := mkState {
  employees : list Emp.t;
  filteredEmployees : list Emp.t;
  currentPage : Z;
  rowsPerPage : Z;
  sortField : SortField;
  sortDirection : SortDirection;
  searchInput : string;
  filterDepartment : string;
  tableBody : list Emp.t;
  pagination : Pagination;
  toasts : list Toast
}.

Definition set_employees (v : list Emp.t) (s : State) : State :=
  mkState v (filteredEmployees s) (currentPage s) (rowsPerPage s) (sortField s)
    (sortDirection s) (searchInput s) (filterDepartment s) (tableBody s)
    (pagination s) (toasts s).

Definition set_filteredEmployees (v : list Emp.t) (s : State) : State :=
  mkState (employees s) v (currentPage s) (rowsPerPage s) (sortField s)
    (sortDirection s) (searchInput s) (filterDepartment s) (tableBody s)
    (pagination s) (toasts s).

Definition set_currentPage (v : Z) (s : State) : State :=
  mkState (employees s) (filteredEmployees s) v (rowsPerPage s) (sortField s)
    (sortDirection s) (searchInput s) (filterDepartment s) (tableBody s)
    (pagination s) (toasts s).

Definition set_rowsPerPage (v : Z) (s : State) : State :=
  mkState (employees s) (filteredEmployees s) (currentPage s) v (sortField s)
    (sortDirection s) (searchInput s) (filterDepartment s) (tableBody s)
    (pagination s) (toasts s).

Definition set_sort (f : SortField) (d : SortDirection) (s : State) : State :=
  mkState (employees s) (filteredEmployees s) (currentPage s) (rowsPerPage s) f
    d (searchInput s) (filterDepartment s) (tableBody s)
    (pagination s) (toasts s).

Definition set_searchInput (v : string) (s : State) : State :=
  mkState (employees s) (filteredEmployees s) (currentPage s) (rowsPerPage s)
    (sortField s) (sortDirection s) v (filterDepartment s) (tableBody s)
    (pagination s) (toasts s).

Definition set_filterDepartment (v : string) (s : State) : State :=
  mkState (employees s) (filteredEmployees s) (currentPage s) (rowsPerPage s)
    (sortField s) (sortDirection s) (searchInput s) v (tableBody s)
    (pagination s) (toasts s).

Definition set_tableBody (v : list Emp.t) (s : State) : State :=
  mkState (employees s) (filteredEmployees s) (currentPage s) (rowsPerPage s)
    (sortField s) (sortDirection s) (searchInput s) (filterDepartment s) v
    (pagination s) (toasts s).

Definition set_pagination (v : Pagination) (s : State) : State :=
  mkState (employees s) (filteredEmployees s) (currentPage s) (rowsPerPage s)
    (sortField s) (sortDirection s) (searchInput s) (filterDepartment s)
    (tableBody s) v (toasts s).

(** [showToast(title, description, variant)] *)
Definition showToast (title description variant : string) (s : State) : State :=
  mkState (employees s) (filteredEmployees s) (currentPage s) (rowsPerPage s)
    (sortField s) (sortDirection s) (searchInput s) (filterDepartment s)
    (tableBody s) (pagination s)
    (toasts s ++ [mkToast title description variant]).

(** The variables as the script declares them, over a page whose search box
    holds [text] and whose selector holds [dept], with nothing rendered. *)
Definition initialState (text dept : string) : State :=
  mkState [] [] 1 10 SortName asc text dept []
    (mkPagination 0 (1, 1) false false) [].

(** [`${emp.firstName} ${emp.lastName}`] *)
Definition fullName (emp : Emp.t) : string :=
  Emp.firstName emp +:+ " " +:+ Emp.lastName emp.

(** *** Search and filter *)

Definition matchesSearch (searchQuery : string) (emp : Emp.t) : bool :=
  (String.eqb searchQuery "" ||
   Js.includes (Js.toLowerCase (fullName emp)) searchQuery ||
   Js.includes (Js.toLowerCase (Emp.email emp)) searchQuery ||
   Js.includes (Js.toLowerCase (Emp.department emp)) searchQuery)%bool.

Definition matchesDept (selectedDept : string) (emp : Emp.t) : bool :=
  (String.eqb selectedDept "all" || String.eqb (Emp.department emp) selectedDept)%bool.

(** *** Sorting *)

(** The values the comparator compares: lowercased text, or the salary. *)
Inductive SortValue := Text (s : string) | Num (n : Z).

Definition column (c : Column) (emp : Emp.t) : string :=
  match c with
  | ColId => Emp.id emp
  | ColFirstName => Emp.firstName emp
  | ColLastName => Emp.lastName emp
  | ColEmail => Emp.email emp
  | ColDepartment => Emp.department emp
  end.

Definition sortValue (f : SortField) (emp : Emp.t) : SortValue :=
  match f with
  | SortName => Text (Js.toLowerCase (fullName emp))
  | SortSalary => Num (Emp.salary emp)
  | SortColumn c => Text (Js.toLowerCase (column c emp))
  end.

(** [aValue < bValue] *)
Definition lessThan (a b : SortValue) : bool :=
  match a, b with
  | Text x, Text y => String.ltb x y
  | Num x, Num y => x <? y
  | _, _ => false
  end.

(** The comparator handed to [filteredEmployees.sort]. *)
Definition compareFn (f : SortField) (d : SortDirection) (a b : Emp.t) : Z :=
  let aValue := sortValue f a in
  let bValue := sortValue f b in
  if lessThan aValue bValue then match d with asc => -1 | desc => 1 end
  else if lessThan bValue aValue then match d with asc => 1 | desc => -1 end
  else 0.

Definition sortEmployees (s : State) : State :=
  set_filteredEmployees
    (Js.sort (compareFn (sortField s) (sortDirection s)) (filteredEmployees s)) s.

(** *** Pagination and rendering *)

Definition renderTable (s : State) : State :=
  let start := (currentPage s - 1) * rowsPerPage s in
  let stop := start + rowsPerPage s in
  set_tableBody (Js.slice (filteredEmployees s) start stop) s.

Definition updatePagination (s : State) : State :=
  let totalPages :=
    Z.max 1 (Js.ceilDiv (Z.of_nat (length (filteredEmployees s))) (rowsPerPage s)) in
  set_pagination
    (mkPagination (Z.of_nat (length (filteredEmployees s)))
       (currentPage s, totalPages)
       (currentPage s =? 1) (currentPage s =? totalPages)) s.

Definition applyFilters (s : State) : State :=
  let searchQuery := Js.toLowerCase (searchInput s) in
  let selectedDept := filterDepartment s in
  let s1 := set_filteredEmployees
              (List.filter
                 (fun emp => (matchesSearch searchQuery emp &&
                              matchesDept selectedDept emp)%bool)
                 (employees s)) s in
  updatePagination (renderTable (sortEmployees s1)).

Definition handleSearch (s : State) : State := applyFilters (set_currentPage 1 s).

Definition handleFilter (s : State) : State := applyFilters (set_currentPage 1 s).

Definition SortField_eqb (a b : SortField) : bool :=
  match a, b with
  | SortName, SortName => true
  | SortSalary, SortSalary => true
  | SortColumn ColId, SortColumn ColId => true
  | SortColumn ColFirstName, SortColumn ColFirstName => true
  | SortColumn ColLastName, SortColumn ColLastName => true
  | SortColumn ColEmail, SortColumn ColEmail => true
  | SortColumn ColDepartment, SortColumn ColDepartment => true
  | _, _ => false
  end.

Definition handleSort (field : SortField) (s : State) : State :=
  let s1 :=
    if SortField_eqb (sortField s) field
    then set_sort (sortField s)
           (match sortDirection s with asc => desc | desc => asc end) s
    else set_sort field asc s in
  renderTable (sortEmployees s1).

(** [n] is [parseInt(rowsPerPageSelect.value)]. *)
Definition handleRowsPerPageChange (n : Z) (s : State) : State :=
  updatePagination (renderTable (set_currentPage 1 (set_rowsPerPage n s))).

Definition changePage (page : Z) (s : State) : State :=
  let totalPages :=
    Js.ceilDiv (Z.of_nat (length (filteredEmployees s))) (rowsPerPage s) in
  if ((page <? 1) || (page >? totalPages))%bool then s
  else updatePagination (renderTable (set_currentPage page s)).

(** *** Calls to the server *)

(** [error.message || fallback] *)
Definition messageOr (message fallback : string) : string :=
  if String.eqb message "" then fallback else message.

Definition loadEmployees (result : FetchResult (list Emp.t)) (s : State) : State :=
  match result with
  | Responded true (inr rows) => applyFilters (set_employees rows s)
  | _ => showToast "Error" "Failed to load employees" "destructive" s
  end.

(** The error thrown for a response that is not [ok] is caught by the inner
    [catch] and replaced by the fixed message. *)
Definition addEmployee (employeeData : FormData) (result : FetchResult Emp.t)
    (s : State) : State :=
  match result with
  | Rejected message =>
      showToast "Error" (messageOr message "Failed to add employee") "destructive" s
  | Responded false _ =>
      showToast "Error" "Failed to add employee" "destructive" s
  | Responded true (inl message) =>
      showToast "Error" (messageOr message "Failed to add employee") "destructive" s
  | Responded true (inr newEmployee) =>
      showToast "Employee Added"
        (firstName employeeData +:+ " " +:+ lastName employeeData +:+
         " has been added successfully.") ""
        (applyFilters (set_employees (employees s ++ [newEmployee]) s))
  end.

Definition updateEmployee (id : string) (employeeData : FormData)
    (result : FetchResult Emp.t) (s : State) : State :=
  match result with
  | Rejected message =>
      showToast "Error" (messageOr message "Failed to update employee") "destructive" s
  | Responded false _ =>
      showToast "Error" "Failed to update employee" "destructive" s
  | Responded true (inl message) =>
      showToast "Error" (messageOr message "Failed to update employee") "destructive" s
  | Responded true (inr updatedEmployee) =>
      match Js.findIndex (fun emp => String.eqb (Emp.id emp) id) (employees s) with
      | Some index =>
          showToast "Employee Updated"
            (firstName employeeData +:+ " " +:+ lastName employeeData +:+
             " has been updated successfully.") ""
            (applyFilters
               (set_employees (<[index := updatedEmployee]> (employees s)) s))
      | None => s
      end
  end.

(** [confirmed] is the answer to the confirmation dialog. *)
Definition deleteEmployee (id : string) (confirmed : bool)
    (result : FetchResult unit) (s : State) : State :=
  match List.find (fun emp => String.eqb (Emp.id emp) id) (employees s) with
  | None => s
  | Some employee =>
      if negb confirmed then s
      else
        match result with
        | Responded true _ =>
            showToast "Employee Deleted"
              (fullName employee +:+ " has been removed.") "destructive"
              (applyFilters
                 (set_employees
                    (List.filter (fun emp => negb (String.eqb (Emp.id emp) id))
                                 (employees s)) s))
        | _ => showToast "Error" "Failed to delete employee" "destructive" s
        end
  end.

(** *** Form handlers *)

Definition handleAddEmployee (formData : FormData) (result : FetchResult Emp.t)
    (s : State) : State :=
  let emailExists :=
    existsb (fun emp => String.eqb (Js.toLowerCase (Emp.email emp))
                                   (Js.toLowerCase (email formData)))
            (employees s) in
  if emailExists
  then showToast "Duplicate Email" "An employee with this email already exists."
         "destructive" s
  else addEmployee formData result s.

Definition handleEditEmployee (id : string) (formData : FormData)
    (result : FetchResult Emp.t) (s : State) : State :=
  updateEmployee id formData result s.

(** *** Export *)

Definition csvHeaders : list string := ["Name"; "Email"; "Department"; "Salary (₹)"].

Definition csvRow (emp : Emp.t) : list string :=
  [fullName emp; Emp.email emp; Emp.department emp; Js.toString (Emp.salary emp)].

(** [`"${cell}"`] *)
Definition quoted (cell : string) : string :=
  String "034"%char (cell +:+ String "034"%char EmptyString).

(** The text of the file [exportToCSV] offers for download. *)
Definition csvContent (s : State) : string :=
  Js.join (String "010"%char EmptyString)
    (Js.join "," csvHeaders ::
     map (fun row => Js.join "," (map quoted row))
         (map csvRow (filteredEmployees s))).

Definition exportToCSV (s : State) : string * State :=
  (csvContent s,
   showToast "CSV Exported" "Employee data has been exported to CSV." "" s).

(** *** The client as a transition system *)

(** What can happen to the page after it has loaded: the user edits the
    search box or the selectors, asks for a page, clicks a column header,
    or submits a form or a deletion whose request then completes. *)
Inductive Event :=
| SearchInput (text : string)
| DepartmentChange (dept : string)
| RowsPerPageChange (n : Z)
| PageRequest (page : Z)
| SortClick (field : SortField)
| AddSubmit (formData : FormData) (result : FetchResult Emp.t)
| EditSubmit (id : string) (formData : FormData) (result : FetchResult Emp.t)
| DeleteClick (id : string) (confirmed : bool) (result : FetchResult unit)
| CsvClick.

Definition step (ev : Event) (s : State) : State :=
  match ev with
  | SearchInput text => handleSearch (set_searchInput text s)
  | DepartmentChange dept => handleFilter (set_filterDepartment dept s)
  | RowsPerPageChange n => handleRowsPerPageChange n s
  | PageRequest page => changePage page s
  | SortClick field => handleSort field s
  | AddSubmit formData result => handleAddEmployee formData result s
  | EditSubmit id formData result => handleEditEmployee id formData result s
  | DeleteClick id confirmed result => deleteEmployee id confirmed result s
  | CsvClick => (exportToCSV s).2
  end.

Definition run (evs : list Event) (s : State) : State :=
  foldl (fun st ev => step ev st) s evs.

End Client.


(** ** The properties stated about the model *)

Module Props.

(** *** Server *)

(** The unique index as a property of the table: no two rows share an owner
    and a lowercased email. *)
Definition indexUnique (tbl : gmap string Server.EmployeeRow.t) : Prop :=
  forall i j r1 r2,
    tbl !! i = Some r1 -> tbl !! j = Some r2 ->
    Server.indexKey r1 = Server.indexKey r2 -> i = j.

(** No row of the owner holds the email, letter case apart. *)
Definition emailFree (tbl : gmap string Server.EmployeeRow.t)
    (userId email : string) : Prop :=
  forall i r, tbl !! i = Some r ->
    Server.indexKey r <> (userId, Server.LOWER email).

(** What the table guarantees of a stored row: text columns that are not
    empty and a 32-bit salary. *)
Definition wellFormedRow (r : Server.EmployeeRow.t) : Prop :=
  Server.EmployeeRow.firstname r <> EmptyString /\
  Server.EmployeeRow.lastname r <> EmptyString /\
  Server.EmployeeRow.email r <> EmptyString /\
  Server.EmployeeRow.department r <> EmptyString /\
  - 2 ^ 31 <= Server.EmployeeRow.salary r <= 2 ^ 31 - 1.

(** A body whose four text fields are strings and whose salary is the
    integer [n]. *)
Definition textBody (firstName lastName email department : string) (n : Z)
    : Server.EmployeeBody :=
  Server.mkEmployeeBody (Js.Str firstName) (Js.Str lastName) (Js.Str email)
    (Js.Str department) (Js.Number (n # 1)).

Definition registration (name email password : string) : Server.RegisterBody :=
  Server.mkRegisterBody (Js.Str name) (Js.Str email) (Js.Str password).

(** No user holds exactly this email. *)
Definition userEmailFree (tbl : gmap string Server.UserRow.t) (email : string)
    : Prop :=
  forall i u, tbl !! i = Some u -> Server.UserRow.email u <> email.

(** *** Client *)

(** [sub] occurs in [s]. *)
Definition isSubstring (sub s : string) : Prop :=
  exists pre post, s = pre +:+ sub +:+ post.

(** The filter predicate in the words of the specification. *)
Definition matchesSpec (searchText deptFilter : string) (emp : Emp.t) : Prop :=
  (searchText = EmptyString \/
   isSubstring (Js.toLowerCase searchText)
     (Js.toLowerCase (Emp.firstName emp +:+ " " +:+ Emp.lastName emp)) \/
   isSubstring (Js.toLowerCase searchText) (Js.toLowerCase (Emp.email emp)) \/
   isSubstring (Js.toLowerCase searchText) (Js.toLowerCase (Emp.department emp)))
  /\ (deptFilter = "all" \/ Emp.department emp = deptFilter).

(** The number of pages the footer shows: at least one. *)
Definition totalPages (s : Client.State) : Z :=
  Z.max 1 (Js.ceilDiv (Z.of_nat (length (Client.filteredEmployees s)))
                      (Client.rowsPerPage s)).

Definition pageInvariant (s : Client.State) : Prop :=
  1 <= Client.currentPage s <= totalPages s.

(** The record passes the search box and the selector as they stand. *)
Definition visible (s : Client.State) (emp : Emp.t) : bool :=
  (Client.matchesSearch (Js.toLowerCase (Client.searchInput s)) emp &&
   Client.matchesDept (Client.filterDepartment s) emp)%bool.

(** The filtered view holds the records of the cache that pass the filter. *)
Definition viewConsistent (s : Client.State) : Prop :=
  Client.filteredEmployees s ≡ₚ List.filter (visible s) (Client.employees s).

(** The three facts carried along a run of the page. *)
Definition inRange (s : Client.State) : Prop :=
  pageInvariant s /\ viewConsistent s /\ 0 < Client.rowsPerPage s.

(** The events after which the page is known to stay in range: every event
    but an edit or a deletion that the server confirms, with a page size
    that is positive. *)
Definition pageSafe (ev : Client.Event) : Prop :=
  match ev with
  | Client.RowsPerPageChange n => 0 < n
  | Client.EditSubmit _ _ (Client.Responded true (inr _)) => False
  | Client.DeleteClick _ true (Client.Responded true _) => False
  | _ => True
  end.

(** The response of the server is a confirmed success. *)
Definition confirmed {A} (result : Client.FetchResult A) : bool :=
  match result with
  | Client.Responded true (inr _) => true
  | _ => false
  end.

Definition okStatus {A} (result : Client.FetchResult A) : bool :=
  match result with
  | Client.Responded true _ => true
  | _ => false
  end.

(** The salary sort of a list, as [sortEmployees] performs it. *)
Definition sortBySalary (d : Client.SortDirection) (l : list Emp.t) : list Emp.t :=
  Js.sort (Client.compareFn Client.SortSalary d) l.

(** The orders of a list sorted by salary. *)
Definition nondecreasing : relation Emp.t :=
  fun a b => Emp.salary a <= Emp.salary b.

Definition nonincreasing : relation Emp.t :=
  fun a b => Emp.salary b <= Emp.salary a.

(** The quotation mark, as a text of one character. *)
Definition quoteMark : string := String "034"%char EmptyString.

(** One line of the export for a record, character by character: the full
    name, the email, the department and the salary in decimal digits, each
    between two quotation marks, with a comma after each but the last. *)
Definition csvLine (emp : Emp.t) : string :=
  quoteMark +:+ Emp.firstName emp +:+ " " +:+ Emp.lastName emp +:+ quoteMark +:+
  "," +:+
  quoteMark +:+ Emp.email emp +:+ quoteMark +:+
  "," +:+
  quoteMark +:+ Emp.department emp +:+ quoteMark +:+
  "," +:+
  quoteMark +:+ Js.toString (Emp.salary emp) +:+ quoteMark.

(** The header line of the export. *)
Definition csvHeaderLine : string := "Name,Email,Department,Salary (₹)".

Definition lineFeed : ascii := "010"%char.

(** The character [c] does not occur in [s]. *)
Fixpoint lacks (c : ascii) (s : string) : bool :=
  match s with
  | EmptyString => true
  | String d s' => (negb (Ascii.eqb d c) && lacks c s')%bool
  end.

(** No text field of the record holds a line feed. *)
Definition singleLine (emp : Emp.t) : bool :=
  (lacks lineFeed (Emp.firstName emp) && lacks lineFeed (Emp.lastName emp) &&
   lacks lineFeed (Emp.email emp) && lacks lineFeed (Emp.department emp))%bool.

End Props.

(** ** Sample data *)

Module Samples.

(** The record number [i] of a staff list, in department [dept] and paid
    [pay]. *)
Definition employee (i : nat) (dept : string) (pay : Z) : Emp.t :=
  let n := Js.toString (Z.of_nat i) in
  Emp.make ("e" +:+ n) ("First" +:+ n) ("Last" +:+ n)
    ("user" +:+ n +:+ "@x.com") dept pay.

(** [n] records with distinct ids and salaries. *)
Definition staff (n : nat) : list Emp.t :=
  map (fun i => employee i "Engineering" (1000 * Z.of_nat i)) (seq 1 n).

(** The page once the list [rows] has been loaded. *)
Definition loaded (rows : list Emp.t) : Client.State :=
  Client.loadEmployees (Client.Responded true (inr rows))
    (Client.initialState "" "all").

Definition formOf (emp : Emp.t) : Client.FormData :=
  Client.mkFormData (Emp.firstName emp) (Emp.lastName emp) (Emp.email emp)
    (Emp.department emp) (Some (Emp.salary emp)).

End Samples.


(** ** A runtime to run the handlers on concrete requests *)

Module SampleRuntime.

Definition hexValue (c : ascii) : option nat :=
  let n := nat_of_ascii c in
  if ((48 <=? n) && (n <=? 57))%nat then Some (n - 48)%nat
  else if ((65 <=? n) && (n <=? 70))%nat then Some (n - 55)%nat
  else if ((97 <=? n) && (n <=? 102))%nat then Some (n - 87)%nat
  else None.

(** The decoder on ASCII text: an escape [%XX] below 128 is replaced by its
    character, and a malformed escape throws.  An escape from 128 on, which
    leaves ASCII, is answered like a malformed one. *)
Fixpoint decodeAscii (s : string) : option string :=
  match s with
  | EmptyString => Some EmptyString
  | String c rest =>
      if Ascii.eqb c "%" then
        match rest with
        | String h (String l rest') =>
            match hexValue h, hexValue l with
            | Some a, Some b =>
                if (a * 16 + b <? 128)%nat
                then String (ascii_of_nat (a * 16 + b)) <$> decodeAscii rest'
                else None
            | _, _ => None
            end
        | _ => None
        end
      else String c <$> decodeAscii rest
  end.

(** The text of a parameter: a string as it is, a boolean and an integer as
    the language prints them; a number that is not an integer is printed as
    a fraction and an array or object as an empty composite, both of which
    are texts no integer column reads. *)
Definition paramText (v : Js.Value) : string :=
  match v with
  | Js.Undefined | Js.Null => EmptyString
  | Js.Bool true => "true"
  | Js.Bool false => "false"
  | Js.Number q =>
      if Qnum q mod Zpos (Qden q) =? 0
      then Js.toString (Qnum q / Zpos (Qden q))
      else Js.toString (Qnum q) +:+ String "/" (Js.toString (Zpos (Qden q)))
  | Js.Str s => s
  | Js.Array _ | Js.Object => "{}"
  end.

Definition saltedHash (p : string) : string := "$2b$10$" +:+ p.

(** The sample functions form a runtime, with the order of the character
    codes (the collation [C]) as the collation: a string is sent as it is,
    the text of a truthy value is not empty, and the order is a total
    preorder. *)
#[export] Instance runtime : Server.Runtime.
Proof.
  refine {|
    Server.decodeURIComponent := decodeAscii;
    Server.prepareValue := paramText;
    Server.bcryptHash := saltedHash;
    Server.collate := String.compare;
    Server.prepareValue_string := fun s => eq_refl;
    Server.prepareValue_truthy := _;
    Server.collate_antisym := fun a b => String.compare_antisym b a;
    Server.collate_trans := _
  |}.
  - intros v. destruct v as [| |b|q|s| |]; simpl; try discriminate.
    + destruct b; discriminate.
    + intros _. destruct (Qnum q mod Zpos (Qden q) =? 0).
      * unfold Js.toString.
        destruct (Qnum q / Z.pos (Qden q)) as [|p|p]; simpl; try discriminate.
        intros H. pose proof (Unsigned.to_uint_nonnil p) as Hp.
        destruct (Pos.to_uint p); simpl in H; congruence.
      * destruct (Js.toString (Qnum q)); discriminate.
    + destruct s; simpl; [discriminate|]. intros _. discriminate.
  - intros a b c H1 H2.
    destruct (String.compare a b) eqn:Hab; [| |congruence].
    + apply String.compare_eq_iff in Hab as ->. exact H2.
    + destruct (String.compare b c) eqn:Hbc; [| |congruence].
      * apply String.compare_eq_iff in Hbc as <-. rewrite Hab. discriminate.
      * apply OrderedTypeEx.String_as_OT.cmp_lt in Hab, Hbc.
        pose proof (OrderedTypeEx.String_as_OT.lt_trans _ _ _ Hab Hbc) as Hac.
        assert (Hlt : String.compare a c = Lt)
          by (apply OrderedTypeEx.String_as_OT.cmp_lt; exact Hac).
        rewrite Hlt. discriminate.
Defined.

End SampleRuntime.

(** ** Session routes: login and logout *)

Module Auth.

(** The characters [encodeURIComponent] leaves as they are. *)
Definition isUnreserved (c : ascii) : bool :=
  let n := nat_of_ascii c in
  (((65 <=? n) && (n <=? 90)) || ((97 <=? n) && (n <=? 122)) ||
   ((48 <=? n) && (n <=? 57)) ||
   (n =? 45) || (n =? 95) || (n =? 46) || (n =? 33) || (n =? 126) ||
   (n =? 42) || (n =? 39) || (n =? 40) || (n =? 41))%nat%bool.

Definition hexDigit (n : nat) : ascii :=
  if (n <? 10)%nat then ascii_of_nat (48 + n) else ascii_of_nat (55 + n).

(** [encodeURIComponent(s)] on the bytes of the text: every byte that is
    not unreserved becomes [%XX] with upper-case digits. *)
Fixpoint encodeURIComponent (s : string) : string :=
  match s with
  | EmptyString => EmptyString
  | String c s' =>
      if isUnreserved c then String c (encodeURIComponent s')
      else
        let n := nat_of_ascii c in
        String "%" (String (hexDigit (n / 16)) (String (hexDigit (n mod 16))
          (encodeURIComponent s')))
  end.

(** The password check of the platform; it accepts a password against the
    hash made of it. *)
Class Passwords `{RT : Server.Runtime} := {
  bcryptCompare : string -> string -> bool;
  bcryptCompare_hash : forall p, bcryptCompare p (Server.bcryptHash p) = true
}.

Record LoginBody := mkLoginBody {
  login_email : Js.Value;
  login_password : Js.Value
}.

(** [(req.protocol === 'https') || (req.headers['x-forwarded-proto'] ===
    'https')] *)
Definition isSecure (protocol : string) (forwardedProto : option string) : bool :=
  (String.eqb protocol "https" ||
   match forwardedProto with
   | Some p => String.eqb p "https"
   | None => false
   end)%bool.

(** The name and value of the session cookie, [uid=${encodeURIComponent(id)}]:
    what a browser sends back in the [Cookie] header. *)
Definition sessionPair (id : string) : string := "uid=" +:+ encodeURIComponent id.

(** The [Set-Cookie] header of a login. *)
Definition sessionCookie (secure : bool) (id : string) : string :=
  sessionPair id +:+ "; HttpOnly; SameSite=Lax; Path=/" +:+
  (if secure then "; Secure" else "").

(** The [Set-Cookie] header of a logout. *)
Definition clearedCookie (secure : bool) : string :=
  "uid=; HttpOnly; SameSite=Lax; Path=/; Max-Age=0" +:+
  (if secure then "; Secure" else "").

Section Routes.
Context `{PW : Passwords}.

(** [POST /api/auth/login]: the response and the [Set-Cookie] header, if
    one is set.  The body of a success has the shape of the one of a
    registration, a message and the user.  The [SELECT] fails on an email
    that the database refuses, and the failure is answered 500. *)
Definition login (body : LoginBody) (protocol : string)
    (forwardedProto : option string) (db : Server.Db)
    : Server.Response * option string :=
  let email := login_email body in
  let password := login_password body in
  if (negb (Js.truthy email) || negb (Js.truthy password))%bool
  then (Server.respond 400 (Server.Error "Email and password are required"), None)
  else if negb (Server.bindable [Server.prepareValue email])
  then (Server.respond 500 (Server.Error "Failed to login"), None)
  else
    match List.find
            (fun kr => String.eqb (Server.UserRow.email kr.2)
                                  (Server.prepareValue email))
            (map_to_list (Server.users db)) with
    | None => (Server.respond 401 (Server.Error "Invalid email or password"), None)
    | Some (id, user) =>
        match password with
        | Js.Str p =>
            if bcryptCompare p (Server.UserRow.password user)
            then (Server.respond 200
                    (Server.Registered "Login successful"
                       (Server.mkUser id (Server.UserRow.name user)
                          (Server.UserRow.email user))),
                  Some (sessionCookie (isSecure protocol forwardedProto) id))
            else (Server.respond 401 (Server.Error "Invalid email or password"),
                  None)
        | _ => (Server.respond 500 (Server.Error "Failed to login"), None)
        end
    end.

(** [POST /api/auth/logout] *)
Definition logout (protocol : string) (forwardedProto : option string)
    : Server.Response * string :=
  (Server.respond 204 Server.Empty,
   clearedCookie (isSecure protocol forwardedProto)).

End Routes.

End Auth.

(** ** A password check for the sample runtime *)

Module SamplePasswords.

#[export] Instance passwords : Auth.Passwords (RT := SampleRuntime.runtime).
Proof.
  refine {|
    Auth.bcryptCompare := fun p hash => String.eqb hash (SampleRuntime.saltedHash p);
    Auth.bcryptCompare_hash := _
  |}.
  intros p. apply String.eqb_refl.
Defined.

End SamplePasswords.


(** ** The page and the server together *)

(** The requests of [public/app.js] answered by the routes: one page, which
    sends the same [Cookie] header with every request, and the store.  The
    ids are the ones [generateId] makes, letters and digits, which the path
    [/api/employees/${id}] carries as they are.  [load], [submitAdd],
    [submitEdit] and [clickDelete] are one exchange each: the request is
    sent, answered, and the answer handled before anything else happens.
    The page does not wait for an answer, though: [step] takes the sending,
    the answer of the server and the handling of the answer apart, with the
    requests under way kept on a wire. *)
Module Browser.

(** [JSON.stringify(employeeData)], read by [express.json()]: the four
    texts are strings and the salary is a number; [NaN] is written
    [null]. *)
Definition bodyOf (d : Client.FormData) : Server.EmployeeBody :=
  Server.mkEmployeeBody (Js.Str (Client.firstName d)) (Js.Str (Client.lastName d))
    (Js.Str (Client.email d)) (Js.Str (Client.department d))
    (match Client.salary d with
     | Some n => Js.Number (n # 1)
     | None => Js.Null
     end).

(** [response.ok] *)
Definition ok (r : Server.Response) : bool :=
  ((200 <=? Server.status r) && (Server.status r <=? 299))%bool.

(** What [await fetch(...)] and [await response.json()] give the page for
    the answer [r] of a route that answers with one employee; a body without
    JSON text does not parse. *)
Definition fetchedEmployee (r : Server.Response) : Client.FetchResult Emp.t :=
  Client.Responded (ok r)
    (match Server.payload r with
     | Server.OneEmployee e => inr e
     | _ => inl "Unexpected end of JSON input"
     end).

(** The same for the list. *)
Definition fetchedEmployees (r : Server.Response)
    : Client.FetchResult (list Emp.t) :=
  Client.Responded (ok r)
    (match Server.payload r with
     | Server.Employees rows => inr rows
     | _ => inl "Unexpected end of JSON input"
     end).

(** The answer to a [DELETE], of which the page reads [response.ok] only. *)
Definition fetchedNothing (r : Server.Response) : Client.FetchResult unit :=
  Client.Responded (ok r) (inr tt).

Record World := mkWorld {
  page : Client.State;
  store : Server.Db
}.

(** What the page keeps of a request until its answer is handled: the
    operation and the values it has captured. *)
Inductive Request :=
| ListRequest
| AddRequest (formData : Client.FormData)
| EditRequest (id : string) (formData : Client.FormData)
| DeleteRequest (id : string) (employee : Emp.t).

(** A request under way, with the answer of the server once it is given. *)
Record Exchange := mkExchange {
  request : Request;
  answer : option Server.Response
}.

(** The page, the store and the requests under way, oldest first. *)
Record Live := mkLive {
  world : World;
  wire : list Exchange
}.

(** What the user does on the page. *)
Inductive Action :=
| Load
| Search (text : string)
| Department (dept : string)
| Rows (n : Z)
| Page (number : Z)
| Sort (field : Client.SortField)
| Csv
| Add (formData : Client.FormData)
| Edit (id : string) (formData : Client.FormData)
| Delete (id : string) (confirmed : bool).

(** What happens next: the user acts, the server answers the request number
    [k] of the wire ([newId] is the id it draws for a create), or the page
    handles the answer to the request number [k]. *)
Inductive Event :=
| User (a : Action)
| Serve (k : nat) (newId : string)
| Deliver (k : nat).

(** The rest of [deleteEmployee] once the answer is there; [employee] is the
    record found before the request was sent. *)
Definition deleted (id : string) (employee : Emp.t) (r : Server.Response)
    (s : Client.State) : Client.State :=
  if ok r
  then Client.showToast "Employee Deleted"
         (Client.fullName employee +:+ " has been removed.") "destructive"
         (Client.applyFilters
            (Client.set_employees
               (List.filter (fun emp => negb (String.eqb (Emp.id emp) id))
                            (Client.employees s)) s))
  else Client.showToast "Error" "Failed to delete employee" "destructive" s.

(** The rest of each operation once its answer [r] is there. *)
Definition handled (q : Request) (r : Server.Response) (s : Client.State)
    : Client.State :=
  match q with
  | ListRequest => Client.loadEmployees (fetchedEmployees r) s
  | AddRequest formData => Client.addEmployee formData (fetchedEmployee r) s
  | EditRequest id formData => Client.updateEmployee id formData (fetchedEmployee r) s
  | DeleteRequest id employee => deleted id employee r s
  end.

(** The action sends a request, unless the page stops it. *)
Definition asks (a : Action) : bool :=
  match a with
  | Load | Add _ | Edit _ _ | Delete _ _ => true
  | _ => false
  end.

Section Session.
Context `{RT : Server.Runtime}.

(** [req.headers.cookie] of the requests of the page. *)
Variable cookie : option string.

(** [loadEmployees()] *)
Definition load (w : World) : World :=
  let r := Server.getEmployees cookie (store w) in
  mkWorld (Client.loadEmployees (fetchedEmployees r.1) (page w)) r.2.

(** The submission of the add form: [addEmployee] sends its request only
    when the duplicate check of [handleAddEmployee] has found nothing. *)
Definition submitAdd (formData : Client.FormData) (newId : string) (w : World)
    : World :=
  if existsb (fun emp => String.eqb (Js.toLowerCase (Emp.email emp))
                                    (Js.toLowerCase (Client.email formData)))
             (Client.employees (page w))
  then mkWorld (Client.handleAddEmployee formData (Client.Rejected "") (page w))
               (store w)
  else
    let r := Server.postEmployees cookie (bodyOf formData) newId (store w) in
    mkWorld (Client.handleAddEmployee formData (fetchedEmployee r.1) (page w)) r.2.

(** The submission of the edit form. *)
Definition submitEdit (id : string) (formData : Client.FormData) (w : World)
    : World :=
  let r := Server.putEmployees cookie id (bodyOf formData) (store w) in
  mkWorld (Client.handleEditEmployee id formData (fetchedEmployee r.1) (page w)) r.2.

(** A click on a delete button: [deleteEmployee] sends its request only for
    a record of the cache and once the user has confirmed. *)
Definition clickDelete (id : string) (confirmed : bool) (w : World) : World :=
  match List.find (fun emp => String.eqb (Emp.id emp) id)
                  (Client.employees (page w)) with
  | None => w
  | Some _ =>
      if negb confirmed then w
      else
        let r := Server.deleteEmployees cookie id (store w) in
        mkWorld (Client.deleteEmployee id confirmed (fetchedNothing r.1) (page w)) r.2
  end.

(** The user acts: a request is put on the wire, or the page changes. *)
Definition perform (a : Action) (l : Live) : Live :=
  let s := page (world l) in
  let send q := mkLive (world l) (wire l ++ [mkExchange q None]) in
  let show s' := mkLive (mkWorld s' (store (world l))) (wire l) in
  match a with
  | Load => send ListRequest
  | Search text => show (Client.step (Client.SearchInput text) s)
  | Department dept => show (Client.step (Client.DepartmentChange dept) s)
  | Rows n => show (Client.step (Client.RowsPerPageChange n) s)
  | Page number => show (Client.step (Client.PageRequest number) s)
  | Sort field => show (Client.step (Client.SortClick field) s)
  | Csv => show (Client.step Client.CsvClick s)
  | Add formData =>
      if existsb (fun emp => String.eqb (Js.toLowerCase (Emp.email emp))
                                        (Js.toLowerCase (Client.email formData)))
                 (Client.employees s)
      then show (Client.handleAddEmployee formData (Client.Rejected "") s)
      else send (AddRequest formData)
  | Edit id formData => send (EditRequest id formData)
  | Delete id confirmed =>
      match List.find (fun emp => String.eqb (Emp.id emp) id) (Client.employees s) with
      | None => l
      | Some employee => if negb confirmed then l else send (DeleteRequest id employee)
      end
  end.

(** The answer of the routes to a request, and the store afterwards. *)
Definition served (q : Request) (newId : string) (db : Server.Db)
    : Server.Response * Server.Db :=
  match q with
  | ListRequest => Server.getEmployees cookie db
  | AddRequest formData => Server.postEmployees cookie (bodyOf formData) newId db
  | EditRequest id formData => Server.putEmployees cookie id (bodyOf formData) db
  | DeleteRequest id _ => Server.deleteEmployees cookie id db
  end.

(** The server answers the request number [k], if it has no answer yet. *)
Definition serve (k : nat) (newId : string) (l : Live) : Live :=
  match wire l !! k with
  | Some (mkExchange q None) =>
      let r := served q newId (store (world l)) in
      mkLive (mkWorld (page (world l)) r.2)
             (<[k := mkExchange q (Some r.1)]> (wire l))
  | _ => l
  end.

(** The page handles the answer to the request number [k], if it is there. *)
Definition deliver (k : nat) (l : Live) : Live :=
  match wire l !! k with
  | Some (mkExchange q (Some r)) =>
      mkLive (mkWorld (handled q r (page (world l))) (store (world l)))
             (delete k (wire l))
  | _ => l
  end.

Definition step (ev : Event) (l : Live) : Live :=
  match ev with
  | User a => perform a l
  | Serve k newId => serve k newId l
  | Deliver k => deliver k l
  end.

Definition run (evs : list Event) (l : Live) : Live :=
  foldl (fun v ev => step ev v) l evs.

(** Along the run the user starts a request only when none is under way. *)
Fixpoint oneAtATime (evs : list Event) (l : Live) : bool :=
  match evs with
  | [] => true
  | ev :: rest =>
      (match ev with
       | User a => if asks a then Nat.eqb (length (wire l)) 0 else true
       | _ => true
       end && oneAtATime rest (step ev l))%bool
  end.

End Session.

End Browser.
(** ** Further properties of the model *)

Module MoreProps.

(** Every character of [s] passes [p]. *)
Fixpoint allChars (p : ascii -> bool) (s : string) : bool :=
  match s with
  | EmptyString => true
  | String c s' => (p c && allChars p s')%bool
  end.

(** A character that is neither white space nor a semicolon. *)
Definition cookieChar (c : ascii) : bool :=
  (negb (Js.isSpace c) && negb (Ascii.eqb c ";"))%bool.

(** A part of a [Cookie] header that holds no semicolon and is not a
    [uid=] pair. *)
Definition otherCookie (part : string) : Prop :=
  Props.lacks ";" part = true /\ Js.startsWith (Js.trim part) "uid=" = false.

(** [a] comes no later than [b] in the order of last name, then first
    name, each in the collation of the database: the last name of [a] sorts
    before the one of [b], or with it while the first name of [a] does not
    sort after the one of [b]. *)
Definition byLastFirst `{RT : Server.Runtime} (a b : Emp.t) : Prop :=
  Server.collate (Emp.lastName a) (Emp.lastName b) = Lt \/
  (Server.collate (Emp.lastName a) (Emp.lastName b) = Eq /\
   Server.collate (Emp.firstName a) (Emp.firstName b) <> Gt).

(** The row [id] of the table is a row of [userId]. *)
Definition ownedBy (tbl : gmap string Server.EmployeeRow.t)
    (userId id : string) : Prop :=
  exists row, tbl !! id = Some row /\ Server.EmployeeRow.userid row = userId.

(** The numbers of the pages of the view, from 1 to
    [ceil(filteredCount / pageSize)]. *)
Definition pageNumbers (s : Client.State) : list Z :=
  map (fun k => Z.of_nat (S k))
    (seq 0 (Z.to_nat (Js.ceilDiv (Z.of_nat (length (Client.filteredEmployees s)))
                                 (Client.rowsPerPage s)))).

(** The text a record shows in a text column, in lower case; the name
    column shows the first and the last name with a space between. *)
Definition columnText (f : Client.SortField) (emp : Emp.t) : string :=
  Js.toLowerCase
    match f with
    | Client.SortName => Emp.firstName emp +:+ " " +:+ Emp.lastName emp
    | Client.SortSalary => EmptyString
    | Client.SortColumn Client.ColId => Emp.id emp
    | Client.SortColumn Client.ColFirstName => Emp.firstName emp
    | Client.SortColumn Client.ColLastName => Emp.lastName emp
    | Client.SortColumn Client.ColEmail => Emp.email emp
    | Client.SortColumn Client.ColDepartment => Emp.department emp
    end.

(** [a] sorts no later than [b] by the column [f]: by the number for the
    salary, and for a text column by the lower-case text, compared
    character by character. *)
Definition notAfter (f : Client.SortField) (a b : Emp.t) : Prop :=
  match f with
  | Client.SortSalary => Emp.salary a <= Emp.salary b
  | _ => String.ltb (columnText f b) (columnText f a) = false
  end.

(** [a] may stand before [b] in a view sorted by [f] in direction [d]. *)
Definition inOrder (f : Client.SortField) (d : Client.SortDirection)
    (a b : Emp.t) : Prop :=
  match d with
  | Client.asc => notAfter f a b
  | Client.desc => notAfter f b a
  end.

(** The two records have the same value in the column [f]. *)
Definition tied (f : Client.SortField) (a b : Emp.t) : bool :=
  match f with
  | Client.SortSalary => Emp.salary a =? Emp.salary b
  | _ => String.eqb (columnText f a) (columnText f b)
  end.

(** The quotation mark that [exportToCSV] puts around every cell. *)
Definition quote : ascii := "034"%char.

(** A record the export can carry: no text field holds a quotation mark or
    a line feed. *)
Definition plainRecord (emp : Emp.t) : bool :=
  (Props.singleLine emp &&
   Props.lacks quote (Emp.firstName emp) && Props.lacks quote (Emp.lastName emp) &&
   Props.lacks quote (Emp.email emp) && Props.lacks quote (Emp.department emp))%bool.

(** A digit or a lower-case letter. *)
Definition isBase36 (c : ascii) : bool :=
  let n := nat_of_ascii c in
  (((48 <=? n) && (n <=? 57)) || ((97 <=? n) && (n <=? 122)))%nat%bool.

(** An id as [generateId] makes them and as a path carries it unchanged:
    digits and lower-case letters, at least one. *)
Definition generated (id : string) : bool :=
  (negb (String.eqb id "") && allChars isBase36 id)%bool.

(** The ids an event draws or names are generated ones. *)
Definition generatedIds (ev : Browser.Event) : bool :=
  match ev with
  | Browser.Serve _ newId => generated newId
  | Browser.User (Browser.Edit id _) => generated id
  | Browser.User (Browser.Delete id _) => generated id
  | _ => true
  end.

(** The cache of the page holds the records the store has for [userId]. *)
Definition inSync `{RT : Server.Runtime} (userId : string) (w : Browser.World)
    : Prop :=
  Client.employees (Browser.page w) ≡ₚ
  Server.selectEmployees userId (Server.employees (Browser.store w)).

(** No answer waits for the page: every request under way is still to be
    answered by the server. *)
Definition unanswered (l : Browser.Live) : bool :=
  forallb (fun x => match Browser.answer x with None => true | Some _ => false end)
          (Browser.wire l).

(** The cache is behind the store by one answer at most: no request is
    under way, or one that the server has not answered, and the cache holds
    the records the store has for [userId]; or one request is under way
    that the server has answered, and the cache holds the records the store
    had for [userId] before it answered. *)
Definition following `{RT : Server.Runtime} (cookie : option string)
    (userId : string) (l : Browser.Live) : Prop :=
  match Browser.wire l with
  | [] => inSync userId (Browser.world l)
  | [x] =>
      match Browser.answer x with
      | None => inSync userId (Browser.world l)
      | Some r =>
          exists db newId,
            inSync userId (Browser.mkWorld (Browser.page (Browser.world l)) db) /\
            Browser.served cookie (Browser.request x) newId db =
              (r, Browser.store (Browser.world l))
      end
  | _ => False
  end.

(** The rows of the table are rows of the view, in its order, and the view
    holds the records of the cache that pass the filter. *)
Definition shown (s : Client.State) : Prop :=
  Client.tableBody s `sublist_of` Client.filteredEmployees s /\
  Props.viewConsistent s.

(** The record is a row of [userId] in the table, with the columns stored. *)
Definition storedFor (tbl : gmap string Server.EmployeeRow.t)
    (userId : string) (e : Emp.t) : Prop :=
  exists row, tbl !! Emp.id e = Some row /\
              Server.EmployeeRow.userid row = userId /\
              e = Server.toEmployee (Emp.id e, row).

(** The world [w] with one more notification and nothing else changed. *)
Definition notified (title description variant : string) (w : Browser.World)
    : Browser.World :=
  Browser.mkWorld (Client.showToast title description variant (Browser.page w))
    (Browser.store w).

(** A form the server takes: four texts that are not empty and that the
    database does not refuse, and a salary in the range of the column. *)
Definition validForm (d : Client.FormData) : Prop :=
  Client.firstName d <> EmptyString /\ Client.lastName d <> EmptyString /\
  Client.email d <> EmptyString /\ Client.department d <> EmptyString /\
  Server.bindable [Client.firstName d; Client.lastName d; Client.email d;
                   Client.department d] = true /\
  exists n, Client.salary d = Some n /\ - 2 ^ 31 <= n <= 2 ^ 31 - 1.

Definition flipped (d : Client.SortDirection) : Client.SortDirection :=
  match d with Client.asc => Client.desc | Client.desc => Client.asc end.

End MoreProps.

(** * Properties *)

Import Props.

(** ** Strings *)

Section StringFacts.

Lemma prefix_spec (p s : string) :
  String.prefix p s = true <-> exists post, s = p +:+ post.
Proof.
  revert s. induction p as [|c p IH]; intros s; simpl.
  - split; [intros _; exists s; reflexivity | intros _; destruct s; reflexivity].
  - destruct s as [|d s]; simpl.
    + split; [discriminate | intros [post H]; discriminate].
    + destruct (Ascii.ascii_dec c d) as [->|Hne].
      * rewrite IH. split; intros [post H]; exists post.
        -- rewrite H. reflexivity.
        -- injection H as H. exact H.
      * split; [discriminate | intros [post H]; injection H as Hc _; congruence].
Qed.

Lemma includes_nil (sub : string) :
  Js.includes EmptyString sub = String.prefix sub EmptyString.
Proof. simpl. apply orb_false_r. Qed.

Lemma includes_cons (c : ascii) (s sub : string) :
  Js.includes (String c s) sub =
  (String.prefix sub (String c s) || Js.includes s sub)%bool.
Proof. reflexivity. Qed.

Lemma includes_spec (s sub : string) :
  Js.includes s sub = true <-> isSubstring sub s.
Proof.
  unfold isSubstring. induction s as [|c s IH].
  - rewrite includes_nil, prefix_spec. split.
    + intros [post H]. exists EmptyString, post. exact H.
    + intros [pre [post H]]. destruct pre; simpl in H; [eauto | discriminate].
  - rewrite includes_cons, orb_true_iff, prefix_spec, IH. split.
    + intros [[post H] | [pre [post H]]].
      * exists EmptyString, post. exact H.
      * exists (String c pre), post. simpl. rewrite H. reflexivity.
    + intros [pre [post H]]. destruct pre as [|d pre]; simpl in H.
      * left. eauto.
      * right. injection H as _ H. eauto.
Qed.

Lemma toLowerCase_empty (s : string) :
  Js.toLowerCase s = EmptyString <-> s = EmptyString.
Proof. destruct s; simpl; split; congruence. Qed.

Lemma eqb_empty (s : string) : String.eqb s "" = true <-> s = EmptyString.
Proof. apply String.eqb_eq. Qed.

Lemma append_assoc (a b c : string) : (a +:+ b) +:+ c = a +:+ (b +:+ c).
Proof.
  induction a as [|x a IH]; [reflexivity|].
  change (String x ((a +:+ b) +:+ c) = String x (a +:+ (b +:+ c))).
  rewrite IH. reflexivity.
Qed.

End StringFacts.

(** ** The sort *)

Section SortFacts.

Context {A : Type} (compareFn : A -> A -> Z).

Lemma insertSorted_perm (x : A) (l : list A) :
  Js.insertSorted compareFn x l ≡ₚ x :: l.
Proof.
  induction l as [|y l IH]; simpl; [reflexivity|].
  destruct (compareFn x y <=? 0); [reflexivity|].
  rewrite IH. apply Permutation_swap.
Qed.

Lemma sort_perm (l : list A) : Js.sort compareFn l ≡ₚ l.
Proof.
  induction l as [|x l IH]; simpl; [reflexivity|].
  rewrite insertSorted_perm, IH. reflexivity.
Qed.

Lemma sort_length (l : list A) : length (Js.sort compareFn l) = length l.
Proof. apply Permutation_length, sort_perm. Qed.

(** The result is ordered by any transitive relation the comparator decides. *)
Section Ordered.

Context (R : relation A).
Hypothesis R_trans : Transitive R.
Hypothesis before : forall x y, compareFn x y <= 0 -> R x y.
Hypothesis after : forall x y, 0 < compareFn x y -> R y x.

Lemma insertSorted_sorted (x : A) (l : list A) :
  StronglySorted R l -> StronglySorted R (Js.insertSorted compareFn x l).
Proof.
  induction 1 as [|y l Hl IH Hy]; simpl.
  - repeat constructor.
  - destruct (Z.leb_spec (compareFn x y) 0) as [Hle|Hgt].
    + constructor; [constructor; assumption|].
      constructor; [apply before; exact Hle|].
      eapply Forall_impl; [exact Hy|]. intros z Hz.
      transitivity y; [apply before; exact Hle | exact Hz].
    + constructor; [exact IH|].
      rewrite insertSorted_perm. constructor; [apply after; exact Hgt | exact Hy].
Qed.

Lemma sort_sorted (l : list A) : StronglySorted R (Js.sort compareFn l).
Proof.
  induction l as [|x l IH]; simpl; [constructor|].
  apply insertSorted_sorted, IH.
Qed.

End Ordered.

(** Stability: elements the comparator ties keep their order. *)
Section Stable.

Context (P : A -> bool).
Hypothesis ties : forall x y, P x = true -> P y = true -> compareFn x y <= 0.

Lemma insertSorted_filter (x : A) (l : list A) :
  List.filter P (Js.insertSorted compareFn x l) = List.filter P (x :: l).
Proof.
  induction l as [|y l IH]; simpl; [reflexivity|].
  destruct (Z.leb_spec (compareFn x y) 0) as [Hle|Hgt]; [reflexivity|].
  simpl. rewrite IH. simpl.
  destruct (P x) eqn:Hx, (P y) eqn:Hy; try reflexivity.
  specialize (ties x y Hx Hy). lia.
Qed.

Lemma sort_filter (l : list A) :
  List.filter P (Js.sort compareFn l) = List.filter P l.
Proof.
  induction l as [|x l IH]; simpl; [reflexivity|].
  rewrite insertSorted_filter. simpl. rewrite IH. reflexivity.
Qed.

End Stable.

End SortFacts.

(** ** The view pipeline *)

Section ViewFacts.

Import Client.

Lemma applyFilters_filtered (s : State) :
  filteredEmployees (applyFilters s) =
  Js.sort (compareFn (sortField s) (sortDirection s))
    (List.filter (visible s) (employees s)).
Proof. reflexivity. Qed.

Lemma applyFilters_perm (s : State) :
  filteredEmployees (applyFilters s) ≡ₚ List.filter (visible s) (employees s).
Proof. rewrite applyFilters_filtered. apply sort_perm. Qed.

Lemma matchesSearch_spec (text : string) (emp : Emp.t) :
  matchesSearch (Js.toLowerCase text) emp = true <->
  text = EmptyString \/
  isSubstring (Js.toLowerCase text)
    (Js.toLowerCase (Emp.firstName emp +:+ " " +:+ Emp.lastName emp)) \/
  isSubstring (Js.toLowerCase text) (Js.toLowerCase (Emp.email emp)) \/
  isSubstring (Js.toLowerCase text) (Js.toLowerCase (Emp.department emp)).
Proof.
  unfold matchesSearch, fullName.
  rewrite !orb_true_iff, eqb_empty, toLowerCase_empty, !includes_spec.
  tauto.
Qed.

Lemma matchesDept_spec (dept : string) (emp : Emp.t) :
  matchesDept dept emp = true <-> dept = "all" \/ Emp.department emp = dept.
Proof.
  unfold matchesDept. rewrite orb_true_iff, !String.eqb_eq. tauto.
Qed.

Lemma visible_spec (s : State) (emp : Emp.t) :
  visible s emp = true <-> matchesSpec (searchInput s) (filterDepartment s) emp.
Proof.
  unfold visible, matchesSpec.
  rewrite andb_true_iff, matchesSearch_spec, matchesDept_spec. tauto.
Qed.

End ViewFacts.

(** C6.  A record is in the filtered view exactly when it is in the cache
    and passes the filter predicate of the specification: the search text is
    empty or its lowercase form occurs in the lowercased full name, email or
    department, and the department filter is "all" or equals the department
    of the record.  With an empty search text and the filter "Engineering"
    the view holds exactly the records of that department, each as often as
    the cache does. *)
Theorem filtered_view_refines_spec :
  (forall (s : Client.State) (emp : Emp.t),
     In emp (Client.filteredEmployees (Client.applyFilters s)) <->
     In emp (Client.employees s) /\
     matchesSpec (Client.searchInput s) (Client.filterDepartment s) emp) /\
  (forall (s : Client.State),
     let s' := Client.step (Client.DepartmentChange "Engineering")
                 (Client.step (Client.SearchInput "") s) in
     Client.filteredEmployees s' ≡ₚ
       List.filter (fun emp => String.eqb (Emp.department emp) "Engineering")
                   (Client.employees s) /\
     forall emp, In emp (Client.filteredEmployees s') <->
                 In emp (Client.employees s) /\ Emp.department emp = "Engineering").
Proof.
  split.
  - intros s emp.
    rewrite (Permutation_in' (eq_refl emp) (applyFilters_perm s)).
    rewrite filter_In, visible_spec. reflexivity.
  - intros s s'.
    assert (Hperm : Client.filteredEmployees s' ≡ₚ
              List.filter (fun emp => String.eqb (Emp.department emp) "Engineering")
                          (Client.employees s)).
    { subst s'. unfold Client.step, Client.handleFilter, Client.handleSearch.
      rewrite applyFilters_perm. reflexivity. }
    split; [exact Hperm|].
    intros emp. rewrite (Permutation_in' (eq_refl emp) Hperm).
    rewrite filter_In, String.eqb_eq. reflexivity.
Qed.

Lemma changePage_outside (s : Client.State) (page : Z) :
  page < 1 \/
  page > Js.ceilDiv (Z.of_nat (length (Client.filteredEmployees s)))
                    (Client.rowsPerPage s) ->
  Client.changePage page s = s.
Proof.
  intros Hout. unfold Client.changePage.
  destruct (Z.ltb_spec page 1) as [?|Hge]; [reflexivity|].
  destruct (Z.gtb_spec page
    (Js.ceilDiv (Z.of_nat (length (Client.filteredEmployees s)))
                (Client.rowsPerPage s))) as [?|Hle]; [reflexivity|].
  lia.
Qed.

(** C10.  A request for a page below 1 or above the number of pages
    [ceil(filteredCount / pageSize)] changes nothing: the state, and with it
    the current page and the rendered rows, stay as they were, so the request
    is not moved to the nearest valid page. *)
Theorem changePage_out_of_range_ignored (s : Client.State) (page : Z) :
  Client.rowsPerPage s <> 0 ->
  page < 1 \/
  page > Js.ceilDiv (Z.of_nat (length (Client.filteredEmployees s)))
                    (Client.rowsPerPage s) ->
  Client.changePage page s = s /\
  Client.currentPage (Client.changePage page s) = Client.currentPage s /\
  Client.tableBody (Client.changePage page s) = Client.tableBody s /\
  Client.pagination (Client.changePage page s) = Client.pagination s.
Proof.
  intros _ Hout. rewrite (changePage_outside s page Hout). auto.
Qed.

(** On 25 records shown 10 a page, a request for page 4 made on page 1
    leaves the page at 1. *)
Lemma changePage_out_of_range_ignored_witness :
  Client.changePage 4 (Samples.loaded (Samples.staff 25)) =
    Samples.loaded (Samples.staff 25) /\
  Client.currentPage (Client.changePage 4 (Samples.loaded (Samples.staff 25))) = 1.
Proof.
  pose proof (changePage_out_of_range_ignored
                (Samples.loaded (Samples.staff 25)) 4) as H.
  destruct H as (H1 & H2 & _).
  - discriminate.
  - right. vm_compute. reflexivity.
  - split; [exact H1 | rewrite H2; reflexivity].
Defined.

(** ** The cache under failed and confirmed requests *)

Section CacheFacts.

Import Client.

Lemma addEmployee_unconfirmed (data : FormData) (r : FetchResult Emp.t) (s : State) :
  confirmed r = false ->
  exists t d v, addEmployee data r s = showToast t d v s.
Proof.
  destruct r as [m|[|] [m|e]]; simpl; try discriminate; intros _; eauto.
Qed.

Lemma updateEmployee_unconfirmed (id : string) (data : FormData)
    (r : FetchResult Emp.t) (s : State) :
  confirmed r = false ->
  exists t d v, updateEmployee id data r s = showToast t d v s.
Proof.
  destruct r as [m|[|] [m|e]]; simpl; try discriminate; intros _; eauto.
Qed.

Lemma deleteEmployee_not_ok (id : string) (c : bool) (r : FetchResult unit)
    (s : State) :
  okStatus r = false ->
  deleteEmployee id c r s = s \/
  exists t d v, deleteEmployee id c r s = showToast t d v s.
Proof.
  intros Hr. unfold deleteEmployee.
  destruct (List.find _ _); [|left; reflexivity].
  destruct c; simpl; [|left; reflexivity].
  destruct r as [m|[|] j]; simpl in *; try discriminate; right; eauto.
Qed.

End CacheFacts.

(** C8.  For an add, an update and a delete issued by the client, when the
    request is rejected or the response is not a confirmed success the cache
    [employees] is what it was, and so are the filtered view, the page and
    the rendered rows; the cache differs afterwards only when the response
    was a confirmed success, in which case the add appends the returned
    record, the update replaces the first record with the id, and the delete
    removes the records with the id. *)
Theorem cache_changes_only_on_confirmed_success (s : Client.State) :
  (forall data r, confirmed r = false ->
     Client.employees (Client.addEmployee data r s) = Client.employees s /\
     Client.filteredEmployees (Client.addEmployee data r s) = Client.filteredEmployees s /\
     Client.tableBody (Client.addEmployee data r s) = Client.tableBody s) /\
  (forall id data r, confirmed r = false ->
     Client.employees (Client.updateEmployee id data r s) = Client.employees s /\
     Client.filteredEmployees (Client.updateEmployee id data r s) = Client.filteredEmployees s /\
     Client.tableBody (Client.updateEmployee id data r s) = Client.tableBody s) /\
  (forall id c r, okStatus r = false ->
     Client.employees (Client.deleteEmployee id c r s) = Client.employees s /\
     Client.filteredEmployees (Client.deleteEmployee id c r s) = Client.filteredEmployees s /\
     Client.tableBody (Client.deleteEmployee id c r s) = Client.tableBody s) /\
  (forall data r,
     Client.employees (Client.addEmployee data r s) <> Client.employees s ->
     confirmed r = true) /\
  (forall id data r,
     Client.employees (Client.updateEmployee id data r s) <> Client.employees s ->
     confirmed r = true) /\
  (forall id c r,
     Client.employees (Client.deleteEmployee id c r s) <> Client.employees s ->
     okStatus r = true) /\
  (forall data e,
     Client.employees (Client.addEmployee data (Client.Responded true (inr e)) s) =
     Client.employees s ++ [e]) /\
  (forall id data e index,
     Js.findIndex (fun emp => String.eqb (Emp.id emp) id) (Client.employees s) = Some index ->
     Client.employees (Client.updateEmployee id data (Client.Responded true (inr e)) s) =
     <[index := e]> (Client.employees s)) /\
  (forall id first j,
     List.find (fun emp => String.eqb (Emp.id emp) id) (Client.employees s) = Some first ->
     Client.employees (Client.deleteEmployee id true (Client.Responded true j) s) =
     List.filter (fun emp => negb (String.eqb (Emp.id emp) id)) (Client.employees s)).
Proof.
  assert (Hadd : forall data r, confirmed r = false ->
     Client.employees (Client.addEmployee data r s) = Client.employees s /\
     Client.filteredEmployees (Client.addEmployee data r s) = Client.filteredEmployees s /\
     Client.tableBody (Client.addEmployee data r s) = Client.tableBody s).
  { intros data r Hr.
    destruct (addEmployee_unconfirmed data r s Hr) as (t & d & v & ->).
    repeat split. }
  assert (Hupd : forall id data r, confirmed r = false ->
     Client.employees (Client.updateEmployee id data r s) = Client.employees s /\
     Client.filteredEmployees (Client.updateEmployee id data r s) = Client.filteredEmployees s /\
     Client.tableBody (Client.updateEmployee id data r s) = Client.tableBody s).
  { intros id data r Hr.
    destruct (updateEmployee_unconfirmed id data r s Hr) as (t & d & v & ->).
    repeat split. }
  assert (Hdel : forall id c r, okStatus r = false ->
     Client.employees (Client.deleteEmployee id c r s) = Client.employees s /\
     Client.filteredEmployees (Client.deleteEmployee id c r s) = Client.filteredEmployees s /\
     Client.tableBody (Client.deleteEmployee id c r s) = Client.tableBody s).
  { intros id c r Hr.
    destruct (deleteEmployee_not_ok id c r s Hr) as [->|(t & d & v & ->)];
      repeat split. }
  repeat apply conj; try assumption.
  - intros data r Hne. destruct (confirmed r) eqn:Hr; [reflexivity|].
    destruct Hne. apply (Hadd data r Hr).
  - intros id data r Hne. destruct (confirmed r) eqn:Hr; [reflexivity|].
    destruct Hne. apply (Hupd id data r Hr).
  - intros id c r Hne. destruct (okStatus r) eqn:Hr; [reflexivity|].
    destruct Hne. apply (Hdel id c r Hr).
  - reflexivity.
  - intros id data e index Hfind. unfold Client.updateEmployee.
    rewrite Hfind. reflexivity.
  - intros id first j Hfind. unfold Client.deleteEmployee.
    rewrite Hfind. reflexivity.
Qed.

(** A conflict answer to an add, a not-found answer to an update and a
    rejected delete on a loaded list of three records. *)
Lemma cache_changes_only_on_confirmed_success_witness :
  let s := Samples.loaded (Samples.staff 3) in
  let data := Samples.formOf (Samples.employee 4 "Sales" 10) in
  Client.employees
    (Client.addEmployee data (Client.Responded false (inl "conflict")) s) =
    Samples.staff 3 /\
  Client.employees
    (Client.updateEmployee "e2" data (Client.Responded false (inl "not found")) s) =
    Samples.staff 3 /\
  Client.employees
    (Client.deleteEmployee "e2" true (Client.Rejected "network") s) =
    Samples.staff 3 /\
  Client.employees
    (Client.updateEmployee "e2" data
       (Client.Responded true (inr (Samples.employee 2 "Sales" 10))) s) =
    <[1%nat := Samples.employee 2 "Sales" 10]> (Samples.staff 3).
Proof.
  intros s data.
  destruct (cache_changes_only_on_confirmed_success s)
    as (Hadd & Hupd & Hdel & _ & _ & _ & _ & Hset & _).
  repeat apply conj.
  - apply (Hadd data (Client.Responded false (inl "conflict"))). reflexivity.
  - apply (Hupd "e2" data (Client.Responded false (inl "not found"))). reflexivity.
  - apply (Hdel "e2" true (Client.Rejected "network")). reflexivity.
  - apply (Hset "e2" data (Samples.employee 2 "Sales" 10) 1%nat). reflexivity.
Defined.

(** ** The export *)

Section CsvFacts.

Lemma lacks_append (c : ascii) (a b : string) :
  lacks c (a +:+ b) = (lacks c a && lacks c b)%bool.
Proof.
  induction a as [|d a IH]; simpl; [reflexivity|].
  rewrite IH. apply andb_assoc.
Qed.

Lemma split_lacks (c : ascii) (s : string) :
  lacks c s = true -> Js.split c s = [s].
Proof.
  induction s as [|d s IH]; simpl; [reflexivity|].
  intros H. apply andb_true_iff in H as [Hd Hs].
  apply negb_true_iff in Hd. rewrite Hd, (IH Hs). reflexivity.
Qed.

Lemma split_append (c : ascii) (p rest : string) :
  lacks c p = true ->
  Js.split c (p +:+ String c rest) = p :: Js.split c rest.
Proof.
  induction p as [|d p IH]; simpl.
  - intros _. rewrite Ascii.eqb_refl. reflexivity.
  - intros H. apply andb_true_iff in H as [Hd Hp].
    apply negb_true_iff in Hd. rewrite Hd, (IH Hp). reflexivity.
Qed.

Lemma split_join (c : ascii) (p : string) (parts : list string) :
  forallb (lacks c) (p :: parts) = true ->
  Js.split c (Js.join (String c EmptyString) (p :: parts)) = p :: parts.
Proof.
  revert p. induction parts as [|q parts IH]; intros p H.
  - simpl in *. apply split_lacks. rewrite andb_true_r in H. exact H.
  - change (Js.join (String c EmptyString) (p :: q :: parts))
      with (p +:+ String c (Js.join (String c EmptyString) (q :: parts))).
    simpl in H. apply andb_true_iff in H as [Hp Hrest].
    rewrite (split_append c p _ Hp), (IH q Hrest). reflexivity.
Qed.

Lemma lacks_uint (d : Decimal.uint) :
  lacks lineFeed (NilEmpty.string_of_uint d) = true.
Proof. induction d; simpl; auto. Qed.

Lemma lacks_toString (n : Z) : lacks lineFeed (Js.toString n) = true.
Proof.
  unfold Js.toString. destruct (Z.to_int n); simpl; apply lacks_uint.
Qed.

Lemma lacks_quoted (cell : string) :
  lacks lineFeed (Client.quoted cell) = lacks lineFeed cell.
Proof.
  unfold Client.quoted. simpl. rewrite lacks_append. simpl.
  apply andb_true_r.
Qed.

(** A cell as the export writes it. *)
Lemma quoted_marks (cell : string) :
  Client.quoted cell = quoteMark +:+ cell +:+ quoteMark.
Proof. reflexivity. Qed.

(** The line the export makes of the cells of a record. *)
Lemma csvRow_line (emp : Emp.t) :
  Js.join "," (map Client.quoted (Client.csvRow emp)) =
  Client.quoted (Client.fullName emp) +:+ "," +:+
  Client.quoted (Emp.email emp) +:+ "," +:+
  Client.quoted (Emp.department emp) +:+ "," +:+
  Client.quoted (Js.toString (Emp.salary emp)).
Proof. reflexivity. Qed.

Lemma csvLine_quoted (emp : Emp.t) :
  csvLine emp =
  Client.quoted (Client.fullName emp) +:+ "," +:+
  Client.quoted (Emp.email emp) +:+ "," +:+
  Client.quoted (Emp.department emp) +:+ "," +:+
  Client.quoted (Js.toString (Emp.salary emp)).
Proof.
  unfold csvLine, Client.fullName. rewrite !quoted_marks.
  rewrite !append_assoc. reflexivity.
Qed.

Lemma lacks_csvLine (emp : Emp.t) :
  singleLine emp = true -> lacks lineFeed (csvLine emp) = true.
Proof.
  rewrite csvLine_quoted. unfold singleLine, Client.fullName.
  rewrite !andb_true_iff.
  intros [[[Hf Hl] He] Hd].
  rewrite !lacks_append, !lacks_quoted, lacks_append, lacks_toString.
  simpl. rewrite lacks_append. simpl. rewrite Hf, Hl, He, Hd. reflexivity.
Qed.

Lemma csvContent_lines (s : Client.State) :
  Client.csvContent s =
  Js.join (String lineFeed EmptyString)
    (csvHeaderLine :: map csvLine (Client.filteredEmployees s)).
Proof.
  unfold Client.csvContent. rewrite map_map. do 2 f_equal.
  apply map_ext. intros emp. rewrite csvLine_quoted. apply csvRow_line.
Qed.

End CsvFacts.

(** C7.  The export of the filtered view is the header line
    [Name,Email,Department,Salary (₹)] followed by one line per record of
    the view, in the order of the view, each holding the full name, the
    email, the department and the salary, every one of the four between two
    quotation marks, separated by commas; the line is written out character
    by character in [csvLine], and a cell is the text with a quotation mark
    before and after it.  The export reads the whole filtered list, whatever
    the page and the page size; an empty view gives the header line alone;
    and when no text field holds a line feed the file splits into exactly
    one line more than the view has records. *)
Theorem csv_export_rows :
  (forall s : Client.State,
     (Client.exportToCSV s).1 =
     Js.join (String lineFeed EmptyString)
       (csvHeaderLine :: map csvLine (Client.filteredEmployees s))) /\
  (forall emp : Emp.t,
     Js.join "," (map Client.quoted (Client.csvRow emp)) = csvLine emp /\
     Client.csvRow emp =
       [Emp.firstName emp +:+ " " +:+ Emp.lastName emp; Emp.email emp;
        Emp.department emp; Js.toString (Emp.salary emp)]) /\
  (forall cell : string,
     Client.quoted cell = quoteMark +:+ cell +:+ quoteMark /\
     String.length (Client.quoted cell) = (String.length cell + 2)%nat /\
     String.get 0 (Client.quoted cell) = Some "034"%char /\
     String.get (S (String.length cell)) (Client.quoted cell) = Some "034"%char) /\
  (forall (s : Client.State) (page n : Z),
     Client.csvContent (Client.set_currentPage page (Client.set_rowsPerPage n s)) =
     Client.csvContent s) /\
  (forall s : Client.State,
     Client.filteredEmployees s = [] -> (Client.exportToCSV s).1 = csvHeaderLine) /\
  (forall s : Client.State,
     forallb singleLine (Client.filteredEmployees s) = true ->
     Js.split lineFeed (Client.exportToCSV s).1 =
       csvHeaderLine :: map csvLine (Client.filteredEmployees s) /\
     length (Js.split lineFeed (Client.exportToCSV s).1) =
       S (length (Client.filteredEmployees s))).
Proof.
  split; [|split; [|split; [|split; [|split]]]].
  - intros s. apply csvContent_lines.
  - intros emp. split; [|reflexivity].
    rewrite csvLine_quoted. apply csvRow_line.
  - intros cell. split; [reflexivity|]. unfold Client.quoted.
    assert (Hlen : forall t : string,
              String.length (t +:+ String "034" EmptyString) = S (String.length t)).
    { induction t as [|x t IH]; [reflexivity|].
      change (S (String.length (t +:+ String "034" EmptyString)) =
              S (S (String.length t))).
      rewrite IH. reflexivity. }
    assert (Hget : forall t : string,
              String.get (String.length t) (t +:+ String "034" EmptyString) =
              Some "034"%char).
    { induction t as [|x t IH]; [reflexivity|].
      change (String.get (String.length t) (t +:+ String "034" EmptyString) =
              Some "034"%char).
      exact IH. }
    split; [|split].
    + cbn [String.length]. rewrite Hlen. lia.
    + reflexivity.
    + cbn [String.get]. apply Hget.
  - reflexivity.
  - intros s H. simpl. rewrite csvContent_lines, H. reflexivity.
  - intros s H.
    assert (Hsplit : Js.split lineFeed (Client.exportToCSV s).1 =
              csvHeaderLine :: map csvLine (Client.filteredEmployees s)).
    { simpl. rewrite csvContent_lines. apply split_join.
      simpl. rewrite forallb_forall in H. rewrite forallb_forall.
      intros line Hin. apply in_map_iff in Hin as [emp [<- Hemp]].
      apply lacks_csvLine, H, Hemp. }
    split; [exact Hsplit|].
    rewrite Hsplit. simpl. rewrite length_map. reflexivity.
Qed.

(** The export of a view of two records, line by line, and of the empty
    view. *)
Lemma csv_export_rows_witness :
  Js.split lineFeed (Client.exportToCSV (Samples.loaded (Samples.staff 2))).1 =
    ["Name,Email,Department,Salary (₹)";
     quoteMark +:+ "First1 Last1" +:+ quoteMark +:+ "," +:+
     quoteMark +:+ "user1@x.com" +:+ quoteMark +:+ "," +:+
     quoteMark +:+ "Engineering" +:+ quoteMark +:+ "," +:+
     quoteMark +:+ "1000" +:+ quoteMark;
     quoteMark +:+ "First2 Last2" +:+ quoteMark +:+ "," +:+
     quoteMark +:+ "user2@x.com" +:+ quoteMark +:+ "," +:+
     quoteMark +:+ "Engineering" +:+ quoteMark +:+ "," +:+
     quoteMark +:+ "2000" +:+ quoteMark] /\
  (Client.exportToCSV (Samples.loaded [])).1 = "Name,Email,Department,Salary (₹)".
Proof.
  destruct csv_export_rows as (_ & _ & _ & _ & Hempty & Hlines).
  split.
  - destruct (Hlines (Samples.loaded (Samples.staff 2))) as [Hsplit _].
    + vm_compute. reflexivity.
    + rewrite Hsplit. vm_compute. reflexivity.
  - apply (Hempty (Samples.loaded [])). reflexivity.
Defined.

(** ** The salary sort *)

Section SalarySortFacts.

Import Client.

Lemma compareFn_salary_asc (a b : Emp.t) :
  (compareFn SortSalary asc a b <= 0 <-> Emp.salary a <= Emp.salary b) /\
  (0 < compareFn SortSalary asc a b <-> Emp.salary b < Emp.salary a).
Proof.
  unfold compareFn. simpl.
  destruct (Z.ltb_spec (Emp.salary a) (Emp.salary b));
    destruct (Z.ltb_spec (Emp.salary b) (Emp.salary a)); lia.
Qed.

Lemma compareFn_salary_desc (a b : Emp.t) :
  (compareFn SortSalary desc a b <= 0 <-> Emp.salary b <= Emp.salary a) /\
  (0 < compareFn SortSalary desc a b <-> Emp.salary a < Emp.salary b).
Proof.
  unfold compareFn. simpl.
  destruct (Z.ltb_spec (Emp.salary a) (Emp.salary b));
    destruct (Z.ltb_spec (Emp.salary b) (Emp.salary a)); lia.
Qed.

Lemma sortBySalary_asc_sorted (l : list Emp.t) :
  StronglySorted nondecreasing (sortBySalary asc l).
Proof.
  apply sort_sorted.
  - intros x y z. unfold nondecreasing. lia.
  - intros x y H. apply compareFn_salary_asc, H.
  - intros x y H. apply compareFn_salary_asc in H. unfold nondecreasing. lia.
Qed.

Lemma sortBySalary_desc_sorted (l : list Emp.t) :
  StronglySorted nonincreasing (sortBySalary desc l).
Proof.
  apply sort_sorted.
  - intros x y z. unfold nonincreasing. lia.
  - intros x y H. apply compareFn_salary_desc, H.
  - intros x y H. apply compareFn_salary_desc in H. unfold nonincreasing. lia.
Qed.

Lemma sortBySalary_perm (d : SortDirection) (l : list Emp.t) :
  sortBySalary d l ≡ₚ l.
Proof. apply sort_perm. Qed.

Lemma sortBySalary_stable (d : SortDirection) (v : Z) (l : list Emp.t) :
  List.filter (fun e => Emp.salary e =? v) (sortBySalary d l) =
  List.filter (fun e => Emp.salary e =? v) l.
Proof.
  apply sort_filter. intros x y Hx Hy.
  apply Z.eqb_eq in Hx, Hy.
  destruct d; [apply compareFn_salary_asc | apply compareFn_salary_desc]; lia.
Qed.

Lemma StronglySorted_reverse {A} (R : relation A) (l : list A) :
  StronglySorted R l -> StronglySorted (flip R) (reverse l).
Proof.
  induction 1 as [|x l Hl IH Hx]; [constructor|].
  rewrite reverse_cons. apply StronglySorted_app_2; [|exact IH|repeat constructor].
  intros y z Hy Hz. apply list_elem_of_singleton in Hz as ->.
  rewrite elem_of_reverse in Hy. rewrite Forall_forall in Hx.
  apply Hx, Hy.
Qed.

Lemma NoDup_map_injective {A B} (f : A -> B) (l : list A) (x y : A) :
  NoDup (map f l) -> x ∈ l -> y ∈ l -> f x = f y -> x = y.
Proof.
  induction l as [|a l IH]; simpl; intros Hnd Hx Hy Hf.
  - inversion Hx.
  - apply NoDup_cons in Hnd as [Ha Hnd].
    apply elem_of_cons in Hx as [->|Hx]; apply elem_of_cons in Hy as [->|Hy];
      auto.
    + destruct Ha. rewrite Hf. apply list_elem_of_In, in_map, list_elem_of_In, Hy.
    + destruct Ha. rewrite <- Hf. apply list_elem_of_In, in_map, list_elem_of_In, Hx.
Qed.

(** Two lists of the same records with distinct salaries, both in
    non-increasing order, are equal. *)
Lemma nonincreasing_unique (l l1 l2 : list Emp.t) :
  NoDup (map Emp.salary l) -> l1 ≡ₚ l -> l2 ≡ₚ l ->
  StronglySorted nonincreasing l1 -> StronglySorted nonincreasing l2 ->
  l1 = l2.
Proof.
  intros Hnd H1 H2 S1 S2.
  apply (StronglySorted_unique_strong nonincreasing); auto.
  - intros x y Hx Hy Hxy Hyx. rewrite H1 in Hx. rewrite H2 in Hy.
    apply (NoDup_map_injective Emp.salary l); auto.
    unfold nonincreasing in *. lia.
  - rewrite H1, H2. reflexivity.
Qed.

End SalarySortFacts.

(** C5.  On every list the salary sort in either direction is a stable
    comparator sort: its result is a rearrangement of the list, in
    non-decreasing order of salary when ascending and in non-increasing
    order when descending, and the records of any one salary keep the order
    they had.  When the salaries of the list are pairwise distinct, the
    descending sort of the list, and also the descending sort applied to the
    list already sorted ascending, is the ascending sort reversed. *)
Theorem salary_sort_directions (l : list Emp.t) :
  (NoDup (map Emp.salary l) ->
     sortBySalary Client.desc l = reverse (sortBySalary Client.asc l) /\
     sortBySalary Client.desc (sortBySalary Client.asc l) =
       reverse (sortBySalary Client.asc l)) /\
  (forall d v,
     List.filter (fun e => Emp.salary e =? v) (sortBySalary d l) =
     List.filter (fun e => Emp.salary e =? v) l) /\
  (forall d, sortBySalary d l ≡ₚ l) /\
  StronglySorted (fun a b => Emp.salary a <= Emp.salary b)
    (sortBySalary Client.asc l) /\
  StronglySorted (fun a b => Emp.salary b <= Emp.salary a)
    (sortBySalary Client.desc l) /\
  (forall s d,
     Client.filteredEmployees s = l ->
     Client.filteredEmployees
       (Client.sortEmployees (Client.set_sort Client.SortSalary d s)) =
     sortBySalary d l).
Proof.
  repeat apply conj.
  - intros Hnd.
    assert (Hrev : StronglySorted nonincreasing (reverse (sortBySalary Client.asc l))).
    { apply (StronglySorted_reverse nondecreasing), sortBySalary_asc_sorted. }
    assert (Hperm : reverse (sortBySalary Client.asc l) ≡ₚ l).
    { rewrite reverse_Permutation. apply sortBySalary_perm. }
    split.
    + apply (nonincreasing_unique l); auto using sortBySalary_perm,
        sortBySalary_desc_sorted.
    + apply (nonincreasing_unique l); auto using sortBySalary_desc_sorted.
      rewrite !sortBySalary_perm. reflexivity.
  - intros d v. apply sortBySalary_stable.
  - intros d. apply sortBySalary_perm.
  - apply sortBySalary_asc_sorted.
  - apply sortBySalary_desc_sorted.
  - intros s d <-. reflexivity.
Qed.

(** Three records with distinct salaries, given out of order. *)
Lemma salary_sort_directions_witness :
  let l := [Samples.employee 1 "Sales" 300; Samples.employee 2 "Sales" 100;
            Samples.employee 3 "Sales" 200] in
  sortBySalary Client.desc l = reverse (sortBySalary Client.asc l) /\
  sortBySalary Client.desc (sortBySalary Client.asc l) =
    reverse (sortBySalary Client.asc l).
Proof.
  intros l. apply (salary_sort_directions l).
  apply (bool_decide_eq_true_1 (NoDup (map Emp.salary l))).
  vm_compute. reflexivity.
Defined.

(** Two records with the same salary: both directions keep them in the
    order given, so the descending result is not the ascending one
    reversed. *)
Lemma salary_sort_ties_not_reversed :
  let a := Samples.employee 1 "Sales" 100 in
  let b := Samples.employee 2 "Sales" 100 in
  sortBySalary Client.asc [a; b] = [a; b] /\
  sortBySalary Client.desc [a; b] = [a; b] /\
  reverse (sortBySalary Client.asc [a; b]) = [b; a] /\
  sortBySalary Client.desc [a; b] <> reverse (sortBySalary Client.asc [a; b]).
Proof.
  intros a b. repeat apply conj; try reflexivity.
  vm_compute. discriminate.
Qed.

(** ** Pagination *)

Section PageFacts.

Import Client.

Lemma ceilDiv_mono (n m d : Z) : 0 < d -> n <= m -> Js.ceilDiv n d <= Js.ceilDiv m d.
Proof.
  intros Hd Hnm. unfold Js.ceilDiv.
  assert (- m / d <= - n / d) by (apply Z.div_le_mono; lia). lia.
Qed.

Lemma inRange_showToast (t d v : string) (s : State) :
  inRange s -> inRange (showToast t d v s).
Proof. intros H. exact H. Qed.

Lemma inRange_first_page (s : State) :
  0 < rowsPerPage s -> inRange (applyFilters (set_currentPage 1 s)).
Proof.
  intros Hr. repeat split.
  - reflexivity.
  - unfold totalPages. change (currentPage _) with 1. lia.
  - apply (applyFilters_perm (set_currentPage 1 s)).
  - exact Hr.
Qed.

Lemma filter_snoc_length {A} (p : A -> bool) (l : list A) (x : A) :
  (length (List.filter p l) <= length (List.filter p (l ++ [x])))%nat.
Proof. rewrite List.filter_app, length_app. lia. Qed.

Lemma inRange_append (e : Emp.t) (s : State) :
  inRange s -> inRange (applyFilters (set_employees (employees s ++ [e]) s)).
Proof.
  intros (Hpage & Hview & Hr). repeat split.
  - apply Hpage.
  - destruct Hpage as [_ Hle]. unfold totalPages in *.
    change (currentPage _) with (currentPage s).
    change (rowsPerPage (applyFilters _)) with (rowsPerPage s).
    rewrite applyFilters_filtered, sort_length.
    change (employees (set_employees _ s)) with (employees s ++ [e]).
    change (visible (set_employees _ s)) with (visible s).
    pose proof (filter_snoc_length (visible s) (employees s) e) as Hlen.
    rewrite <- (Permutation_length Hview) in Hlen.
    pose proof (ceilDiv_mono
      (Z.of_nat (length (filteredEmployees s)))
      (Z.of_nat (length (List.filter (visible s) (employees s ++ [e]))))
      (rowsPerPage s) Hr ltac:(lia)).
    lia.
  - apply (applyFilters_perm (set_employees (employees s ++ [e]) s)).
  - exact Hr.
Qed.

Lemma inRange_changePage (page : Z) (s : State) :
  inRange s -> inRange (changePage page s).
Proof.
  intros (Hpage & Hview & Hr). unfold changePage.
  destruct (Z.ltb_spec page 1) as [?|Hge]; [exact (conj Hpage (conj Hview Hr))|].
  destruct (Z.gtb_spec page
    (Js.ceilDiv (Z.of_nat (length (filteredEmployees s))) (rowsPerPage s)))
    as [?|Hle]; simpl; [exact (conj Hpage (conj Hview Hr))|].
  repeat split.
  - exact Hge.
  - unfold totalPages. simpl. lia.
  - exact Hview.
  - exact Hr.
Qed.

Lemma inRange_handleSort (field : SortField) (s : State) :
  inRange s -> inRange (handleSort field s).
Proof.
  intros (Hpage & Hview & Hr). unfold handleSort.
  destruct (SortField_eqb (sortField s) field).
  - repeat split.
    + apply Hpage.
    + unfold totalPages. simpl. rewrite sort_length. apply Hpage.
    + unfold viewConsistent. simpl. rewrite sort_perm. exact Hview.
    + exact Hr.
  - repeat split.
    + apply Hpage.
    + unfold totalPages. simpl. rewrite sort_length. apply Hpage.
    + unfold viewConsistent. simpl. rewrite sort_perm. exact Hview.
    + exact Hr.
Qed.

Lemma inRange_rowsPerPage (n : Z) (s : State) :
  0 < n -> inRange s -> inRange (handleRowsPerPageChange n s).
Proof.
  intros Hn (Hpage & Hview & Hr). repeat split.
  - reflexivity.
  - unfold totalPages. change (currentPage _) with 1. lia.
  - exact Hview.
  - exact Hn.
Qed.

Lemma inRange_step (ev : Event) (s : State) :
  pageSafe ev -> inRange s -> inRange (step ev s).
Proof.
  intros Hsafe Hs. destruct ev as [text|dept|n|page|field|data r|id data r|id c r|];
    simpl in *.
  - apply (inRange_first_page (set_searchInput text s)), Hs.
  - apply (inRange_first_page (set_filterDepartment dept s)), Hs.
  - apply inRange_rowsPerPage; assumption.
  - apply inRange_changePage, Hs.
  - apply inRange_handleSort, Hs.
  - unfold handleAddEmployee. destruct (existsb _ _).
    + apply inRange_showToast, Hs.
    + destruct r as [m|[|] [m|e]]; simpl;
        try (apply inRange_showToast, Hs).
      apply inRange_showToast, inRange_append, Hs.
  - unfold handleEditEmployee.
    destruct (updateEmployee_unconfirmed id data r s) as (t & d & v & ->).
    + destruct r as [m|[|] [m|e]]; simpl in *; tauto.
    + apply inRange_showToast, Hs.
  - destruct c.
    + destruct (deleteEmployee_not_ok id true r s) as [->|(t & d & v & ->)].
      * destruct r as [m|[|] j]; simpl in *; tauto.
      * exact Hs.
      * apply inRange_showToast, Hs.
    + unfold deleteEmployee. destruct (List.find _ _); exact Hs.
  - apply inRange_showToast, Hs.
Qed.

Lemma inRange_run (evs : list Event) (s : State) :
  Forall pageSafe evs -> inRange s -> inRange (run evs s).
Proof.
  intros Hsafe. revert s. induction Hsafe as [|ev evs Hev _ IH]; intros s Hs.
  - exact Hs.
  - simpl. apply IH, inRange_step; assumption.
Qed.

Lemma inRange_loaded (text dept : string) (r : FetchResult (list Emp.t)) :
  inRange (loadEmployees r (initialState text dept)).
Proof.
  assert (H0 : inRange (initialState text dept)).
  { split; [|split].
    - unfold pageInvariant, totalPages. simpl. lia.
    - unfold viewConsistent. simpl. reflexivity.
    - simpl. lia. }
  destruct r as [m|[|] [m|rows]]; simpl; try (apply inRange_showToast, H0).
  repeat split.
  - reflexivity.
  - unfold totalPages. change (currentPage _) with 1. lia.
  - apply (applyFilters_perm (set_employees rows (initialState text dept))).
Qed.

Lemma slice_length {A} (l : list A) (start stop : Z) :
  0 <= start <= stop ->
  Z.of_nat (length (Js.slice l start stop)) =
  Z.max 0 (Z.min stop (Z.of_nat (length l)) - Z.min start (Z.of_nat (length l))).
Proof.
  intros H. unfold Js.slice, Js.sliceIndex.
  destruct (Z.ltb_spec start 0); [lia|].
  destruct (Z.ltb_spec stop 0); [lia|].
  rewrite length_take, length_drop. lia.
Qed.

Lemma page_length (page : Z) (s : State) :
  0 < rowsPerPage s ->
  1 <= page <= Js.ceilDiv (Z.of_nat (length (filteredEmployees s))) (rowsPerPage s) ->
  Z.of_nat (length (tableBody (changePage page s))) =
  Z.max 0 (Z.min (page * rowsPerPage s) (Z.of_nat (length (filteredEmployees s)))
           - Z.min ((page - 1) * rowsPerPage s) (Z.of_nat (length (filteredEmployees s)))).
Proof.
  intros Hr Hp. unfold changePage.
  destruct (Z.ltb_spec page 1) as [?|_]; [lia|].
  destruct (Z.gtb_spec page
    (Js.ceilDiv (Z.of_nat (length (filteredEmployees s))) (rowsPerPage s)))
    as [?|_]; [lia|].
  simpl. rewrite slice_length by nia.
  replace ((page - 1) * rowsPerPage s + rowsPerPage s) with (page * rowsPerPage s)
    by lia.
  reflexivity.
Qed.

End PageFacts.

(** Where the page does stay in range.  The page starts in range, and along
    every run of searches, department changes, page-size changes to a
    positive size, page requests, sorts, exports, adds, and edits and
    deletions that the server does not confirm, the current page stays
    between 1 and [max(1, ceil(filteredCount / pageSize))].  A search, a
    department change and a page-size change set the current page to 1.  A
    page request inside the range makes that page current, and one outside
    leaves the page where it was.  Over 25 filtered records shown 10 a page
    there are 3 pages, of 10, 10 and 5 rows, and a request for page 4
    changes nothing. *)
Theorem page_stays_in_range :
  (forall text dept r,
     inRange (Client.loadEmployees r (Client.initialState text dept))) /\
  (forall s0 evs,
     pageInvariant s0 -> viewConsistent s0 -> 0 < Client.rowsPerPage s0 ->
     Forall pageSafe evs ->
     pageInvariant (Client.run evs s0)) /\
  (forall s text, Client.currentPage (Client.step (Client.SearchInput text) s) = 1) /\
  (forall s dept, Client.currentPage (Client.step (Client.DepartmentChange dept) s) = 1) /\
  (forall s n, Client.currentPage (Client.step (Client.RowsPerPageChange n) s) = 1) /\
  (forall s page,
     1 <= page <= Js.ceilDiv (Z.of_nat (length (Client.filteredEmployees s)))
                             (Client.rowsPerPage s) ->
     Client.currentPage (Client.changePage page s) = page) /\
  (forall s,
     length (Client.filteredEmployees s) = 25%nat -> Client.rowsPerPage s = 10 ->
     totalPages s = 3 /\
     map (fun page => length (Client.tableBody (Client.changePage page s)))
         [1; 2; 3] = [10; 10; 5]%nat /\
     Client.changePage 4 s = s).
Proof.
  repeat apply conj.
  - intros text dept r. apply inRange_loaded.
  - intros s0 evs Hpage Hview Hr Hsafe.
    apply (inRange_run evs s0 Hsafe). repeat split; assumption || apply Hpage.
  - reflexivity.
  - reflexivity.
  - reflexivity.
  - intros s page Hp. unfold Client.changePage.
    destruct (Z.ltb_spec page 1) as [?|_]; [lia|].
    destruct (Z.gtb_spec page
      (Js.ceilDiv (Z.of_nat (length (Client.filteredEmployees s)))
                  (Client.rowsPerPage s))) as [?|_]; [lia|].
    reflexivity.
  - intros s Hlen Hr.
    assert (Hceil : Js.ceilDiv (Z.of_nat (length (Client.filteredEmployees s)))
                      (Client.rowsPerPage s) = 3).
    { rewrite Hlen, Hr. reflexivity. }
    split; [|split].
    + unfold totalPages. rewrite Hceil. reflexivity.
    + assert (Hpage : forall page, 1 <= page <= 3 ->
                Z.of_nat (length (Client.tableBody (Client.changePage page s))) =
                Z.min (page * 10) 25 - (page - 1) * 10).
      { intros page Hp. rewrite page_length by lia.
        rewrite Hlen, Hr. lia. }
      simpl. pose proof (Hpage 1 ltac:(lia)). pose proof (Hpage 2 ltac:(lia)).
      pose proof (Hpage 3 ltac:(lia)).
      repeat f_equal; lia.
    + apply changePage_outside. rewrite Hceil. lia.
Qed.

(** A run on eleven loaded records: to page 2, a search that matches one
    record, the search cleared, a sort by salary, an add that the server
    confirms, five rows a page, then page 3. *)
Lemma page_stays_in_range_witness :
  let s0 := Samples.loaded (Samples.staff 11) in
  let evs := [Client.PageRequest 2; Client.SearchInput "last11";
              Client.SearchInput ""; Client.SortClick Client.SortSalary;
              Client.AddSubmit
                (Samples.formOf (Samples.employee 12 "Sales" 10))
                (Client.Responded true (inr (Samples.employee 12 "Sales" 10)));
              Client.RowsPerPageChange 5; Client.PageRequest 3] in
  pageInvariant (Client.run evs s0) /\
  Client.currentPage (Client.run evs s0) = 3.
Proof.
  intros s0 evs. split; [|reflexivity].
  destruct page_stays_in_range as (Hload & Hrun & _).
  destruct (Hload "" "all" (Client.Responded true (inr (Samples.staff 11))))
    as (Hpage & Hview & Hr).
  apply (Hrun s0 evs Hpage Hview Hr).
  repeat constructor.
Defined.

(** C2 (evaluation).  A delete that the server confirms leaves the page out
    of range.  Eleven records are loaded, ten a page; the user goes to page
    2, which shows one record alone, the last in the order of the names, and
    deletes it.  Ten records are left, on one page, but the current page is
    still 2: the table shows
    no row, the footer reads page 2 of 1 over 10 results with both buttons
    enabled, and the invariant [1 <= currentPage <= max(1, ceil(filteredCount
    / pageSize))] is broken.  [applyFilters], which the delete calls, does
    not look at the page, while a search, a department change and a
    page-size change on the same state set the page to 1 and show the ten
    records. *)
Theorem delete_leaves_page_out_of_range :
  let loaded := Samples.loaded (Samples.staff 11) in
  let s := Client.run
             [Client.PageRequest 2;
              Client.DeleteClick "e9" true (Client.Responded true (inr tt))]
             loaded in
  pageInvariant loaded /\
  Client.tableBody (Client.changePage 2 loaded) =
    [Samples.employee 9 "Engineering" 9000] /\
  length (Client.filteredEmployees s) = 10%nat /\
  Client.rowsPerPage s = 10 /\
  Client.currentPage s = 2 /\
  totalPages s = 1 /\
  Client.tableBody s = [] /\
  Client.pagination s = Client.mkPagination 10 (2, 1) false false /\
  ~ pageInvariant s /\
  Client.currentPage (Client.step (Client.SearchInput "") s) = 1 /\
  length (Client.tableBody (Client.step (Client.SearchInput "") s)) = 10%nat /\
  Client.currentPage (Client.step (Client.DepartmentChange "all") s) = 1 /\
  Client.currentPage (Client.step (Client.RowsPerPageChange 10) s) = 1.
Proof.
  intros loaded s.
  assert (Hcur : Client.currentPage s = 2) by (vm_compute; reflexivity).
  assert (Htot : totalPages s = 1) by (vm_compute; reflexivity).
  split; [unfold pageInvariant; vm_compute; split; discriminate|].
  split; [vm_compute; reflexivity|].
  split; [vm_compute; reflexivity|].
  split; [vm_compute; reflexivity|].
  split; [exact Hcur|].
  split; [exact Htot|].
  split; [vm_compute; reflexivity|].
  split; [vm_compute; reflexivity|].
  split; [unfold pageInvariant; rewrite Hcur, Htot; lia|].
  split; [reflexivity|].
  split; [vm_compute; reflexivity|].
  split; reflexivity.
Qed.

(** ** The tables *)

Section TableFacts.

Import Server.

Lemma existsb_map_to_list {V} (f : string * V -> bool) (m : gmap string V) :
  existsb f (map_to_list m) = true <->
  exists i r, m !! i = Some r /\ f (i, r) = true.
Proof.
  rewrite existsb_exists. split.
  - intros [[i r] [Hin Hf]]. exists i, r. split; [|exact Hf].
    apply elem_of_map_to_list, list_elem_of_In, Hin.
  - intros (i & r & Hm & Hf). exists (i, r). split; [|exact Hf].
    apply list_elem_of_In, elem_of_map_to_list, Hm.
Qed.

Lemma existsb_map_to_list_false {V} (f : string * V -> bool) (m : gmap string V) :
  existsb f (map_to_list m) = false <->
  forall i r, m !! i = Some r -> f (i, r) = false.
Proof.
  rewrite <- not_true_iff_false, existsb_map_to_list. split.
  - intros H i r Hm. apply not_true_iff_false. intros Hf. apply H. eauto.
  - intros H (i & r & Hm & Hf). rewrite (H i r Hm) in Hf. discriminate.
Qed.

Lemma sameKey_spec (k1 k2 : string * string) :
  sameKey k1 k2 = true <-> k1 = k2.
Proof.
  destruct k1 as [a b], k2 as [c d]. unfold sameKey. simpl.
  rewrite andb_true_iff, !String.eqb_eq. split.
  - intros [-> ->]. reflexivity.
  - intros H. injection H as -> ->. auto.
Qed.

Lemma sameKey_false (k1 k2 : string * string) :
  sameKey k1 k2 = false <-> k1 <> k2.
Proof. rewrite <- not_true_iff_false, sameKey_spec. reflexivity. Qed.

(** The three outcomes of an insert. *)
Lemma insertEmployee_cases (id : string) (row : EmployeeRow.t)
    (tbl : gmap string EmployeeRow.t) :
  (insertEmployee id row tbl = inl UniqueViolation /\
   (is_Some (tbl !! id) \/
    exists i r, tbl !! i = Some r /\ indexKey r = indexKey row)) \/
  (insertEmployee id row tbl = inr (<[id := row]> tbl) /\
   tbl !! id = None /\
   forall i r, tbl !! i = Some r -> indexKey r <> indexKey row).
Proof.
  unfold insertEmployee. destruct (tbl !! id) as [old|] eqn:Hid.
  - left. split; [reflexivity|]. left. eauto.
  - destruct (existsb _ _) eqn:Hex.
    + left. split; [reflexivity|]. right.
      apply existsb_map_to_list in Hex as (i & r & Hm & Hk).
      apply sameKey_spec in Hk. eauto.
    + right. repeat split. intros i r Hm.
      rewrite existsb_map_to_list_false in Hex.
      apply sameKey_false, (Hex i r Hm).
Qed.

(** The outcomes of an update. *)
Lemma updateEmployee_cases (id userId f l e d : string) (n : Z)
    (tbl : gmap string EmployeeRow.t) :
  (updateEmployee id userId f l e d n tbl = inl UniqueViolation /\
   exists old i r, tbl !! id = Some old /\ EmployeeRow.userid old = userId /\
     i <> id /\ tbl !! i = Some r /\
     indexKey r = (userId, LOWER e)) \/
  (updateEmployee id userId f l e d n tbl = inr ([], tbl) /\
   forall old, tbl !! id = Some old -> EmployeeRow.userid old <> userId) \/
  (updateEmployee id userId f l e d n tbl =
     inr ([(id, EmployeeRow.make f l e d n userId)],
          <[id := EmployeeRow.make f l e d n userId]> tbl) /\
   (exists old, tbl !! id = Some old /\ EmployeeRow.userid old = userId) /\
   forall i r, i <> id -> tbl !! i = Some r ->
     indexKey r <> (userId, LOWER e)).
Proof.
  unfold updateEmployee. destruct (tbl !! id) as [old|] eqn:Hid.
  - destruct (String.eqb_spec (EmployeeRow.userid old) userId) as [Hu|Hu].
    + destruct (existsb _ _) eqn:Hex.
      * left. split; [reflexivity|].
        apply existsb_map_to_list in Hex as (i & r & Hm & Hk). simpl in Hk.
        apply andb_true_iff in Hk as [Hi Hk].
        apply negb_true_iff, String.eqb_neq in Hi.
        apply sameKey_spec in Hk. unfold indexKey in Hk at 2. simpl in Hk.
        rewrite Hu in Hk. exists old, i, r. auto.
      * right. right. rewrite Hu. repeat split; [eauto|].
        intros i r Hi Hm. rewrite existsb_map_to_list_false in Hex.
        specialize (Hex i r Hm). simpl in Hex.
        apply String.eqb_neq in Hi. rewrite Hi in Hex. simpl in Hex.
        apply sameKey_false in Hex. unfold indexKey in Hex at 2. simpl in Hex.
        rewrite Hu in Hex. exact Hex.
    + right. left. split; [reflexivity|]. intros old' [= <-]. exact Hu.
  - right. left. split; [reflexivity|]. intros old' [=].
Qed.

Lemma deleteEmployee_cases (id userId : string) (tbl : gmap string EmployeeRow.t) :
  deleteEmployee id userId tbl = (0, tbl) \/
  deleteEmployee id userId tbl = (1, delete id tbl).
Proof.
  unfold deleteEmployee. destruct (tbl !! id) as [old|]; [|auto].
  destruct (String.eqb _ _); auto.
Qed.

Lemma indexUnique_insert (id : string) (row : EmployeeRow.t)
    (tbl : gmap string EmployeeRow.t) :
  indexUnique tbl ->
  (forall i r, i <> id -> tbl !! i = Some r -> indexKey r <> indexKey row) ->
  indexUnique (<[id := row]> tbl).
Proof.
  intros Huniq Hfree i j r1 r2 Hi Hj Hk.
  destruct (decide (i = id)) as [->|Hni]; destruct (decide (j = id)) as [->|Hnj].
  - reflexivity.
  - rewrite lookup_insert_eq in Hi. rewrite lookup_insert_ne in Hj by auto.
    injection Hi as <-. destruct (Hfree j r2 Hnj Hj). auto.
  - rewrite lookup_insert_eq in Hj. rewrite lookup_insert_ne in Hi by auto.
    injection Hj as <-. destruct (Hfree i r1 Hni Hi). auto.
  - rewrite lookup_insert_ne in Hi, Hj by auto. eauto.
Qed.

Lemma indexUnique_delete (id : string) (tbl : gmap string EmployeeRow.t) :
  indexUnique tbl -> indexUnique (delete id tbl).
Proof.
  intros Huniq i j r1 r2 Hi Hj Hk.
  apply lookup_delete_Some in Hi as [_ Hi], Hj as [_ Hj]. eauto.
Qed.

Lemma wellFormed_insert (id : string) (row : EmployeeRow.t)
    (tbl : gmap string EmployeeRow.t) :
  wellFormedRow row ->
  map_Forall (fun _ r => wellFormedRow r) tbl ->
  map_Forall (fun _ r => wellFormedRow r) (<[id := row]> tbl).
Proof. intros Hrow Htbl. apply map_Forall_insert_2; assumption. Qed.

Lemma pgInt4_range (v : Js.Value) (n : Z) :
  pgInt4 v = Some n -> - 2 ^ 31 <= n <= 2 ^ 31 - 1.
Proof.
  destruct v as [| | |q| | |]; simpl; try discriminate.
  destruct (Qnum q mod Z.pos (Qden q) =? 0); simpl; [|discriminate].
  destruct (Z.leb_spec (- 2 ^ 31) (Qnum q / Z.pos (Qden q))); simpl; [|discriminate].
  destruct (Z.leb_spec (Qnum q / Z.pos (Qden q)) (2 ^ 31 - 1)); simpl; [|discriminate].
  intros [= <-]. lia.
Qed.

Lemma pgInt4_integer (n : Z) :
  - 2 ^ 31 <= n <= 2 ^ 31 - 1 -> pgInt4 (Js.Number (n # 1)) = Some n.
Proof.
  intros H. unfold pgInt4. simpl Qnum. simpl Qden.
  rewrite Z.mod_1_r, Z.div_1_r. simpl.
  destruct (Z.leb_spec (- 2 ^ 31) n); [|lia].
  destruct (Z.leb_spec n (2 ^ 31 - 1)); [|lia].
  reflexivity.
Qed.

End TableFacts.

(** ** The handlers *)

Section HandlerFacts.

Import Server.
Context `{RT : Runtime}.

Lemma bindable_one (x : string) : bindable [x] = pgText x.
Proof. unfold bindable. simpl. apply andb_true_r. Qed.

Lemma bindable_In (params : list string) (x : string) :
  bindable params = true -> In x params -> pgText x = true.
Proof.
  unfold bindable. rewrite forallb_forall. intros H Hin. exact (H x Hin).
Qed.

Lemma bindable_all (params : list string) :
  (forall x, In x params -> pgText x = true) -> bindable params = true.
Proof. unfold bindable. rewrite forallb_forall. auto. Qed.

Lemma authRequired_pass (cookie : option string) (userId : string) (db : Db)
    (next : string -> Response * Db) :
  getUserIdFromCookie cookie = Js.Normal (Some userId) ->
  userId <> EmptyString ->
  authRequired cookie db next = next userId.
Proof.
  intros Hc Hu. unfold authRequired. rewrite Hc.
  apply String.eqb_neq in Hu. rewrite Hu. reflexivity.
Qed.

Lemma authRequired_elim (P : Response * Db -> Prop) (cookie : option string)
    (db : Db) (next : string -> Response * Db) :
  P (respond 500 Empty, db) ->
  P (respond 401 (Error "Unauthorized"), db) ->
  (forall userId, P (next userId)) ->
  P (authRequired cookie db next).
Proof.
  intros H500 H401 Hnext. unfold authRequired.
  destruct (getUserIdFromCookie cookie) as [[userId|]|]; auto.
  destruct (String.eqb userId ""); auto.
Qed.

Lemma authRequired_missing (db : Db) (next : string -> Response * Db) :
  authRequired None db next = (respond 401 (Error "Unauthorized"), db).
Proof. reflexivity. Qed.

Lemma valid_fields (body : EmployeeBody) :
  invalidEmployeeData body = false <->
  Js.truthy (firstName body) = true /\ Js.truthy (lastName body) = true /\
  Js.truthy (email body) = true /\ Js.truthy (department body) = true /\
  Js.isNumber (salary body) = true.
Proof.
  unfold invalidEmployeeData.
  rewrite !orb_false_iff, !negb_false_iff. tauto.
Qed.

Lemma valid_textBody (f l e d : string) (n : Z) :
  f <> EmptyString -> l <> EmptyString -> e <> EmptyString -> d <> EmptyString ->
  invalidEmployeeData (textBody f l e d n) = false.
Proof.
  intros Hf Hl He Hd. apply valid_fields. simpl.
  apply String.eqb_neq in Hf, Hl, He, Hd. rewrite Hf, Hl, He, Hd. auto.
Qed.

(** The row a valid body gives is well formed. *)
Lemma row_of_valid_body (body : EmployeeBody) (sal : Z) (userId : string) :
  invalidEmployeeData body = false ->
  pgInt4 (salary body) = Some sal ->
  wellFormedRow
    (EmployeeRow.make (prepareValue (firstName body)) (prepareValue (lastName body))
       (prepareValue (email body)) (prepareValue (department body)) sal userId).
Proof.
  intros Hv Hs. apply valid_fields in Hv as (Hf & Hl & He & Hd & _).
  unfold wellFormedRow. simpl.
  repeat split; try (apply prepareValue_truthy; assumption);
    apply (pgInt4_range _ _ Hs).
Qed.

(** What [POST] does once the gate is passed, by the outcome of the insert. *)
Lemma postEmployees_authorised (cookie : option string) (userId : string)
    (body : EmployeeBody) (id : string) (db : Db) (sal : Z) :
  getUserIdFromCookie cookie = Js.Normal (Some userId) ->
  userId <> EmptyString ->
  invalidEmployeeData body = false ->
  pgInt4 (salary body) = Some sal ->
  bindable [id; prepareValue (firstName body); prepareValue (lastName body);
            prepareValue (email body); prepareValue (department body);
            userId] = true ->
  let row := EmployeeRow.make (prepareValue (firstName body))
               (prepareValue (lastName body)) (prepareValue (email body))
               (prepareValue (department body)) sal userId in
  postEmployees cookie body id db =
  match insertEmployee id row (employees db) with
  | inr tbl => (respond 201 (OneEmployee (toEmployee (id, row))), mkDb (users db) tbl)
  | inl UniqueViolation =>
      (respond 409 (Message "An employee with this email already exists."), db)
  | inl OtherError => (respond 500 (Message "Failed to add employee"), db)
  end.
Proof.
  intros Hc Hu Hv Hs Hb row. unfold postEmployees.
  rewrite (authRequired_pass cookie userId db _ Hc Hu), Hv, Hs.
  cbv zeta. cbn [EmployeeRow.firstname EmployeeRow.lastname EmployeeRow.email
                 EmployeeRow.department].
  rewrite Hb. reflexivity.
Qed.

(** A create or an update one of whose texts the database refuses is
    answered 500, and nothing is stored. *)
Lemma postEmployees_refused (cookie : option string) (userId : string)
    (body : EmployeeBody) (id : string) (db : Db) :
  getUserIdFromCookie cookie = Js.Normal (Some userId) ->
  userId <> EmptyString ->
  invalidEmployeeData body = false ->
  bindable [id; prepareValue (firstName body); prepareValue (lastName body);
            prepareValue (email body); prepareValue (department body);
            userId] = false ->
  postEmployees cookie body id db =
  (respond 500 (Message "Failed to add employee"), db).
Proof.
  intros Hc Hu Hv Hb. unfold postEmployees.
  rewrite (authRequired_pass cookie userId db _ Hc Hu), Hv.
  destruct (pgInt4 (salary body)); [|reflexivity].
  cbv zeta. cbn [EmployeeRow.firstname EmployeeRow.lastname EmployeeRow.email
                 EmployeeRow.department].
  rewrite Hb. reflexivity.
Qed.

Lemma putEmployees_refused (cookie : option string) (userId : string)
    (body : EmployeeBody) (id : string) (db : Db) :
  getUserIdFromCookie cookie = Js.Normal (Some userId) ->
  userId <> EmptyString ->
  invalidEmployeeData body = false ->
  bindable [prepareValue (firstName body); prepareValue (lastName body);
            prepareValue (email body); prepareValue (department body);
            id; userId] = false ->
  putEmployees cookie id body db =
  (respond 500 (Message "Failed to update employee"), db).
Proof.
  intros Hc Hu Hv Hb. unfold putEmployees.
  rewrite (authRequired_pass cookie userId db _ Hc Hu), Hv.
  destruct (pgInt4 (salary body)); [|reflexivity].
  rewrite Hb. reflexivity.
Qed.

Lemma putEmployees_authorised (cookie : option string) (userId : string)
    (body : EmployeeBody) (id : string) (db : Db) (sal : Z) :
  getUserIdFromCookie cookie = Js.Normal (Some userId) ->
  userId <> EmptyString ->
  invalidEmployeeData body = false ->
  pgInt4 (salary body) = Some sal ->
  bindable [prepareValue (firstName body); prepareValue (lastName body);
            prepareValue (email body); prepareValue (department body);
            id; userId] = true ->
  putEmployees cookie id body db =
  match updateEmployee id userId (prepareValue (firstName body))
          (prepareValue (lastName body)) (prepareValue (email body))
          (prepareValue (department body)) sal (employees db) with
  | inr ([], _) => (respond 404 (Message "Employee not found"), db)
  | inr (kr :: _, tbl) => (respond 200 (OneEmployee (toEmployee kr)), mkDb (users db) tbl)
  | inl UniqueViolation =>
      (respond 409 (Message "An employee with this email already exists."), db)
  | inl OtherError => (respond 500 (Message "Failed to update employee"), db)
  end.
Proof.
  intros Hc Hu Hv Hs Hb. unfold putEmployees.
  rewrite (authRequired_pass cookie userId db _ Hc Hu), Hv, Hs, Hb. reflexivity.
Qed.

(** The same for a body of four non-empty strings and a 32-bit salary. *)
Lemma postEmployees_text (cookie : option string) (userId : string)
    (f l e d : string) (n : Z) (id : string) (db : Db) :
  getUserIdFromCookie cookie = Js.Normal (Some userId) ->
  userId <> EmptyString ->
  f <> EmptyString -> l <> EmptyString -> e <> EmptyString -> d <> EmptyString ->
  - 2 ^ 31 <= n <= 2 ^ 31 - 1 ->
  postEmployees cookie (textBody f l e d n) id db =
  if bindable [id; f; l; e; d; userId]
  then
    match insertEmployee id (EmployeeRow.make f l e d n userId) (employees db) with
    | inr tbl =>
        (respond 201 (OneEmployee (Emp.make id f l e d n)), mkDb (users db) tbl)
    | inl UniqueViolation =>
        (respond 409 (Message "An employee with this email already exists."), db)
    | inl OtherError => (respond 500 (Message "Failed to add employee"), db)
    end
  else (respond 500 (Message "Failed to add employee"), db).
Proof.
  intros Hc Hu Hf Hl He Hd Hn.
  pose proof (valid_textBody f l e d n Hf Hl He Hd) as Hv.
  destruct (bindable [id; f; l; e; d; userId]) eqn:Hb.
  - rewrite (postEmployees_authorised cookie userId _ id db n Hc Hu Hv
               (pgInt4_integer n Hn)).
    + cbn [textBody firstName lastName email department].
      rewrite !prepareValue_string. reflexivity.
    + cbn [textBody firstName lastName email department].
      rewrite !prepareValue_string. exact Hb.
  - apply (postEmployees_refused cookie userId _ id db Hc Hu Hv).
    cbn [textBody firstName lastName email department].
    rewrite !prepareValue_string. exact Hb.
Qed.

Lemma putEmployees_text (cookie : option string) (userId : string)
    (f l e d : string) (n : Z) (id : string) (db : Db) :
  getUserIdFromCookie cookie = Js.Normal (Some userId) ->
  userId <> EmptyString ->
  f <> EmptyString -> l <> EmptyString -> e <> EmptyString -> d <> EmptyString ->
  - 2 ^ 31 <= n <= 2 ^ 31 - 1 ->
  putEmployees cookie id (textBody f l e d n) db =
  if bindable [f; l; e; d; id; userId]
  then
    match updateEmployee id userId f l e d n (employees db) with
    | inr ([], _) => (respond 404 (Message "Employee not found"), db)
    | inr (kr :: _, tbl) =>
        (respond 200 (OneEmployee (toEmployee kr)), mkDb (users db) tbl)
    | inl UniqueViolation =>
        (respond 409 (Message "An employee with this email already exists."), db)
    | inl OtherError => (respond 500 (Message "Failed to update employee"), db)
    end
  else (respond 500 (Message "Failed to update employee"), db).
Proof.
  intros Hc Hu Hf Hl He Hd Hn.
  pose proof (valid_textBody f l e d n Hf Hl He Hd) as Hv.
  destruct (bindable [f; l; e; d; id; userId]) eqn:Hb.
  - rewrite (putEmployees_authorised cookie userId _ id db n Hc Hu Hv
               (pgInt4_integer n Hn)).
    + cbn [textBody firstName lastName email department].
      rewrite !prepareValue_string. reflexivity.
    + cbn [textBody firstName lastName email department].
      rewrite !prepareValue_string. exact Hb.
  - apply (putEmployees_refused cookie userId _ id db Hc Hu Hv).
    cbn [textBody firstName lastName email department].
    rewrite !prepareValue_string. exact Hb.
Qed.

(** A property of the employees table that the inserts, updates and deletes
    of the handlers preserve is preserved by the handlers. *)
Section Preserved.

Context (Good : gmap string EmployeeRow.t -> Prop).
Hypothesis good_insert : forall id row tbl,
  Good tbl -> wellFormedRow row ->
  (forall i r, i <> id -> tbl !! i = Some r -> indexKey r <> indexKey row) ->
  Good (<[id := row]> tbl).
Hypothesis good_delete : forall id tbl, Good tbl -> Good (delete id tbl).

Lemma postEmployees_preserves (cookie : option string) (body : EmployeeBody)
    (id : string) (db : Db) :
  Good (employees db) -> Good (employees (postEmployees cookie body id db).2).
Proof.
  intros Hdb. unfold postEmployees. apply authRequired_elim; try exact Hdb.
  intros userId. destruct (invalidEmployeeData body) eqn:Hv; [exact Hdb|].
  destruct (pgInt4 (salary body)) as [sal|] eqn:Hs; [|exact Hdb].
  cbv zeta. destruct (bindable _); [|exact Hdb].
  destruct (insertEmployee_cases id
    (EmployeeRow.make (prepareValue (firstName body)) (prepareValue (lastName body))
       (prepareValue (email body)) (prepareValue (department body)) sal userId)
    (employees db)) as [[-> _]|(-> & _ & Hfree)]; [exact Hdb|].
  simpl. apply good_insert; [exact Hdb| |].
  - apply row_of_valid_body; assumption.
  - intros i r _. apply Hfree.
Qed.

Lemma putEmployees_preserves (cookie : option string) (id : string)
    (body : EmployeeBody) (db : Db) :
  Good (employees db) -> Good (employees (putEmployees cookie id body db).2).
Proof.
  intros Hdb. unfold putEmployees. apply authRequired_elim; try exact Hdb.
  intros userId. destruct (invalidEmployeeData body) eqn:Hv; [exact Hdb|].
  destruct (pgInt4 (salary body)) as [sal|] eqn:Hs; [|exact Hdb].
  destruct (bindable _); [|exact Hdb].
  destruct (updateEmployee_cases id userId (prepareValue (firstName body))
    (prepareValue (lastName body)) (prepareValue (email body))
    (prepareValue (department body)) sal (employees db))
    as [[-> _]|[[-> _]|(-> & _ & Hfree)]]; try exact Hdb.
  simpl. apply good_insert; [exact Hdb| |].
  - apply row_of_valid_body; assumption.
  - exact Hfree.
Qed.

Lemma deleteEmployees_preserves (cookie : option string) (id : string) (db : Db) :
  Good (employees db) -> Good (employees (deleteEmployees cookie id db).2).
Proof.
  intros Hdb. unfold deleteEmployees. apply authRequired_elim; try exact Hdb.
  intros userId. destruct (bindable _); [|exact Hdb].
  destruct (deleteEmployee_cases id userId (employees db)) as [->| ->].
  - exact Hdb.
  - simpl. apply good_delete, Hdb.
Qed.

End Preserved.

(** What [register] does with a registration of three strings. *)
Lemma register_fresh (db : Db) (name email password id : string) :
  name <> EmptyString -> email <> EmptyString ->
  (6 <= String.length password)%nat ->
  userEmailFree (users db) email ->
  users db !! id = None ->
  bindable [id; name; email; bcryptHash password] = true ->
  register (registration name email password) id db =
  (respond 201
     (Registered "Registration successful" (mkUser id name email)),
   mkDb (<[id := UserRow.make name email (bcryptHash password)]> (users db))
        (employees db)).
Proof.
  intros Hn He Hp Hfree Hid Hb. unfold register, registration.
  cbn -[bindable insertUser].
  apply String.eqb_neq in Hn, He. rewrite Hn, He. cbn -[bindable insertUser].
  assert (Hpe : String.eqb password "" = false).
  { apply String.eqb_neq. intros ->. simpl in Hp. lia. }
  rewrite Hpe. cbn -[bindable insertUser].
  destruct (Z.ltb_spec (Z.of_nat (String.length password)) 6) as [?|_]; [lia|].
  rewrite !prepareValue_string.
  assert (Hex : existsb (fun kr => String.eqb (UserRow.email kr.2) email)
                  (map_to_list (users db)) = false).
  { apply existsb_map_to_list_false. intros i u Hu. simpl.
    apply String.eqb_neq, (Hfree i u Hu). }
  rewrite Hex, Hb. unfold insertUser. rewrite Hid. simpl. rewrite Hex. reflexivity.
Qed.

(** A registration one of whose texts the database refuses is answered 500,
    and no user is stored. *)
Lemma register_refused (db : Db) (name email password id : string) :
  name <> EmptyString -> email <> EmptyString ->
  (6 <= String.length password)%nat ->
  userEmailFree (users db) email ->
  bindable [id; name; email; bcryptHash password] = false ->
  register (registration name email password) id db =
  (respond 500 (Error "Failed to register user"), db).
Proof.
  intros Hn He Hp Hfree Hb. unfold register, registration.
  cbn -[bindable insertUser].
  apply String.eqb_neq in Hn, He. rewrite Hn, He. cbn -[bindable insertUser].
  assert (Hpe : String.eqb password "" = false).
  { apply String.eqb_neq. intros ->. simpl in Hp. lia. }
  rewrite Hpe. cbn -[bindable insertUser].
  destruct (Z.ltb_spec (Z.of_nat (String.length password)) 6) as [?|_]; [lia|].
  rewrite !prepareValue_string.
  assert (Hex : existsb (fun kr => String.eqb (UserRow.email kr.2) email)
                  (map_to_list (users db)) = false).
  { apply existsb_map_to_list_false. intros i u Hu. simpl.
    apply String.eqb_neq, (Hfree i u Hu). }
  rewrite Hex, Hb. reflexivity.
Qed.

Lemma register_taken (db : Db) (name email password id i : string) (u : UserRow.t) :
  name <> EmptyString -> email <> EmptyString ->
  (6 <= String.length password)%nat ->
  users db !! i = Some u -> UserRow.email u = email ->
  register (registration name email password) id db =
  (respond 409 (Error "User with this email already exists"), db).
Proof.
  intros Hn He Hp Hu Hemail. unfold register, registration. simpl.
  apply String.eqb_neq in Hn, He. rewrite Hn, He. simpl.
  assert (Hpe : String.eqb password "" = false).
  { apply String.eqb_neq. intros ->. simpl in Hp. lia. }
  rewrite Hpe. simpl.
  destruct (Z.ltb_spec (Z.of_nat (String.length password)) 6) as [?|_]; [lia|].
  rewrite !prepareValue_string.
  assert (Hex : existsb (fun kr => String.eqb (UserRow.email kr.2) email)
                  (map_to_list (users db)) = true).
  { apply existsb_map_to_list. exists i, u. split; [exact Hu|].
    simpl. apply String.eqb_eq, Hemail. }
  rewrite Hex. reflexivity.
Qed.

End HandlerFacts.








(** C1 (evaluation).  With no user in the store, a request that carries the
    cookie [uid=ghost] passes the gate of the employee routes: the list is
    answered 200 with the rows of that id and a create is answered 201 and
    stores a row owned by [ghost]; the gate looks at the cookie alone.  The
    same cookie is answered 401 by [GET /api/auth/me], which looks the id up
    among the users, and a request without cookie, or with an empty id, is
    answered 401 by the employee routes. *)
Theorem gate_accepts_unknown_user :
  Server.users Server.emptyDb !! "ghost" = None /\
  (Server.getEmployees (RT := SampleRuntime.runtime) (Some "uid=ghost")
     Server.emptyDb).1 = Server.respond 200 (Server.Employees []) /\
  (let created := Server.postEmployees (RT := SampleRuntime.runtime)
                    (Some "uid=ghost")
                    (textBody "Jane" "Doe" "jane@x.com" "CSE" 80000) "id1"
                    Server.emptyDb in
   Server.status created.1 = 201 /\
   Server.EmployeeRow.userid <$> (Server.employees created.2 !! "id1") =
     Some "ghost") /\
  Server.me (RT := SampleRuntime.runtime) (Some "uid=ghost") Server.emptyDb =
    Js.Normal (Server.respond 401 (Server.Error "Unauthorized")) /\
  (Server.getEmployees (RT := SampleRuntime.runtime) (Some "uid=")
     Server.emptyDb).1 = Server.respond 401 (Server.Error "Unauthorized") /\
  (forall (RT : Server.Runtime) db body id newId,
     (Server.getEmployees None db).1 =
       Server.respond 401 (Server.Error "Unauthorized") /\
     (Server.postEmployees None body newId db).1 =
       Server.respond 401 (Server.Error "Unauthorized") /\
     (Server.putEmployees None id body db).1 =
       Server.respond 401 (Server.Error "Unauthorized") /\
     (Server.deleteEmployees None id db).1 =
       Server.respond 401 (Server.Error "Unauthorized")).
Proof.
  split; [reflexivity|]. split; [vm_compute; reflexivity|].
  split; [split; vm_compute; reflexivity|].
  split; [vm_compute; reflexivity|].
  split; [vm_compute; reflexivity|].
  intros RT db body id newId.
  unfold Server.getEmployees, Server.postEmployees, Server.putEmployees,
    Server.deleteEmployees.
  rewrite !authRequired_missing. auto.
Qed.


(** * Further properties *)

Import MoreProps.

(** ** The session cookie *)

Section CookieFacts.

Lemma trimStart_clean (s : string) :
  allChars (fun c => negb (Js.isSpace c)) s = true -> Js.trimStart s = s.
Proof.
  destruct s as [|c s]; simpl; [reflexivity|].
  intros H. apply andb_true_iff in H as [Hc _].
  apply negb_true_iff in Hc. rewrite Hc. reflexivity.
Qed.

Lemma trimEnd_clean (s : string) :
  allChars (fun c => negb (Js.isSpace c)) s = true -> Js.trimEnd s = s.
Proof.
  induction s as [|c s IH]; simpl; [reflexivity|].
  intros H. apply andb_true_iff in H as [Hc Hs].
  apply negb_true_iff in Hc. rewrite Hc, (IH Hs). reflexivity.
Qed.

Lemma trim_clean (s : string) :
  allChars (fun c => negb (Js.isSpace c)) s = true -> Js.trim s = s.
Proof.
  intros H. unfold Js.trim. rewrite (trimStart_clean s H). apply trimEnd_clean, H.
Qed.

Lemma allChars_impl (p q : ascii -> bool) (s : string) :
  (forall c, p c = true -> q c = true) ->
  allChars p s = true -> allChars q s = true.
Proof.
  intros Hpq. induction s as [|c s IH]; simpl; [reflexivity|].
  intros H. apply andb_true_iff in H as [Hc Hs].
  rewrite (Hpq c Hc), (IH Hs). reflexivity.
Qed.

Lemma allChars_lacks (c : ascii) (s : string) :
  allChars (fun d => negb (Ascii.eqb d c)) s = lacks c s.
Proof. induction s as [|d s IH]; simpl; [reflexivity|]. rewrite IH. reflexivity. Qed.

(** What [encodeURIComponent] writes for one character is made of cookie
    characters. *)
Lemma encode_char_cookie (c : ascii) :
  (if Auth.isUnreserved c then cookieChar c
   else (cookieChar (Auth.hexDigit (nat_of_ascii c / 16)) &&
         cookieChar (Auth.hexDigit (nat_of_ascii c mod 16)))%bool) = true.
Proof.
  destruct c as [[] [] [] [] [] [] [] []]; vm_compute; reflexivity.
Qed.

Lemma encode_cons (c : ascii) (s : string) :
  Auth.encodeURIComponent (String c s) =
  if Auth.isUnreserved c then String c (Auth.encodeURIComponent s)
  else String "%" (String (Auth.hexDigit (nat_of_ascii c / 16))
         (String (Auth.hexDigit (nat_of_ascii c mod 16))
            (Auth.encodeURIComponent s))).
Proof. reflexivity. Qed.

Lemma allChars_cons (p : ascii -> bool) (c : ascii) (s : string) :
  allChars p (String c s) = (p c && allChars p s)%bool.
Proof. reflexivity. Qed.

Lemma encode_cookieChars (s : string) :
  allChars cookieChar (Auth.encodeURIComponent s) = true.
Proof.
  induction s as [|c s IH]; [reflexivity|].
  rewrite encode_cons. pose proof (encode_char_cookie c) as Hc.
  destruct (Auth.isUnreserved c).
  - rewrite allChars_cons, Hc, IH. reflexivity.
  - apply andb_true_iff in Hc as [H1 H2].
    rewrite !allChars_cons, H1, H2, IH. reflexivity.
Qed.

Lemma sessionPair_clean (id : string) :
  allChars cookieChar (Auth.sessionPair id) = true.
Proof. unfold Auth.sessionPair. simpl. apply encode_cookieChars. Qed.

(** The sample decoder inverts the encoder on ASCII text. *)
Lemma decodeAscii_encode_char (c : ascii) (rest : string) :
  (nat_of_ascii c < 128)%nat ->
  SampleRuntime.decodeAscii (Auth.encodeURIComponent (String c rest)) =
  String c <$> SampleRuntime.decodeAscii (Auth.encodeURIComponent rest).
Proof.
  destruct c as [[] [] [] [] [] [] [] []]; intros H;
    try reflexivity; vm_compute in H; lia.
Qed.

Lemma decodeAscii_encode (s : string) :
  allChars (fun c => (nat_of_ascii c <? 128)%nat) s = true ->
  SampleRuntime.decodeAscii (Auth.encodeURIComponent s) = Some s.
Proof.
  induction s as [|c s IH]; [reflexivity|].
  intros H. simpl in H. apply andb_true_iff in H as [Hc Hs].
  apply Nat.ltb_lt in Hc.
  rewrite (decodeAscii_encode_char c s Hc), (IH Hs). reflexivity.
Qed.

(** The header split at its semicolons, for parts that hold none. *)
Lemma split_cookie_header (p : string) (parts : list string) :
  forallb (lacks ";") (p :: parts) = true ->
  Js.split ";" (Js.join "; " (p :: parts)) = p :: map (String " ") parts.
Proof.
  revert p. induction parts as [|q parts IH]; intros p H.
  - simpl in *. apply split_lacks. rewrite andb_true_r in H. exact H.
  - change (Js.join "; " (p :: q :: parts))
      with (p +:+ String ";" (String " " (Js.join "; " (q :: parts)))).
    simpl in H. apply andb_true_iff in H as [Hp Hrest].
    rewrite (split_append ";" p _ Hp).
    change (Js.split ";" (String " " (Js.join "; " (q :: parts))))
      with (match Js.split ";" (Js.join "; " (q :: parts)) with
            | h :: t => String " " h :: t
            | [] => [String " " EmptyString]
            end).
    rewrite (IH q Hrest). reflexivity.
Qed.

Lemma trim_leading_space (s : string) : Js.trim (String " " s) = Js.trim s.
Proof. reflexivity. Qed.

End CookieFacts.

Section GateFacts.

Context `{RT : Server.Runtime}.

(** The gate reads a header of semicolon-free parts as its parts, trimmed. *)
Lemma getUserIdFromCookie_parts (p : string) (parts : list string) :
  forallb (lacks ";") (p :: parts) = true ->
  Server.getUserIdFromCookie (Some (Js.join "; " (p :: parts))) =
  Server.firstUid (map Js.trim (p :: parts)).
Proof.
  intros H. unfold Server.getUserIdFromCookie.
  rewrite (split_cookie_header p parts H). simpl. rewrite map_map.
  reflexivity.
Qed.

Lemma firstUid_skip (before rest : list string) :
  Forall (fun p => Js.startsWith p "uid=" = false) before ->
  Server.firstUid (before ++ rest) = Server.firstUid rest.
Proof.
  induction 1 as [|p before Hp _ IH]; simpl; [reflexivity|].
  rewrite Hp. exact IH.
Qed.

Lemma firstUid_none (parts : list string) :
  Forall (fun p => Js.startsWith p "uid=" = false) parts ->
  Server.firstUid parts = Js.Normal None.
Proof.
  intros H. rewrite <- (app_nil_r parts). apply (firstUid_skip parts [] H).
Qed.

End GateFacts.

Section GateReads.

Context `{RT : Server.Runtime}.

Lemma gate_reads_session_pair (id : string) (before after : list string) :
  Server.decodeURIComponent (Auth.encodeURIComponent id) = Some id ->
  Forall otherCookie before ->
  Forall (fun p => lacks ";" p = true) after ->
  Server.getUserIdFromCookie
    (Some (Js.join "; " (before ++ Auth.sessionPair id :: after))) =
  Js.Normal (Some id).
Proof.
  intros Hdec Hbefore Hafter.
  assert (Hpair : lacks ";" (Auth.sessionPair id) = true).
  { rewrite <- allChars_lacks.
    apply (allChars_impl cookieChar); [|apply sessionPair_clean].
    intros c Hc. apply andb_true_iff in Hc as [_ Hc]. exact Hc. }
  assert (Hall : forallb (lacks ";") (before ++ Auth.sessionPair id :: after) = true).
  { rewrite forallb_app. apply andb_true_iff. split.
    - apply forallb_forall. intros p Hp. rewrite Forall_forall in Hbefore.
      apply (Hbefore p), list_elem_of_In, Hp.
    - cbn [forallb]. apply andb_true_iff. split; [exact Hpair|].
      apply forallb_forall. intros p Hp.
      rewrite Forall_forall in Hafter. apply (Hafter p), list_elem_of_In, Hp. }
  assert (Hread : Server.getUserIdFromCookie
            (Some (Js.join "; " (before ++ Auth.sessionPair id :: after))) =
          Server.firstUid (map Js.trim (before ++ Auth.sessionPair id :: after))).
  { destruct before as [|p before]; apply getUserIdFromCookie_parts, Hall. }
  rewrite Hread, map_app, firstUid_skip.
  + assert (Htrim : Js.trim (Auth.sessionPair id) = Auth.sessionPair id).
    { apply trim_clean, (allChars_impl cookieChar); [|apply sessionPair_clean].
      intros c Hc. apply andb_true_iff in Hc as [Hc _]. exact Hc. }
    simpl map. rewrite Htrim. unfold Auth.sessionPair.
    change (Server.firstUid (("uid=" +:+ Auth.encodeURIComponent id) :: map Js.trim after))
      with (if Js.startsWith ("uid=" +:+ Auth.encodeURIComponent id) "uid="
            then match Server.decodeURIComponent (Auth.encodeURIComponent id) with
                 | Some v => Js.Normal (Some v)
                 | None => Js.Throw
                 end
            else Server.firstUid (map Js.trim after)).
    assert (Hstart : Js.startsWith ("uid=" +:+ Auth.encodeURIComponent id) "uid=" = true).
    { unfold Js.startsWith. simpl. destruct (Auth.encodeURIComponent id); reflexivity. }
    rewrite Hstart, Hdec. reflexivity.
  + apply Forall_forall. intros q Hq. apply list_elem_of_In, in_map_iff in Hq as [p [<- Hp]].
    rewrite Forall_forall in Hbefore. apply (Hbefore p), list_elem_of_In, Hp.
Qed.

Lemma gate_reads_no_uid (p : string) (parts : list string) :
  Forall otherCookie (p :: parts) ->
  Server.getUserIdFromCookie (Some (Js.join "; " (p :: parts))) = Js.Normal None.
Proof.
  intros Hparts.
  rewrite getUserIdFromCookie_parts.
  + apply firstUid_none, Forall_forall. intros q Hq.
    apply list_elem_of_In, in_map_iff in Hq as [r [<- Hr]].
    rewrite Forall_forall in Hparts. apply (Hparts r), list_elem_of_In, Hr.
  + apply forallb_forall. intros q Hq. rewrite Forall_forall in Hparts.
    apply (Hparts q), list_elem_of_In, Hq.
Qed.

Lemma gate_reads_lone_pair (id : string) :
  Server.decodeURIComponent (Auth.encodeURIComponent id) = Some id ->
  Server.getUserIdFromCookie (Some (Auth.sessionPair id)) = Js.Normal (Some id).
Proof.
  intros Hdec. apply (gate_reads_session_pair id [] [] Hdec); constructor.
Qed.

End GateReads.

(** X1.  The gate reads back the id that a login puts into the session
    cookie: when the decoder of the platform inverts the encoder on the id,
    a [Cookie] header that holds the pair [uid=<encoded id>], alone or among
    other cookies, after cookies that are not [uid] pairs and before any
    others, gives that id; and a header without a [uid] pair, like an absent
    header, gives no id. *)
Theorem session_cookie_read_back `{RT : Server.Runtime} :
  (forall (id : string) (before after : list string),
     Server.decodeURIComponent (Auth.encodeURIComponent id) = Some id ->
     Forall otherCookie before ->
     Forall (fun p => lacks ";" p = true) after ->
     Server.getUserIdFromCookie
       (Some (Js.join "; " (before ++ Auth.sessionPair id :: after))) =
     Js.Normal (Some id)) /\
  (forall (p : string) (parts : list string),
     Forall otherCookie (p :: parts) ->
     Server.getUserIdFromCookie (Some (Js.join "; " (p :: parts))) =
     Js.Normal None) /\
  Server.getUserIdFromCookie None = Js.Normal None.
Proof.
  split; [|split; [|reflexivity]].
  - intros id before after. apply gate_reads_session_pair.
  - intros p parts. apply gate_reads_no_uid.
Qed.

(** The id [k3 x;9/b], which the encoder escapes, between two other
    cookies. *)
Lemma session_cookie_read_back_witness :
  Server.getUserIdFromCookie (RT := SampleRuntime.runtime)
    (Some (Js.join "; " (["theme=dark"] ++ Auth.sessionPair "k3 x;9/b" :: ["lang=en"]))) =
  Js.Normal (Some "k3 x;9/b") /\
  Server.getUserIdFromCookie (RT := SampleRuntime.runtime)
    (Some (Js.join "; " ["theme=dark"; "lang=en"])) = Js.Normal None.
Proof.
  destruct (session_cookie_read_back (RT := SampleRuntime.runtime)) as (Hread & Hnone & _).
  split.
  - apply (Hread "k3 x;9/b" ["theme=dark"] ["lang=en"]).
    + reflexivity.
    + repeat constructor.
    + repeat constructor.
  - apply (Hnone "theme=dark" ["lang=en"]). repeat constructor.
Defined.

(** ** Login *)

Section LoginFacts.

Context `{PW : Auth.Passwords}.

(** The row a search by email finds after an insert of a row whose email
    was free. *)
Lemma find_inserted_user (tbl : gmap string Server.UserRow.t) (id : string)
    (row : Server.UserRow.t) :
  userEmailFree tbl (Server.UserRow.email row) ->
  List.find (fun kr => String.eqb (Server.UserRow.email kr.2) (Server.UserRow.email row))
            (map_to_list (<[id := row]> tbl)) = Some (id, row).
Proof.
  intros Hfree.
  destruct (List.find _ _) as [[i u]|] eqn:Hfind.
  - apply find_some in Hfind as [Hin Heq]. simpl in Heq.
    apply String.eqb_eq in Heq.
    apply list_elem_of_In, elem_of_map_to_list, lookup_insert_Some in Hin
      as [[<- <-]|[_ Hu]]; [reflexivity|].
    destruct (Hfree i u Hu Heq).
  - pose proof (find_none _ _ Hfind (id, row)) as Hnone. simpl in Hnone.
    rewrite String.eqb_refl in Hnone.
    assert (In (id, row) (map_to_list (<[id := row]> tbl))).
    { apply list_elem_of_In, elem_of_map_to_list, lookup_insert_eq. }
    specialize (Hnone H). discriminate.
Qed.

End LoginFacts.





(** ** The list of a caller *)

Section ListFacts.

Import Server.

Context `{RT : Runtime}.

Lemma collate_lt_le (a b c : string) :
  collate a b = Lt -> collate b c <> Gt -> collate a c = Lt.
Proof.
  intros H1 H2. destruct (collate a c) eqn:Hac; [|reflexivity|].
  - exfalso. apply (collate_trans b c a H2).
    + rewrite (collate_antisym a c), Hac. discriminate.
    + rewrite (collate_antisym a b), H1. reflexivity.
  - exfalso. apply (collate_trans a b c); [rewrite H1; discriminate|exact H2|exact Hac].
Qed.

Lemma collate_le_lt (a b c : string) :
  collate a b <> Gt -> collate b c = Lt -> collate a c = Lt.
Proof.
  intros H1 H2. destruct (collate a c) eqn:Hac; [|reflexivity|].
  - exfalso. apply (collate_trans c a b).
    + rewrite (collate_antisym a c), Hac. discriminate.
    + exact H1.
    + rewrite (collate_antisym b c), H2. reflexivity.
  - exfalso. apply (collate_trans a b c); [exact H1|rewrite H2; discriminate|exact Hac].
Qed.

Lemma collate_eq_trans (a b c : string) :
  collate a b = Eq -> collate b c = Eq -> collate a c = Eq.
Proof.
  intros H1 H2. destruct (collate a c) eqn:Hac; [reflexivity| |].
  - exfalso. apply (collate_trans c b a).
    + rewrite (collate_antisym b c), H2. discriminate.
    + rewrite (collate_antisym a b), H1. discriminate.
    + rewrite (collate_antisym a c), Hac. reflexivity.
  - exfalso. apply (collate_trans a b c);
      [rewrite H1; discriminate|rewrite H2; discriminate|exact Hac].
Qed.

Lemma byLastFirst_trans : Transitive byLastFirst.
Proof.
  intros a b c [Hab|[Hab Hab']] [Hbc|[Hbc Hbc']].
  - left. apply (collate_lt_le _ _ _ Hab). rewrite Hbc. discriminate.
  - left. apply (collate_lt_le _ _ _ Hab). rewrite Hbc. discriminate.
  - left. apply (fun H => collate_le_lt _ _ _ H Hbc). rewrite Hab. discriminate.
  - right. split; [eapply collate_eq_trans; eauto|].
    eapply collate_trans; eauto.
Qed.

Lemma orderByName_before (a b : Emp.t) : orderByName a b <= 0 -> byLastFirst a b.
Proof.
  unfold orderByName, byLastFirst.
  destruct (collate (Emp.lastName a) (Emp.lastName b)) eqn:Hl.
  - intros H. right. split; [reflexivity|].
    destruct (collate (Emp.firstName a) (Emp.firstName b)); [discriminate|discriminate|lia].
  - intros _. left. reflexivity.
  - lia.
Qed.

Lemma orderByName_after (a b : Emp.t) : 0 < orderByName a b -> byLastFirst b a.
Proof.
  unfold orderByName, byLastFirst.
  rewrite (collate_antisym (Emp.lastName a) (Emp.lastName b)).
  rewrite (collate_antisym (Emp.firstName a) (Emp.firstName b)).
  destruct (collate (Emp.lastName a) (Emp.lastName b)) eqn:Hl.
  - intros H. right. split; [reflexivity|].
    destruct (collate (Emp.firstName a) (Emp.firstName b)) eqn:Hf; try lia.
    discriminate.
  - lia.
  - intros _. left. reflexivity.
Qed.

Lemma filter_Permutation {A} (f : A -> bool) (l l' : list A) :
  l ≡ₚ l' -> List.filter f l ≡ₚ List.filter f l'.
Proof.
  induction 1 as [|x l l' _ IH|x y l|l l' l'' _ IH1 _ IH2]; simpl.
  - reflexivity.
  - destruct (f x); [constructor|]; exact IH.
  - destruct (f x), (f y); try reflexivity. apply perm_swap.
  - etransitivity; eauto.
Qed.

(** The rows of a caller before sorting. *)
Lemma selectEmployees_perm (userId : string) (tbl : gmap string EmployeeRow.t) :
  selectEmployees userId tbl ≡ₚ
  map toEmployee
    (List.filter (fun kr => String.eqb (EmployeeRow.userid kr.2) userId)
       (map_to_list tbl)).
Proof. apply sort_perm. Qed.

Lemma selectEmployees_In (userId : string) (tbl : gmap string EmployeeRow.t)
    (e : Emp.t) :
  In e (selectEmployees userId tbl) <->
  exists row, tbl !! Emp.id e = Some row /\ EmployeeRow.userid row = userId /\
              e = toEmployee (Emp.id e, row).
Proof.
  rewrite (Permutation_in' (eq_refl e) (selectEmployees_perm userId tbl)).
  rewrite in_map_iff. split.
  - intros [[i row] [<- Hin]]. apply filter_In in Hin as [Hin Hu].
    apply list_elem_of_In, elem_of_map_to_list in Hin. simpl in *.
    apply String.eqb_eq in Hu. exists row. auto.
  - intros (row & Hrow & Hu & He). exists (Emp.id e, row). split; [auto|].
    apply filter_In. split.
    + apply list_elem_of_In, elem_of_map_to_list, Hrow.
    + simpl. apply String.eqb_eq, Hu.
Qed.

Lemma selectEmployees_NoDup (userId : string) (tbl : gmap string EmployeeRow.t) :
  NoDup (map Emp.id (selectEmployees userId tbl)).
Proof.
  rewrite (Permutation_map Emp.id (selectEmployees_perm userId tbl)).
  rewrite map_map. simpl.
  assert (Hkeys : NoDup (map fst (map_to_list tbl))) by apply NoDup_fst_map_to_list.
  revert Hkeys. generalize (map_to_list tbl). intros l.
  induction l as [|[i row] l IH]; simpl; intros Hnd; [constructor|].
  apply NoDup_cons in Hnd as [Hi Hnd].
  destruct (String.eqb (EmployeeRow.userid row) userId); simpl; [|auto].
  constructor; [|auto].
  intros Hin. apply Hi. apply list_elem_of_In in Hin. apply list_elem_of_In.
  apply in_map_iff in Hin as [[j r] [Hj Hin]]. simpl in Hj. subst j.
  apply filter_In in Hin as [Hin _]. apply in_map_iff. exists (i, r). auto.
Qed.

End ListFacts.

(** X4.  The list a caller gets holds exactly the rows that the caller owns,
    each once, when the database takes the caller's id as a text (it holds
    no character U+0000): a record is in the list if and only if the table
    has a row under its id, owned by the caller, with those columns; no two
    records of the list share an id; and the list is in the order of last
    name, then first name, each in the collation of the database, whichever
    it is.  The list is computed without changing the store. *)
Theorem list_holds_the_callers_rows `{RT : Server.Runtime}
    (cookie : option string) (userId : string) (db : Server.Db) :
  Server.getUserIdFromCookie cookie = Js.Normal (Some userId) ->
  userId <> EmptyString ->
  Server.bindable [userId] = true ->
  exists rows,
    Server.getEmployees cookie db = (Server.respond 200 (Server.Employees rows), db) /\
    (forall e, In e rows <->
       exists row, Server.employees db !! Emp.id e = Some row /\
                   Server.EmployeeRow.userid row = userId /\
                   e = Server.toEmployee (Emp.id e, row)) /\
    NoDup (map Emp.id rows) /\
    StronglySorted byLastFirst rows.
Proof.
  intros Hc Hu Hb. exists (Server.selectEmployees userId (Server.employees db)).
  split; [|split; [|split]].
  - unfold Server.getEmployees. rewrite (authRequired_pass _ userId _ _ Hc Hu), Hb.
    reflexivity.
  - intros e. apply selectEmployees_In.
  - apply selectEmployees_NoDup.
  - apply sort_sorted.
    + apply byLastFirst_trans.
    + apply orderByName_before.
    + apply orderByName_after.
Qed.

(** Two callers with rows of their own: the list of [u1] in name order,
    with the collation that compares character by character. *)
Lemma list_holds_the_callers_rows_witness :
  let db1 := (Server.postEmployees (RT := SampleRuntime.runtime) (Some "uid=u1")
                (textBody "Zoe" "Young" "zoe@x.com" "CSE" 10) "id1" Server.emptyDb).2 in
  let db2 := (Server.postEmployees (RT := SampleRuntime.runtime) (Some "uid=u2")
                (textBody "Al" "Adams" "al@x.com" "CSE" 20) "id2" db1).2 in
  let db3 := (Server.postEmployees (RT := SampleRuntime.runtime) (Some "uid=u1")
                (textBody "Amy" "Young" "amy@x.com" "CSE" 30) "id3" db2).2 in
  exists rows,
    Server.getEmployees (RT := SampleRuntime.runtime) (Some "uid=u1") db3 =
      (Server.respond 200 (Server.Employees rows), db3) /\
    map Emp.id rows = ["id3"; "id1"].
Proof.
  intros db1 db2 db3.
  destruct (list_holds_the_callers_rows (RT := SampleRuntime.runtime)
              (Some "uid=u1") "u1" db3 eq_refl ltac:(discriminate) eq_refl)
    as (rows & Hget & _).
  exists rows. split; [exact Hget|].
  assert (Hrows : Server.getEmployees (RT := SampleRuntime.runtime) (Some "uid=u1") db3 =
            (Server.respond 200
               (Server.Employees
                  [Emp.make "id3" "Amy" "Young" "amy@x.com" "CSE" 30;
                   Emp.make "id1" "Zoe" "Young" "zoe@x.com" "CSE" 10]), db3)).
  { vm_compute. reflexivity. }
  pose proof (f_equal (fun x => Server.payload x.1)
                (eq_trans (eq_sym Hget) Hrows)) as Hpay.
  cbv beta in Hpay.
  change (Server.Employees rows =
          Server.Employees
            [Emp.make "id3" "Amy" "Young" "amy@x.com" "CSE" 30;
             Emp.make "id1" "Zoe" "Young" "zoe@x.com" "CSE" 10]) in Hpay.
  injection Hpay as ->. reflexivity.
Defined.

(** ** What a request does to the store *)

Section EffectFacts.

Import Server.
Context `{RT : Runtime}.

Lemma authRequired_read (P : Response * Db -> Prop) (cookie : option string)
    (db : Db) (next : string -> Response * Db) :
  P (respond 500 Empty, db) ->
  P (respond 401 (Error "Unauthorized"), db) ->
  (forall userId,
     getUserIdFromCookie cookie = Js.Normal (Some userId) ->
     userId <> EmptyString -> P (next userId)) ->
  P (authRequired cookie db next).
Proof.
  intros H500 H401 Hnext. unfold authRequired.
  destruct (getUserIdFromCookie cookie) as [[userId|]|]; auto.
  destruct (String.eqb_spec userId ""); auto.
Qed.

(** A create either leaves the store as it was, with an error status, or adds one row of the caller under the new id. *)
Lemma postEmployees_effect (cookie : option string) (body : EmployeeBody)
    (newId : string) (db : Db) :
  (400 <= status (postEmployees cookie body newId db).1 /\
   (postEmployees cookie body newId db).2 = db) \/
  exists userId row,
    getUserIdFromCookie cookie = Js.Normal (Some userId) /\
    userId <> EmptyString /\
    EmployeeRow.userid row = userId /\
    employees db !! newId = None /\
    postEmployees cookie body newId db =
      (respond 201 (OneEmployee (toEmployee (newId, row))),
       mkDb (users db) (<[newId := row]> (employees db))).
Proof.
  unfold postEmployees.
  apply authRequired_read; [| |intros userId Hc Hu].
  - left. split; [simpl; lia|reflexivity].
  - left. split; [simpl; lia|reflexivity].
  - destruct (invalidEmployeeData body); [left; split; [simpl; lia|reflexivity]|].
    destruct (pgInt4 (salary body)) as [sal|]; [|left; split; [simpl; lia|reflexivity]].
    cbv zeta.
    destruct (bindable _); [|left; split; [simpl; lia|reflexivity]].
    destruct (insertEmployee_cases newId
      (EmployeeRow.make (prepareValue (firstName body)) (prepareValue (lastName body))
         (prepareValue (email body)) (prepareValue (department body)) sal userId)
      (employees db)) as [[-> _]|(-> & Hfresh & _)].
    + left. split; [simpl; lia|reflexivity].
    + right. eexists userId, _. repeat split; eauto.
Qed.

(** An update either leaves the store as it was, with an error status, or replaces one row of the caller, under the id given. *)
Lemma putEmployees_effect (cookie : option string) (id : string)
    (body : EmployeeBody) (db : Db) :
  (400 <= status (putEmployees cookie id body db).1 /\
   (putEmployees cookie id body db).2 = db) \/
  exists userId old row,
    getUserIdFromCookie cookie = Js.Normal (Some userId) /\
    userId <> EmptyString /\
    employees db !! id = Some old /\
    EmployeeRow.userid old = userId /\
    EmployeeRow.userid row = userId /\
    putEmployees cookie id body db =
      (respond 200 (OneEmployee (toEmployee (id, row))),
       mkDb (users db) (<[id := row]> (employees db))).
Proof.
  unfold putEmployees.
  apply authRequired_read; [| |intros userId Hc Hu].
  - left. split; [simpl; lia|reflexivity].
  - left. split; [simpl; lia|reflexivity].
  - destruct (invalidEmployeeData body); [left; split; [simpl; lia|reflexivity]|].
    destruct (pgInt4 (salary body)) as [sal|]; [|left; split; [simpl; lia|reflexivity]].
    destruct (bindable _); [|left; split; [simpl; lia|reflexivity]].
    destruct (updateEmployee_cases id userId (prepareValue (firstName body))
      (prepareValue (lastName body)) (prepareValue (email body))
      (prepareValue (department body)) sal (employees db))
      as [[-> _]|[[-> _]|(-> & (old & Hold & Howner) & _)]].
    + left. split; [simpl; lia|reflexivity].
    + left. split; [simpl; lia|reflexivity].
    + right. eexists userId, old, _. repeat split; eauto.
Qed.

(** A delete either leaves the store as it was, with an error status, or removes the row of the caller under the id given. *)
Lemma deleteEmployees_effect (cookie : option string) (id : string) (db : Db) :
  (400 <= status (deleteEmployees cookie id db).1 /\
   (deleteEmployees cookie id db).2 = db) \/
  exists userId old,
    getUserIdFromCookie cookie = Js.Normal (Some userId) /\
    userId <> EmptyString /\
    employees db !! id = Some old /\
    EmployeeRow.userid old = userId /\
    deleteEmployees cookie id db =
      (respond 204 Empty, mkDb (users db) (delete id (employees db))).
Proof.
  unfold deleteEmployees.
  apply authRequired_read; [| |intros userId Hc Hu].
  - left. split; [simpl; lia|reflexivity].
  - left. split; [simpl; lia|reflexivity].
  - destruct (bindable _); [|left; split; [simpl; lia|reflexivity]].
    unfold deleteEmployee. destruct (employees db !! id) as [old|] eqn:Hold.
    + destruct (String.eqb_spec (EmployeeRow.userid old) userId) as [Ho|Ho].
      * right. exists userId, old. repeat split; eauto.
      * left. split; [simpl; lia|reflexivity].
    + left. split; [simpl; lia|reflexivity].
Qed.

(** A registration either leaves the store as it was, with an error status, or adds one user under the new id. *)
Lemma register_effect (body : RegisterBody) (newId : string) (db : Db) :
  (400 <= status (register body newId db).1 /\ (register body newId db).2 = db) \/
  exists row,
    users db !! newId = None /\
    status (register body newId db).1 = 201 /\
    (register body newId db).2 = mkDb (<[newId := row]> (users db)) (employees db).
Proof.
  unfold register.
  destruct (negb (Js.truthy (reg_name body)) || negb (Js.truthy (reg_email body)) ||
            negb (Js.truthy (reg_password body)))%bool;
    [left; split; [simpl; lia|reflexivity]|].
  destruct (Js.lengthBelow (reg_password body) 6);
    [left; split; [simpl; lia|reflexivity]|].
  destruct (existsb _ _); [left; split; [simpl; lia|reflexivity]|].
  destruct (reg_password body) as [| | | |p| |];
    try (left; split; [simpl; lia|reflexivity]).
  destruct (bindable _); [|left; split; [simpl; lia|reflexivity]].
  unfold insertUser. destruct (users db !! newId) eqn:Hid;
    [left; split; [simpl; lia|reflexivity]|].
  destruct (existsb _ _); [left; split; [simpl; lia|reflexivity]|].
  right. eexists. repeat split; eauto.
Qed.

End EffectFacts.

(** X5.  An answer that reports no success leaves the store as it was: a
    create not answered 201, an update not answered 200, a delete not
    answered 204 and a registration not answered 201 change nothing, and
    the list never does.  The employee routes never touch the users, and a
    registration never touches the employees. *)
Theorem failed_requests_change_nothing `{RT : Server.Runtime}
    (cookie : option string) (body : Server.EmployeeBody)
    (regBody : Server.RegisterBody) (id newId : string) (db : Server.Db) :
  (Server.status (Server.postEmployees cookie body newId db).1 <> 201 ->
   (Server.postEmployees cookie body newId db).2 = db) /\
  (Server.status (Server.putEmployees cookie id body db).1 <> 200 ->
   (Server.putEmployees cookie id body db).2 = db) /\
  (Server.status (Server.deleteEmployees cookie id db).1 <> 204 ->
   (Server.deleteEmployees cookie id db).2 = db) /\
  (Server.status (Server.register regBody newId db).1 <> 201 ->
   (Server.register regBody newId db).2 = db) /\
  (Server.getEmployees cookie db).2 = db /\
  Server.users (Server.postEmployees cookie body newId db).2 = Server.users db /\
  Server.users (Server.putEmployees cookie id body db).2 = Server.users db /\
  Server.users (Server.deleteEmployees cookie id db).2 = Server.users db /\
  Server.employees (Server.register regBody newId db).2 = Server.employees db.
Proof.
  repeat apply conj.
  - intros Hs. destruct (postEmployees_effect cookie body newId db)
      as [[_ H]|(u & row & _ & _ & _ & _ & H)]; [exact H|].
    rewrite H in Hs. destruct Hs. reflexivity.
  - intros Hs. destruct (putEmployees_effect cookie id body db)
      as [[_ H]|(u & old & row & _ & _ & _ & _ & _ & H)]; [exact H|].
    rewrite H in Hs. destruct Hs. reflexivity.
  - intros Hs. destruct (deleteEmployees_effect cookie id db)
      as [[_ H]|(u & old & _ & _ & _ & _ & H)]; [exact H|].
    rewrite H in Hs. destruct Hs. reflexivity.
  - intros Hs. destruct (register_effect regBody newId db)
      as [[_ H]|(row & _ & H & _)]; [exact H|]. destruct (Hs H).
  - unfold Server.getEmployees. apply authRequired_elim; try reflexivity.
    intros userId. destruct (Server.bindable _); reflexivity.
  - destruct (postEmployees_effect cookie body newId db)
      as [[_ ->]|(u & row & _ & _ & _ & _ & ->)]; reflexivity.
  - destruct (putEmployees_effect cookie id body db)
      as [[_ ->]|(u & old & row & _ & _ & _ & _ & _ & ->)]; reflexivity.
  - destruct (deleteEmployees_effect cookie id db)
      as [[_ ->]|(u & old & _ & _ & _ & _ & ->)]; reflexivity.
  - destruct (register_effect regBody newId db)
      as [[_ ->]|(row & _ & _ & ->)]; reflexivity.
Qed.

(** A create with a duplicate email, an update of a missing row and a
    delete without cookie. *)
Lemma failed_requests_change_nothing_witness :
  let db := (Server.postEmployees (RT := SampleRuntime.runtime) (Some "uid=u1")
               (textBody "Jane" "Doe" "jane@x.com" "CSE" 10) "id1" Server.emptyDb).2 in
  (Server.postEmployees (RT := SampleRuntime.runtime) (Some "uid=u1")
     (textBody "Jon" "Doe" "JANE@x.com" "CSE" 20) "id2" db).2 = db /\
  (Server.putEmployees (RT := SampleRuntime.runtime) (Some "uid=u1") "id9"
     (textBody "Jon" "Doe" "jon@x.com" "CSE" 20) db).2 = db /\
  (Server.deleteEmployees (RT := SampleRuntime.runtime) None "id1" db).2 = db.
Proof.
  intros db.
  pose proof (failed_requests_change_nothing (RT := SampleRuntime.runtime)
                (Some "uid=u1") (textBody "Jon" "Doe" "JANE@x.com" "CSE" 20)
                (registration "a" "b" "c") "id9" "id2" db) as (Hpost & _).
  pose proof (failed_requests_change_nothing (RT := SampleRuntime.runtime)
                (Some "uid=u1") (textBody "Jon" "Doe" "jon@x.com" "CSE" 20)
                (registration "a" "b" "c") "id9" "id2" db) as (_ & Hput & _).
  pose proof (failed_requests_change_nothing (RT := SampleRuntime.runtime)
                None (textBody "Jon" "Doe" "jon@x.com" "CSE" 20)
                (registration "a" "b" "c") "id1" "id2" db) as (_ & _ & Hdel & _).
  split; [|split].
  - apply Hpost. vm_compute. discriminate.
  - apply Hput. vm_compute. discriminate.
  - apply Hdel. vm_compute. discriminate.
Defined.

(** X6.  The requests of a caller leave the rows of every other owner as
    they are: after a create, an update or a delete by the caller, a row
    that is not owned by the caller is in the table under an id if and only
    if it was there before.  An update or a delete aimed at the id of a row
    of another owner changes nothing, is never answered with a success, and
    the delete is answered 404 when the database takes the two ids as texts
    (no character U+0000 in them), and 500 when it refuses one. *)
Theorem other_owners_rows_untouched `{RT : Server.Runtime}
    (cookie : option string) (userId : string) (body : Server.EmployeeBody)
    (id newId : string) (db : Server.Db) :
  Server.getUserIdFromCookie cookie = Js.Normal (Some userId) ->
  (forall i r, Server.EmployeeRow.userid r <> userId ->
     (Server.employees (Server.postEmployees cookie body newId db).2 !! i = Some r <->
      Server.employees db !! i = Some r) /\
     (Server.employees (Server.putEmployees cookie id body db).2 !! i = Some r <->
      Server.employees db !! i = Some r) /\
     (Server.employees (Server.deleteEmployees cookie id db).2 !! i = Some r <->
      Server.employees db !! i = Some r)) /\
  (forall r, Server.employees db !! id = Some r ->
     Server.EmployeeRow.userid r <> userId ->
     (Server.putEmployees cookie id body db).2 = db /\
     Server.status (Server.putEmployees cookie id body db).1 <> 200 /\
     (userId <> EmptyString -> Server.bindable [id; userId] = true ->
      Server.deleteEmployees cookie id db =
        (Server.respond 404 (Server.Message "Employee not found"), db)) /\
     (userId <> EmptyString -> Server.bindable [id; userId] = false ->
      Server.deleteEmployees cookie id db =
        (Server.respond 500 (Server.Message "Failed to delete employee"), db))).
Proof.
  intros Hc. split.
  - intros i r Hr. split; [|split].
    + destruct (postEmployees_effect cookie body newId db)
        as [[_ ->]|(u & row & Hc' & _ & Hrow & Hfresh & ->)]; [reflexivity|].
      simpl. assert (Hsame : u = userId) by congruence. subst u.
      rewrite lookup_insert_Some. split.
      * intros [[_ <-]|[_ H]]; [congruence|exact H].
      * intros H. right. split; [congruence|exact H].
    + destruct (putEmployees_effect cookie id body db)
        as [[_ ->]|(u & old & row & Hc' & _ & Hold & Howner & Hrow & ->)];
        [reflexivity|].
      simpl. assert (Hsame : u = userId) by congruence. subst u.
      rewrite lookup_insert_Some. split.
      * intros [[_ <-]|[_ H]]; [congruence|exact H].
      * intros H. right. split; [congruence|exact H].
    + destruct (deleteEmployees_effect cookie id db)
        as [[_ ->]|(u & old & Hc' & _ & Hold & Howner & ->)]; [reflexivity|].
      simpl. assert (Hsame : u = userId) by congruence. subst u.
      rewrite lookup_delete_Some. split.
      * intros [_ H]. exact H.
      * intros H. split; [congruence|exact H].
  - intros r Hrow Hr. split; [|split; [|split]].
    + destruct (putEmployees_effect cookie id body db)
        as [[_ H]|(u & old & row & Hc' & _ & Hold & Howner & _)]; [exact H|].
      congruence.
    + destruct (putEmployees_effect cookie id body db)
        as [[H _]|(u & old & row & Hc' & _ & Hold & Howner & _)]; [lia|].
      congruence.
    + intros Hu Hb. unfold Server.deleteEmployees.
      rewrite (authRequired_pass cookie userId db _ Hc Hu), Hb.
      unfold Server.deleteEmployee. rewrite Hrow.
      apply String.eqb_neq in Hr. rewrite Hr. reflexivity.
    + intros Hu Hb. unfold Server.deleteEmployees.
      rewrite (authRequired_pass cookie userId db _ Hc Hu), Hb. reflexivity.
Qed.

(** The caller [u2] aims an update and a delete at the row of [u1]; a
    caller whose id holds the character U+0000 is answered 500. *)
Lemma other_owners_rows_untouched_witness :
  let db := (Server.postEmployees (RT := SampleRuntime.runtime) (Some "uid=u1")
               (textBody "Jane" "Doe" "jane@x.com" "CSE" 10) "id1" Server.emptyDb).2 in
  (Server.putEmployees (RT := SampleRuntime.runtime) (Some "uid=u2") "id1"
     (textBody "Eve" "Doe" "eve@x.com" "CSE" 1) db).2 = db /\
  Server.deleteEmployees (RT := SampleRuntime.runtime) (Some "uid=u2") "id1" db =
    (Server.respond 404 (Server.Message "Employee not found"), db) /\
  Server.deleteEmployees (RT := SampleRuntime.runtime) (Some "uid=u%00") "id1" db =
    (Server.respond 500 (Server.Message "Failed to delete employee"), db).
Proof.
  intros db.
  pose proof (other_owners_rows_untouched (RT := SampleRuntime.runtime)
                (Some "uid=u%00") (String "u" (String "000" EmptyString))
                (textBody "Eve" "Doe" "eve@x.com" "CSE" 1)
                "id1" "id2" db eq_refl) as (_ & Hrefused).
  destruct (Hrefused (Server.EmployeeRow.make "Jane" "Doe" "jane@x.com" "CSE" 10 "u1"))
    as (_ & _ & _ & H500); [vm_compute; reflexivity|discriminate|].
  pose proof (other_owners_rows_untouched (RT := SampleRuntime.runtime)
                (Some "uid=u2") "u2" (textBody "Eve" "Doe" "eve@x.com" "CSE" 1)
                "id1" "id2" db eq_refl) as (_ & Hforeign).
  destruct (Hforeign (Server.EmployeeRow.make "Jane" "Doe" "jane@x.com" "CSE" 10 "u1"))
    as (Hput & _ & Hdel & _).
  - vm_compute. reflexivity.
  - discriminate.
  - split; [exact Hput|]. split.
    + apply Hdel; [discriminate|reflexivity].
    + apply H500; [discriminate|reflexivity].
Defined.

(** ** The list after a request *)

Section ListAfter.

Import Server.
Context `{RT : Runtime}.

Lemma selectEmployees_insert (userId i : string) (row : EmployeeRow.t)
    (tbl : gmap string EmployeeRow.t) :
  tbl !! i = None ->
  selectEmployees userId (<[i := row]> tbl) ≡ₚ
  (if String.eqb (EmployeeRow.userid row) userId then [toEmployee (i, row)] else [])
  ++ selectEmployees userId tbl.
Proof.
  intros Hi. rewrite !selectEmployees_perm.
  rewrite (filter_Permutation _ _ _ (map_to_list_insert tbl i row Hi)).
  simpl. destruct (String.eqb (EmployeeRow.userid row) userId); reflexivity.
Qed.

Lemma selectEmployees_delete (userId i : string) (row : EmployeeRow.t)
    (tbl : gmap string EmployeeRow.t) :
  tbl !! i = Some row ->
  selectEmployees userId tbl ≡ₚ
  (if String.eqb (EmployeeRow.userid row) userId then [toEmployee (i, row)] else [])
  ++ selectEmployees userId (delete i tbl).
Proof.
  intros Hi. rewrite !selectEmployees_perm.
  rewrite <- (filter_Permutation _ _ _ (map_to_list_delete tbl i row Hi)).
  simpl. destruct (String.eqb (EmployeeRow.userid row) userId); reflexivity.
Qed.

Lemma selectEmployees_replace (userId i : string) (row : EmployeeRow.t)
    (tbl : gmap string EmployeeRow.t) :
  selectEmployees userId (<[i := row]> tbl) ≡ₚ
  (if String.eqb (EmployeeRow.userid row) userId then [toEmployee (i, row)] else [])
  ++ selectEmployees userId (delete i tbl).
Proof.
  rewrite <- (insert_delete_eq tbl i row).
  rewrite selectEmployees_insert by apply lookup_delete_eq.
  reflexivity.
Qed.

End ListAfter.

(** X7.  The list of a caller follows the requests of the caller.  After a
    create answered 201 the list holds the record returned, which carries
    the new id, besides the records it held; after an update answered 200
    the record returned, which carries the id given, has taken the place of
    the record with that id; after a delete answered 204 the record with the
    id given is gone from the list, the others are kept, and a second
    delete of the same id is answered 404. *)
Theorem list_follows_requests `{RT : Server.Runtime}
    (cookie : option string) (userId : string) (body : Server.EmployeeBody)
    (id newId : string) (db : Server.Db) :
  Server.getUserIdFromCookie cookie = Js.Normal (Some userId) ->
  (Server.status (Server.postEmployees cookie body newId db).1 = 201 ->
   exists e,
     Server.payload (Server.postEmployees cookie body newId db).1 = Server.OneEmployee e /\
     Emp.id e = newId /\
     Server.selectEmployees userId
       (Server.employees (Server.postEmployees cookie body newId db).2) ≡ₚ
     e :: Server.selectEmployees userId (Server.employees db)) /\
  (Server.status (Server.putEmployees cookie id body db).1 = 200 ->
   exists e old rest,
     Server.payload (Server.putEmployees cookie id body db).1 = Server.OneEmployee e /\
     Emp.id e = id /\ Emp.id old = id /\
     Server.selectEmployees userId (Server.employees db) ≡ₚ old :: rest /\
     Server.selectEmployees userId
       (Server.employees (Server.putEmployees cookie id body db).2) ≡ₚ e :: rest) /\
  (Server.status (Server.deleteEmployees cookie id db).1 = 204 ->
   exists old,
     Emp.id old = id /\
     Server.selectEmployees userId (Server.employees db) ≡ₚ
       old :: Server.selectEmployees userId
                (Server.employees (Server.deleteEmployees cookie id db).2) /\
     (forall e, In e (Server.selectEmployees userId
                        (Server.employees (Server.deleteEmployees cookie id db).2)) ->
                Emp.id e <> id) /\
     Server.deleteEmployees cookie id (Server.deleteEmployees cookie id db).2 =
       (Server.respond 404 (Server.Message "Employee not found"),
        (Server.deleteEmployees cookie id db).2)).
Proof.
  intros Hc. split; [|split].
  - intros Hs. destruct (postEmployees_effect cookie body newId db)
      as [[Hne _]|(u & row & Hc' & _ & Hrow & Hfresh & Heq)]; [lia|].
    assert (Hsame : u = userId) by congruence. rewrite Hsame in *. clear Hsame u.
    rewrite Heq. simpl. exists (Server.toEmployee (newId, row)).
    split; [reflexivity|]. split; [reflexivity|].
    rewrite (selectEmployees_insert userId newId row _ Hfresh).
    apply String.eqb_eq in Hrow. rewrite Hrow. reflexivity.
  - intros Hs. destruct (putEmployees_effect cookie id body db)
      as [[Hne _]|(u & old & row & Hc' & _ & Hold & Howner & Hrow & Heq)];
      [lia|].
    assert (Hsame : u = userId) by congruence. rewrite Hsame in *. clear Hsame u.
    rewrite Heq. simpl.
    exists (Server.toEmployee (id, row)), (Server.toEmployee (id, old)),
      (Server.selectEmployees userId (delete id (Server.employees db))).
    split; [reflexivity|]. split; [reflexivity|]. split; [reflexivity|]. split.
    + rewrite (selectEmployees_delete userId id old _ Hold).
      apply String.eqb_eq in Howner. rewrite Howner. reflexivity.
    + rewrite (selectEmployees_replace userId id row).
      apply String.eqb_eq in Hrow. rewrite Hrow. reflexivity.
  - intros Hs. destruct (deleteEmployees_effect cookie id db)
      as [[Hne _]|(u & old & Hc' & Hu & Hold & Howner & Heq)]; [lia|].
    assert (Hsame : u = userId) by congruence. rewrite Hsame in *. clear Hsame u.
    rewrite Heq. simpl. exists (Server.toEmployee (id, old)).
    split; [reflexivity|]. split; [|split].
    + rewrite (selectEmployees_delete userId id old _ Hold).
      apply String.eqb_eq in Howner. rewrite Howner. reflexivity.
    + intros e He Hid. apply selectEmployees_In in He as (r & Hr & _).
      rewrite Hid, lookup_delete_eq in Hr. discriminate.
    + assert (Hb : Server.bindable [id; userId] = true).
      { destruct (Server.bindable [id; userId]) eqn:Hb; [reflexivity|].
        unfold Server.deleteEmployees in Hs.
        rewrite (authRequired_pass cookie userId _ _ Hc Hu), Hb in Hs.
        discriminate Hs. }
      unfold Server.deleteEmployees.
      rewrite (authRequired_pass cookie userId _ _ Hc Hu), Hb.
      unfold Server.deleteEmployee. simpl. rewrite lookup_delete_eq. reflexivity.
Qed.

(** Jane is created, renamed and deleted. *)
Lemma list_follows_requests_witness :
  let created := Server.postEmployees (RT := SampleRuntime.runtime) (Some "uid=u1")
                   (textBody "Jane" "Doe" "jane@x.com" "CSE" 10) "id1" Server.emptyDb in
  let deleted := Server.deleteEmployees (RT := SampleRuntime.runtime) (Some "uid=u1")
                   "id1" created.2 in
  (exists e, Server.payload created.1 = Server.OneEmployee e /\ Emp.id e = "id1") /\
  Server.deleteEmployees (RT := SampleRuntime.runtime) (Some "uid=u1") "id1" deleted.2 =
    (Server.respond 404 (Server.Message "Employee not found"), deleted.2).
Proof.
  intros created deleted. split.
  - pose proof (list_follows_requests (RT := SampleRuntime.runtime) (Some "uid=u1") "u1"
                  (textBody "Jane" "Doe" "jane@x.com" "CSE" 10) "id1" "id1"
                  Server.emptyDb eq_refl) as (Hpost & _).
    fold created in Hpost.
    destruct Hpost as (e & He & Hid & _); [vm_compute; reflexivity|].
    exists e. split; assumption.
  - pose proof (list_follows_requests (RT := SampleRuntime.runtime) (Some "uid=u1") "u1"
                  (textBody "Jane" "Doe" "jane@x.com" "CSE" 10) "id1" "id1"
                  created.2 eq_refl) as (_ & _ & Hdel).
    fold deleted in Hdel.
    destruct Hdel as (old & _ & _ & _ & Hagain); [vm_compute; reflexivity|].
    exact Hagain.
Defined.

(** X8.  A registration is answered 400 exactly when name, email or password
    is missing or otherwise falsy, or the password has a length below 6; it
    is answered 409 exactly when it passes that test and a user holds the
    email sent, character for character; and it is answered 201 only for a
    password that is a string of at least 6 characters, with a new user
    stored under the new id with the name and email sent and the hash of
    the password. *)
Theorem register_validation `{RT : Server.Runtime}
    (body : Server.RegisterBody) (newId : string) (db : Server.Db) :
  (Server.status (Server.register body newId db).1 = 400 <->
   Js.truthy (Server.reg_name body) = false \/
   Js.truthy (Server.reg_email body) = false \/
   Js.truthy (Server.reg_password body) = false \/
   Js.lengthBelow (Server.reg_password body) 6 = true) /\
  (Server.status (Server.register body newId db).1 = 409 <->
   Js.truthy (Server.reg_name body) = true /\
   Js.truthy (Server.reg_email body) = true /\
   Js.truthy (Server.reg_password body) = true /\
   Js.lengthBelow (Server.reg_password body) 6 = false /\
   exists i u, Server.users db !! i = Some u /\
               Server.UserRow.email u = Server.prepareValue (Server.reg_email body)) /\
  (Server.status (Server.register body newId db).1 = 201 ->
   exists p,
     Server.reg_password body = Js.Str p /\ (6 <= String.length p)%nat /\
     Server.users db !! newId = None /\
     Server.users (Server.register body newId db).2 !! newId =
       Some (Server.UserRow.make (Server.prepareValue (Server.reg_name body))
               (Server.prepareValue (Server.reg_email body))
               (Server.bcryptHash p))).
Proof.
  unfold Server.register.
  destruct (Js.truthy (Server.reg_name body)) eqn:Hn; cbn -[Server.bindable];
    [|split; [|split]; [split; auto | split; [discriminate|intros (H & _); discriminate]
                        | discriminate]].
  destruct (Js.truthy (Server.reg_email body)) eqn:He; cbn -[Server.bindable];
    [|split; [|split]; [split; auto | split; [discriminate|intros (_ & H & _); discriminate]
                        | discriminate]].
  destruct (Js.truthy (Server.reg_password body)) eqn:Hp; cbn -[Server.bindable];
    [|split; [|split]; [split; auto | split; [discriminate|intros (_ & _ & H & _); discriminate]
                        | discriminate]].
  destruct (Js.lengthBelow (Server.reg_password body) 6) eqn:Hlen;
    [split; [|split]; [split; auto | split; [discriminate|intros (_ & _ & _ & H & _); discriminate]
                       | discriminate]|].
  destruct (existsb _ _) eqn:Hex.
  - apply existsb_map_to_list in Hex as (i & u & Hu & Heq). simpl in Heq.
    apply String.eqb_eq in Heq.
    split; [|split].
    + simpl. split; [discriminate|]. intros [H|[H|[H|H]]]; discriminate.
    + simpl. split; [|reflexivity]. intros _. repeat split; eauto.
    + simpl. discriminate.
  - rewrite existsb_map_to_list_false in Hex.
    assert (Hnot409 : ~ (true = true /\ true = true /\ true = true /\ false = false /\
              exists i u, Server.users db !! i = Some u /\
                Server.UserRow.email u = Server.prepareValue (Server.reg_email body))).
    { intros (_ & _ & _ & _ & i & u & Hu & Heq).
      specialize (Hex i u Hu). simpl in Hex. apply String.eqb_neq in Hex. auto. }
    destruct (Server.reg_password body) as [| |b|q|p|n|] eqn:Hpw;
      try (split; [|split];
           [simpl; split; [discriminate|intros [H|[H|[H|H]]]; discriminate]
           |simpl; split; [discriminate|intros H; destruct (Hnot409 H)]
           |simpl; discriminate]).
    destruct (Server.bindable _) eqn:Hbind;
      [|split; [|split];
        [simpl; split; [discriminate|intros [H|[H|[H|H]]]; discriminate]
        |simpl; split; [discriminate|intros H; destruct (Hnot409 H)]
        |simpl; discriminate]].
    unfold Server.insertUser.
    destruct (Server.users db !! newId) eqn:Hid.
    + split; [|split];
        [simpl; split; [discriminate|intros [H|[H|[H|H]]]; discriminate]
        |simpl; split; [discriminate|intros H; destruct (Hnot409 H)]
        |simpl; discriminate].
    + destruct (existsb _ _) eqn:Hex2.
      * split; [|split];
          [simpl; split; [discriminate|intros [H|[H|[H|H]]]; discriminate]
          |simpl; split; [discriminate|intros H; destruct (Hnot409 H)]
          |simpl; discriminate].
      * split; [|split];
          [simpl; split; [discriminate|intros [H|[H|[H|H]]]; discriminate]
          |simpl; split; [discriminate|intros H; destruct (Hnot409 H)]
          |].
        simpl. intros _. exists p. split; [reflexivity|]. split.
        { simpl in Hlen. apply Z.ltb_ge in Hlen. lia. }
        split; [reflexivity|]. apply lookup_insert_eq.
Qed.

(** A password of five characters, and one of six. *)
Lemma register_validation_witness :
  Server.status
    (Server.register (RT := SampleRuntime.runtime)
       (registration "Bob" "bob@x.com" "12345") "u1" Server.emptyDb).1 = 400 /\
  exists p,
    Server.reg_password (registration "Bob" "bob@x.com" "123456") = Js.Str p /\
    (6 <= String.length p)%nat.
Proof.
  split.
  - apply (register_validation (RT := SampleRuntime.runtime)
             (registration "Bob" "bob@x.com" "12345") "u1" Server.emptyDb).
    right. right. right. reflexivity.
  - destruct (register_validation (RT := SampleRuntime.runtime)
                (registration "Bob" "bob@x.com" "123456") "u1" Server.emptyDb)
      as (_ & _ & H201).
    destruct H201 as (p & Hp & Hlen & _); [vm_compute; reflexivity|].
    exists p. split; assumption.
Defined.

(** ** The pages of the view *)

Section PagesFacts.

Import Client.

Lemma ceilDiv_bounds (n d : Z) :
  0 < d -> (Js.ceilDiv n d - 1) * d < n <= Js.ceilDiv n d * d.
Proof.
  intros Hd. unfold Js.ceilDiv.
  pose proof (Z.div_mod (- n) d ltac:(lia)) as Hdm.
  pose proof (Z.mod_pos_bound (- n) d Hd) as Hm.
  nia.
Qed.

Lemma slice_take_drop {A} (l : list A) (a b : Z) :
  0 <= a <= b ->
  Js.slice l a b = take (Z.to_nat (b - a)) (drop (Z.to_nat a) l).
Proof.
  intros H. unfold Js.slice, Js.sliceIndex.
  destruct (Z.ltb_spec a 0); [lia|]. destruct (Z.ltb_spec b 0); [lia|].
  destruct (Z.le_gt_cases (Z.of_nat (length l)) a) as [Hge|Hlt].
  - rewrite !drop_ge by lia. rewrite !take_nil. reflexivity.
  - replace (Z.min a (Z.of_nat (length l))) with a by lia.
    destruct (Z.le_gt_cases b (Z.of_nat (length l))) as [Hb|Hb].
    + replace (Z.min b (Z.of_nat (length l))) with b by lia. reflexivity.
    + replace (Z.min b (Z.of_nat (length l))) with (Z.of_nat (length l)) by lia.
      rewrite !take_ge; [reflexivity| |]; rewrite length_drop; lia.
Qed.

Lemma changePage_rows (page : Z) (s : State) :
  1 <= page <= Js.ceilDiv (Z.of_nat (length (filteredEmployees s))) (rowsPerPage s) ->
  tableBody (changePage page s) =
  Js.slice (filteredEmployees s) ((page - 1) * rowsPerPage s)
    ((page - 1) * rowsPerPage s + rowsPerPage s).
Proof.
  intros Hp. unfold changePage.
  destruct (Z.ltb_spec page 1) as [?|_]; [lia|].
  destruct (Z.gtb_spec page
    (Js.ceilDiv (Z.of_nat (length (filteredEmployees s))) (rowsPerPage s)))
    as [?|_]; [lia|].
  reflexivity.
Qed.

(** The chunks of a list, put end to end. *)
Lemma chunks_concat {A} (size : nat) (l : list A) (count : nat) :
  concat (map (fun k => take size (drop (k * size) l)) (seq 0 count)) =
  take (count * size) l.
Proof.
  induction count as [|count IH].
  - simpl. rewrite take_0. reflexivity.
  - rewrite seq_S, map_app, concat_app, IH. simpl. rewrite app_nil_r.
    rewrite take_take_drop. f_equal. lia.
Qed.

End PagesFacts.

(** X9.  The pages cut the filtered view into consecutive pieces: for a
    positive page size, the rows shown on the pages 1 to
    [ceil(filteredCount / pageSize)], put end to end, are the filtered view,
    in its order; every one of these pages shows at least one row and at
    most [pageSize] rows, and every page but the last shows exactly
    [pageSize] rows. *)
Theorem pages_partition_the_view (s : Client.State) :
  0 < Client.rowsPerPage s ->
  concat (map (fun page => Client.tableBody (Client.changePage page s))
              (pageNumbers s)) = Client.filteredEmployees s /\
  (forall page,
     1 <= page <= Js.ceilDiv (Z.of_nat (length (Client.filteredEmployees s)))
                             (Client.rowsPerPage s) ->
     1 <= Z.of_nat (length (Client.tableBody (Client.changePage page s)))
       <= Client.rowsPerPage s /\
     (page < Js.ceilDiv (Z.of_nat (length (Client.filteredEmployees s)))
                        (Client.rowsPerPage s) ->
      Z.of_nat (length (Client.tableBody (Client.changePage page s))) =
      Client.rowsPerPage s)).
Proof.
  intros Hr.
  pose proof (ceilDiv_bounds (Z.of_nat (length (Client.filteredEmployees s)))
                (Client.rowsPerPage s) Hr) as Hceil.
  set (pages := Js.ceilDiv (Z.of_nat (length (Client.filteredEmployees s)))
                  (Client.rowsPerPage s)) in *.
  split.
  - unfold pageNumbers. fold pages. rewrite map_map.
    rewrite (map_ext_in _
      (fun k => take (Z.to_nat (Client.rowsPerPage s))
                  (drop (k * Z.to_nat (Client.rowsPerPage s))
                        (Client.filteredEmployees s)))).
    + rewrite chunks_concat. apply take_ge. nia.
    + intros k Hk. apply in_seq in Hk.
      rewrite changePage_rows by (fold pages; lia).
      rewrite slice_take_drop by nia. f_equal; [f_equal; lia|].
      f_equal. nia.
  - intros page Hp.
    pose proof (page_length page s Hr Hp) as Hlen. fold pages in Hp.
    rewrite Hlen. split; [nia|]. intros Hlast. nia.
Qed.

(** Twenty-five records, ten a page. *)
Lemma pages_partition_the_view_witness :
  let s := Samples.loaded (Samples.staff 25) in
  concat (map (fun page => Client.tableBody (Client.changePage page s)) [1; 2; 3]) =
    Client.filteredEmployees s.
Proof.
  intros s.
  assert (Hr : 0 < Client.rowsPerPage s) by (vm_compute; reflexivity).
  destruct (pages_partition_the_view s Hr) as [Hcat _]. exact Hcat.
Defined.

(** X10.  The footer agrees with the page change.  On a state whose page is
    in range, with a positive page size, the footer that [updatePagination]
    writes disables "next" exactly on the last page and "previous" exactly
    on page 1; a click on an enabled button moves the page by one, and a
    click on a disabled one changes nothing.  On an empty view both are
    disabled and the footer shows page 1 of 1. *)
Theorem footer_agrees_with_page_change (s : Client.State) :
  0 < Client.rowsPerPage s -> pageInvariant s ->
  let footer := Client.pagination (Client.updatePagination s) in
  Client.pageInfo footer = (Client.currentPage s, totalPages s) /\
  Client.totalResults footer = Z.of_nat (length (Client.filteredEmployees s)) /\
  (Client.nextDisabled footer = false ->
   Client.currentPage (Client.changePage (Client.currentPage s + 1) s) =
     Client.currentPage s + 1) /\
  (Client.nextDisabled footer = true ->
   Client.changePage (Client.currentPage s + 1) s = s) /\
  (Client.prevDisabled footer = false ->
   Client.currentPage (Client.changePage (Client.currentPage s - 1) s) =
     Client.currentPage s - 1) /\
  (Client.prevDisabled footer = true ->
   Client.changePage (Client.currentPage s - 1) s = s) /\
  (Client.filteredEmployees s = [] ->
   Client.nextDisabled footer = true /\ Client.prevDisabled footer = true /\
   Client.pageInfo footer = (1, 1)).
Proof.
  intros Hr [Hlo Hhi] footer. unfold totalPages in Hhi.
  pose proof (ceilDiv_bounds (Z.of_nat (length (Client.filteredEmployees s)))
                (Client.rowsPerPage s) Hr) as Hceil.
  assert (Hin : forall page,
            1 <= page <= Js.ceilDiv (Z.of_nat (length (Client.filteredEmployees s)))
                                    (Client.rowsPerPage s) ->
            Client.currentPage (Client.changePage page s) = page).
  { intros page Hp. unfold Client.changePage.
    destruct (Z.ltb_spec page 1) as [?|_]; [lia|].
    destruct (Z.gtb_spec page
      (Js.ceilDiv (Z.of_nat (length (Client.filteredEmployees s)))
                  (Client.rowsPerPage s))) as [?|_]; [lia|].
    reflexivity. }
  set (pages := Js.ceilDiv (Z.of_nat (length (Client.filteredEmployees s)))
                  (Client.rowsPerPage s)) in *.
  assert (Hnd : Client.nextDisabled footer = (Client.currentPage s =? Z.max 1 pages))
    by reflexivity.
  assert (Hpd : Client.prevDisabled footer = (Client.currentPage s =? 1))
    by reflexivity.
  assert (Hpi : Client.pageInfo footer = (Client.currentPage s, Z.max 1 pages))
    by reflexivity.
  split; [reflexivity|]. split; [reflexivity|].
  rewrite Hnd, Hpd, Hpi. clear Hnd Hpd Hpi.
  split; [|split; [|split; [|split]]].
  - intros Hnext. apply Z.eqb_neq in Hnext. apply Hin. lia.
  - intros Hnext. apply Z.eqb_eq in Hnext. apply changePage_outside. fold pages. lia.
  - intros Hprev. apply Z.eqb_neq in Hprev. apply Hin. lia.
  - intros Hprev. apply Z.eqb_eq in Hprev. apply changePage_outside. fold pages. lia.
  - intros Hempty. rewrite Hempty in Hceil. simpl in Hceil.
    assert (Hzero : pages = 0) by nia.
    assert (Hone : Client.currentPage s = 1) by lia.
    rewrite Hone, Hzero. repeat split.
Qed.

(** The second of three pages, and an empty view. *)
Lemma footer_agrees_with_page_change_witness :
  let s := Client.changePage 2 (Samples.loaded (Samples.staff 25)) in
  Client.currentPage (Client.changePage (Client.currentPage s + 1) s) = 3 /\
  Client.currentPage (Client.changePage (Client.currentPage s - 1) s) = 1 /\
  Client.changePage 2 (Samples.loaded []) = Samples.loaded [].
Proof.
  intros s.
  assert (Hr : 0 < Client.rowsPerPage s) by (vm_compute; reflexivity).
  assert (Hinv : pageInvariant s).
  { unfold pageInvariant.
    assert (Hc : Client.currentPage s = 2) by (vm_compute; reflexivity).
    assert (Ht : totalPages s = 3) by (vm_compute; reflexivity).
    rewrite Hc, Ht. lia. }
  pose proof (footer_agrees_with_page_change s Hr Hinv) as H.
  cbv zeta in H. destruct H as (_ & _ & Hnext & _ & Hprev & _).
  split; [|split].
  - rewrite Hnext; [vm_compute; reflexivity|]. vm_compute. reflexivity.
  - rewrite Hprev; [vm_compute; reflexivity|]. vm_compute. reflexivity.
  - assert (Hr0 : 0 < Client.rowsPerPage (Samples.loaded [])) by (vm_compute; reflexivity).
    assert (Hinv0 : pageInvariant (Samples.loaded [])).
    { unfold pageInvariant.
      assert (Hc : Client.currentPage (Samples.loaded []) = 1) by (vm_compute; reflexivity).
      assert (Ht : totalPages (Samples.loaded []) = 1) by (vm_compute; reflexivity).
      rewrite Hc, Ht. lia. }
    pose proof (footer_agrees_with_page_change (Samples.loaded []) Hr0 Hinv0) as H0.
    cbv zeta in H0. destruct H0 as (_ & _ & _ & Hnext0 & _).
    apply Hnext0. vm_compute. reflexivity.
Defined.
(** ** Sorting by any column *)

Section ColumnSortFacts.

Import Client.

Lemma compare_gt_lt (a b : string) :
  String.compare a b = Gt <-> String.compare b a = Lt.
Proof.
  rewrite (String.compare_antisym b a).
  destruct (String.compare a b); simpl; split; congruence.
Qed.

Lemma compare_lt_trans (a b c : string) :
  String.compare a b = Lt -> String.compare b c = Lt -> String.compare a c = Lt.
Proof.
  intros H1 H2. apply OrderedTypeEx.String_as_OT.cmp_lt.
  apply OrderedTypeEx.String_as_OT.cmp_lt in H1, H2.
  eapply OrderedTypeEx.String_as_OT.lt_trans; eauto.
Qed.

Lemma compare_not_gt_trans (a b c : string) :
  String.compare a b <> Gt -> String.compare b c <> Gt -> String.compare a c <> Gt.
Proof.
  intros H1 H2.
  destruct (String.compare a b) eqn:Hab; [| |congruence].
  - apply String.compare_eq_iff in Hab as ->. exact H2.
  - destruct (String.compare b c) eqn:Hbc; [| |congruence].
    + apply String.compare_eq_iff in Hbc as <-. rewrite Hab. discriminate.
    + rewrite (compare_lt_trans a b c Hab Hbc). discriminate.
Qed.

Lemma ltb_irrefl (x : string) : String.ltb x x = false.
Proof.
  unfold String.ltb.
  assert (H : String.compare x x = Eq)
    by (apply OrderedTypeEx.String_as_OT.cmp_eq; reflexivity).
  rewrite H. reflexivity.
Qed.

Lemma ltb_asym (x y : string) : String.ltb x y = true -> String.ltb y x = false.
Proof.
  unfold String.ltb. rewrite (String.compare_antisym x y).
  destruct (String.compare y x); simpl; congruence.
Qed.

Lemma ltb_not_trans (x y z : string) :
  String.ltb y x = false -> String.ltb z y = false -> String.ltb z x = false.
Proof.
  unfold String.ltb. intros H1 H2.
  assert (Hzy : String.compare z y <> Lt) by (destruct (String.compare z y); congruence).
  assert (Hyx : String.compare y x <> Lt) by (destruct (String.compare y x); congruence).
  assert (Hxy : String.compare x y <> Gt).
  { intros H. apply compare_gt_lt in H. auto. }
  assert (Hyz : String.compare y z <> Gt).
  { intros H. apply compare_gt_lt in H. auto. }
  pose proof (compare_not_gt_trans x y z Hxy Hyz) as Hxz.
  destruct (String.compare z x) eqn:Hzx; try reflexivity.
  apply compare_gt_lt in Hzx. congruence.
Qed.

(** The comparison of the code, read on the columns of the records. *)
Lemma lessThan_notAfter (f : SortField) (a b : Emp.t) :
  lessThan (sortValue f b) (sortValue f a) = false <-> notAfter f a b.
Proof.
  destruct f as [| |[]]; simpl; try reflexivity.
  rewrite Z.ltb_ge. reflexivity.
Qed.

Lemma tied_sortValue (f : SortField) (a b : Emp.t) :
  tied f a b = true -> sortValue f a = sortValue f b.
Proof.
  destruct f as [| |[]]; simpl.
  - intros H. apply String.eqb_eq in H. unfold fullName. f_equal. exact H.
  - intros H. apply Z.eqb_eq in H. f_equal. exact H.
  - intros H. apply String.eqb_eq in H. f_equal. exact H.
  - intros H. apply String.eqb_eq in H. f_equal. exact H.
  - intros H. apply String.eqb_eq in H. f_equal. exact H.
  - intros H. apply String.eqb_eq in H. f_equal. exact H.
  - intros H. apply String.eqb_eq in H. f_equal. exact H.
Qed.

Lemma lessThan_irrefl (v : SortValue) : lessThan v v = false.
Proof. destruct v; simpl; [apply ltb_irrefl|apply Z.ltb_irrefl]. Qed.

Lemma lessThan_asym (f : SortField) (a b : Emp.t) :
  lessThan (sortValue f a) (sortValue f b) = true ->
  lessThan (sortValue f b) (sortValue f a) = false.
Proof.
  destruct f as [| |c]; simpl.
  - apply ltb_asym.
  - intros H. apply Z.ltb_lt in H. apply Z.ltb_ge. lia.
  - apply ltb_asym.
Qed.

Lemma lessThan_not_trans (f : SortField) (a b c : Emp.t) :
  lessThan (sortValue f b) (sortValue f a) = false ->
  lessThan (sortValue f c) (sortValue f b) = false ->
  lessThan (sortValue f c) (sortValue f a) = false.
Proof.
  destruct f as [| |col]; simpl.
  - apply ltb_not_trans.
  - rewrite !Z.ltb_ge. lia.
  - apply ltb_not_trans.
Qed.

Lemma notAfter_trans (f : SortField) : Transitive (notAfter f).
Proof.
  intros a b c. rewrite <- !lessThan_notAfter. apply lessThan_not_trans.
Qed.

Lemma inOrder_trans (f : SortField) (d : SortDirection) : Transitive (inOrder f d).
Proof.
  intros a b c. destruct d; unfold inOrder.
  - apply notAfter_trans.
  - intros H1 H2. apply (notAfter_trans f c b a); assumption.
Qed.

Lemma compareFn_before (f : SortField) (d : SortDirection) (a b : Emp.t) :
  compareFn f d a b <= 0 -> inOrder f d a b.
Proof.
  unfold compareFn, inOrder.
  destruct (lessThan (sortValue f a) (sortValue f b)) eqn:Hab.
  - destruct d; [|lia]. intros _. apply lessThan_notAfter, lessThan_asym, Hab.
  - destruct (lessThan (sortValue f b) (sortValue f a)) eqn:Hba; destruct d;
      intros H; try lia; apply lessThan_notAfter; assumption.
Qed.

Lemma compareFn_after (f : SortField) (d : SortDirection) (a b : Emp.t) :
  0 < compareFn f d a b -> inOrder f d b a.
Proof.
  unfold compareFn, inOrder.
  destruct (lessThan (sortValue f a) (sortValue f b)) eqn:Hab.
  - destruct d; [lia|]. intros _. apply lessThan_notAfter, lessThan_asym, Hab.
  - destruct (lessThan (sortValue f b) (sortValue f a)) eqn:Hba; destruct d;
      intros H; try lia; apply lessThan_notAfter; assumption.
Qed.

Lemma compareFn_tied (f : SortField) (d : SortDirection) (a b : Emp.t) :
  tied f a b = true -> compareFn f d a b = 0.
Proof.
  intros H. apply tied_sortValue in H. unfold compareFn. cbv zeta.
  rewrite H, lessThan_irrefl. reflexivity.
Qed.

Lemma tied_trans (f : SortField) (v a b : Emp.t) :
  tied f v a = true -> tied f v b = true -> tied f a b = true.
Proof.
  destruct f as [| |c]; simpl.
  - rewrite !String.eqb_eq. congruence.
  - rewrite !Z.eqb_eq. lia.
  - rewrite !String.eqb_eq. congruence.
Qed.

Lemma SortField_eqb_eq (a b : SortField) : SortField_eqb a b = true -> a = b.
Proof.
  destruct a as [| |[]], b as [| |[]]; simpl; intros H;
    try reflexivity; discriminate.
Qed.

Lemma handleSort_filtered (field : SortField) (s : State) :
  let d := if SortField_eqb (sortField s) field
           then flipped (sortDirection s) else asc in
  sortField (handleSort field s) = field /\
  sortDirection (handleSort field s) = d /\
  filteredEmployees (handleSort field s) =
    Js.sort (compareFn field d) (filteredEmployees s).
Proof.
  unfold handleSort.
  destruct (SortField_eqb (sortField s) field) eqn:Heq.
  - apply SortField_eqb_eq in Heq. subst field.
    destruct (sortDirection s); repeat split.
  - repeat split.
Qed.

End ColumnSortFacts.

(** X11.  A click on a column header sorts the view by that column.  The
    direction is ascending, or the opposite of the current one when the
    column is already the sort column, so that a second click reverses it;
    the view afterwards holds the same records, ordered by the value of the
    column in that direction (the number for the salary, and for a text
    column the text in lower case, compared character by character; the
    name column is the first and the last name with a space between), the
    records of equal value in the order they had; the rows shown are the
    current page of the new order; and the
    cache, the page number and the page size are not changed. *)
Theorem column_click_sorts_view (field : Client.SortField) (s : Client.State) :
  let s' := Client.handleSort field s in
  Client.sortField s' = field /\
  Client.sortDirection s' =
    (if Client.SortField_eqb (Client.sortField s) field
     then flipped (Client.sortDirection s) else Client.asc) /\
  Client.sortDirection (Client.handleSort field s') =
    flipped (Client.sortDirection s') /\
  Client.filteredEmployees s' ≡ₚ Client.filteredEmployees s /\
  StronglySorted (inOrder field (Client.sortDirection s'))
    (Client.filteredEmployees s') /\
  (forall v, List.filter (tied field v) (Client.filteredEmployees s') =
             List.filter (tied field v) (Client.filteredEmployees s)) /\
  Client.tableBody s' =
    Js.slice (Client.filteredEmployees s')
      ((Client.currentPage s - 1) * Client.rowsPerPage s)
      ((Client.currentPage s - 1) * Client.rowsPerPage s + Client.rowsPerPage s) /\
  Client.employees s' = Client.employees s /\
  Client.currentPage s' = Client.currentPage s /\
  Client.rowsPerPage s' = Client.rowsPerPage s.
Proof.
  intros s'.
  destruct (handleSort_filtered field s) as (Hf & Hd & Hl). cbv zeta in Hd, Hl.
  fold s' in Hf, Hd, Hl.
  split; [exact Hf|]. split; [exact Hd|]. split; [|split; [|split; [|split]]].
  - destruct (handleSort_filtered field s') as (_ & Hd' & _). cbv zeta in Hd'.
    rewrite Hd', Hf.
    assert (Hrefl : Client.SortField_eqb field field = true)
      by (destruct field as [| |[]]; reflexivity).
    rewrite Hrefl. reflexivity.
  - rewrite Hl. apply sort_perm.
  - rewrite Hl, Hd. apply sort_sorted.
    + apply inOrder_trans.
    + apply compareFn_before.
    + apply compareFn_after.
  - intros v. rewrite Hl. apply sort_filter.
    intros x y Hx Hy. rewrite (compareFn_tied field _ x y); [lia|].
    apply (tied_trans field v); assumption.
  - repeat split; unfold s', Client.handleSort;
      destruct (Client.SortField_eqb (Client.sortField s) field); reflexivity.
Qed.

(** Four records, two of them paid the same and one written in small
    letters: a click on the salary column, a second one, and a click on the
    name column. *)
Lemma column_click_sorts_view_witness :
  let ann := Emp.make "e1" "Ann" "Young" "ann@x.com" "CSE" 300 in
  let bob := Emp.make "e2" "bob" "Adams" "bob@x.com" "CSE" 100 in
  let cy := Emp.make "e3" "Cy" "Zed" "cy@x.com" "ECE" 200 in
  let dan := Emp.make "e4" "Dan" "Brown" "dan@x.com" "ECE" 100 in
  let s := Samples.loaded [dan; ann; cy; bob] in
  let s1 := Client.handleSort Client.SortSalary s in
  let s2 := Client.handleSort Client.SortSalary s1 in
  let s3 := Client.handleSort Client.SortName s2 in
  Client.filteredEmployees s1 = [bob; dan; cy; ann] /\
  Client.sortDirection s1 = Client.asc /\
  Client.filteredEmployees s2 = [ann; cy; bob; dan] /\
  Client.sortDirection s2 = Client.desc /\
  Client.filteredEmployees s3 = [ann; bob; cy; dan] /\
  Client.sortDirection s3 = Client.asc /\
  StronglySorted (inOrder Client.SortSalary Client.asc) [bob; dan; cy; ann] /\
  StronglySorted (inOrder Client.SortSalary Client.desc) [ann; cy; bob; dan] /\
  StronglySorted (inOrder Client.SortName Client.asc) [ann; bob; cy; dan].
Proof.
  intros ann bob cy dan s s1 s2 s3.
  assert (E1 : Client.filteredEmployees s1 = [bob; dan; cy; ann])
    by (vm_compute; reflexivity).
  assert (E2 : Client.filteredEmployees s2 = [ann; cy; bob; dan])
    by (vm_compute; reflexivity).
  assert (E3 : Client.filteredEmployees s3 = [ann; bob; cy; dan])
    by (vm_compute; reflexivity).
  assert (D1 : Client.sortDirection s1 = Client.asc) by (vm_compute; reflexivity).
  assert (D2 : Client.sortDirection s2 = Client.desc) by (vm_compute; reflexivity).
  assert (D3 : Client.sortDirection s3 = Client.asc) by (vm_compute; reflexivity).
  pose proof (column_click_sorts_view Client.SortSalary s) as H1.
  pose proof (column_click_sorts_view Client.SortSalary s1) as H2.
  pose proof (column_click_sorts_view Client.SortName s2) as H3.
  cbv zeta in H1, H2, H3.
  destruct H1 as (_ & _ & _ & _ & H1 & _).
  destruct H2 as (_ & _ & _ & _ & H2 & _).
  destruct H3 as (_ & _ & _ & _ & H3 & _).
  change (Client.handleSort Client.SortSalary s) with s1 in H1.
  change (Client.handleSort Client.SortSalary s1) with s2 in H2.
  change (Client.handleSort Client.SortName s2) with s3 in H3.
  rewrite E1, D1 in H1. rewrite E2, D2 in H2. rewrite E3, D3 in H3.
  repeat (split; [assumption|]). assumption.
Defined.

(** ** Logout *)

Section LogoutFacts.

Context `{RT : Server.Runtime}.

(** A header whose first [uid] pair has no value names no caller. *)
Lemma gate_reads_empty_pair (before after : list string) :
  Server.decodeURIComponent "" = Some "" ->
  Forall otherCookie before ->
  Forall (fun p => lacks ";" p = true) after ->
  Server.getUserIdFromCookie (Some (Js.join "; " (before ++ "uid=" :: after))) =
  Js.Normal (Some "").
Proof.
  intros Hdec Hb Ha.
  exact (gate_reads_session_pair "" before after Hdec Hb Ha).
Qed.

Lemma authRequired_empty (cookie : option string) (db : Server.Db)
    (next : string -> Server.Response * Server.Db) :
  Server.getUserIdFromCookie cookie = Js.Normal (Some "") ->
  Server.authRequired cookie db next =
  (Server.respond 401 (Server.Error "Unauthorized"), db).
Proof. intros H. unfold Server.authRequired. rewrite H. reflexivity. Qed.

End LogoutFacts.

(** X12.  A logout closes the session.  It is answered 204 with a
    [Set-Cookie] header whose pair is [uid=], with no value, and which
    expires at once.  When the decoder gives the empty text for the empty
    text, a request whose first [uid] pair has no value, alone or among other
    cookies, is a request of no caller: the list, a create, an update and a
    delete are answered 401 and leave the store as it was, and
    [GET /api/auth/me] is answered 401. *)
Theorem logout_closes_session `{PW : Auth.Passwords}
    (protocol : string) (forwardedProto : option string) :
  Server.decodeURIComponent "" = Some "" ->
  Server.status (Auth.logout protocol forwardedProto).1 = 204 /\
  (exists attributes,
     Js.split ";" (Auth.logout protocol forwardedProto).2 =
       Auth.sessionPair "" :: attributes /\
     In " Max-Age=0" attributes) /\
  (forall (before after : list string) (body : Server.EmployeeBody)
          (id newId : string) (db : Server.Db),
     Forall otherCookie before ->
     Forall (fun p => lacks ";" p = true) after ->
     let cookie := Some (Js.join "; " (before ++ Auth.sessionPair "" :: after)) in
     let unauthorized := Server.respond 401 (Server.Error "Unauthorized") in
     Server.getEmployees cookie db = (unauthorized, db) /\
     Server.postEmployees cookie body newId db = (unauthorized, db) /\
     Server.putEmployees cookie id body db = (unauthorized, db) /\
     Server.deleteEmployees cookie id db = (unauthorized, db) /\
     Server.me cookie db = Js.Normal unauthorized).
Proof.
  intros Hdec. split; [reflexivity|]. split.
  - unfold Auth.logout, Auth.clearedCookie, Auth.isSecure. cbn [snd].
    destruct (String.eqb protocol "https" || _)%bool.
    + exists [" HttpOnly"; " SameSite=Lax"; " Path=/"; " Max-Age=0"; " Secure"].
      split; [reflexivity|]. simpl. tauto.
    + exists [" HttpOnly"; " SameSite=Lax"; " Path=/"; " Max-Age=0"].
      split; [reflexivity|]. simpl. tauto.
  - intros before after body id newId db Hb Ha cookie unauthorized.
    assert (Hgate : Server.getUserIdFromCookie cookie = Js.Normal (Some ""))
      by (apply gate_reads_empty_pair; assumption).
    unfold Server.getEmployees, Server.postEmployees, Server.putEmployees,
      Server.deleteEmployees.
    rewrite !(authRequired_empty cookie db _ Hgate).
    split; [reflexivity|]. split; [reflexivity|]. split; [reflexivity|].
    split; [reflexivity|]. unfold Server.me. rewrite Hgate. reflexivity.
Qed.

(** The pair that a logout sets, sent back between two other cookies. *)
Lemma logout_closes_session_witness :
  let cookie := Some "theme=dark; uid=; lang=en" in
  Server.getEmployees (RT := SampleRuntime.runtime) cookie Server.emptyDb =
    (Server.respond 401 (Server.Error "Unauthorized"), Server.emptyDb) /\
  Server.me (RT := SampleRuntime.runtime) cookie Server.emptyDb =
    Js.Normal (Server.respond 401 (Server.Error "Unauthorized")).
Proof.
  pose proof (logout_closes_session (PW := SamplePasswords.passwords)
                "https" None eq_refl) as (_ & _ & H).
  specialize (H ["theme=dark"] ["lang=en"]
                (textBody "Jane" "Doe" "jane@x.com" "CSE" 1) "a" "b" Server.emptyDb).
  cbv zeta in H.
  destruct H as (Hget & _ & _ & _ & Hme).
  - repeat constructor.
  - repeat constructor.
  - split; [exact Hget | exact Hme].
Defined.

(** ** Narrowing the view *)

Section NarrowFacts.

Import Client.

Lemma isSubstring_trans (a b c : string) :
  isSubstring a b -> isSubstring b c -> isSubstring a c.
Proof.
  intros (pre1 & post1 & ->) (pre2 & post2 & ->).
  exists (pre2 +:+ pre1), (post1 +:+ post2).
  rewrite !append_assoc. reflexivity.
Qed.

Lemma includes_trans (s b a : string) :
  Js.includes s b = true -> Js.includes b a = true -> Js.includes s a = true.
Proof.
  rewrite !includes_spec. intros H1 H2. exact (isSubstring_trans a b s H2 H1).
Qed.

Lemma includes_empty (s : string) : Js.includes EmptyString s = true -> s = EmptyString.
Proof.
  rewrite includes_spec. intros (pre & post & H).
  destruct pre; [|discriminate]. destruct s; [reflexivity|discriminate].
Qed.

Lemma matchesSearch_longer (q1 q2 : string) (emp : Emp.t) :
  Js.includes q2 q1 = true ->
  matchesSearch q2 emp = true -> matchesSearch q1 emp = true.
Proof.
  intros Hin. unfold matchesSearch.
  rewrite !orb_true_iff, !String.eqb_eq.
  intros [[[H|H]|H]|H].
  - subst q2. left. left. left. apply includes_empty, Hin.
  - left. left. right. exact (includes_trans _ _ _ H Hin).
  - left. right. exact (includes_trans _ _ _ H Hin).
  - right. exact (includes_trans _ _ _ H Hin).
Qed.

Lemma filter_narrower {A} (f g : A -> bool) (l : list A) :
  (forall x, f x = true -> g x = true) ->
  List.filter f l `sublist_of` List.filter g l.
Proof.
  intros Himp. induction l as [|x l IH]; simpl.
  - constructor.
  - destruct (f x) eqn:Hf.
    + rewrite (Himp x Hf). constructor. exact IH.
    + destruct (g x); [constructor|]; exact IH.
Qed.

Lemma filter_all {A} (f : A -> bool) (l : list A) :
  (forall x, f x = true) -> List.filter f l = l.
Proof.
  intros Hall. induction l as [|x l IH]; simpl; [reflexivity|].
  rewrite Hall, IH. reflexivity.
Qed.

Lemma filter_sublist {A} (f : A -> bool) (l : list A) :
  List.filter f l `sublist_of` l.
Proof.
  induction l as [|x l IH]; simpl; [constructor|].
  destruct (f x); constructor; exact IH.
Qed.

Lemma slice_sublist {A} (l : list A) (a b : Z) : Js.slice l a b `sublist_of` l.
Proof.
  unfold Js.slice. etransitivity; [apply sublist_take | apply sublist_drop].
Qed.

Lemma applyFilters_table (s : State) :
  tableBody (applyFilters s) `sublist_of` filteredEmployees (applyFilters s).
Proof. apply slice_sublist. Qed.

End NarrowFacts.

(** X13.  A longer search text narrows the view.  When the lowercase form of
    the text [t1] occurs in the lowercase form of the text [t2], every record
    the view shows for [t2] is also in the view for [t1], as often; the view
    of a department is within the view of "all"; with an empty search text
    and the department "all" the view holds the whole cache; and in each
    case the view is within the cache, the rows of the table are rows of the
    view, in its order, and the page is 1. *)
Theorem longer_search_narrows_view (t1 t2 dept : string) (s : Client.State) :
  Js.includes (Js.toLowerCase t2) (Js.toLowerCase t1) = true ->
  let view ev := Client.filteredEmployees (Client.step ev s) in
  view (Client.SearchInput t2) ⊆+ view (Client.SearchInput t1) /\
  view (Client.DepartmentChange dept) ⊆+ view (Client.DepartmentChange "all") /\
  (Client.filterDepartment s = "all" ->
   view (Client.SearchInput "") ≡ₚ Client.employees s) /\
  (forall ev, ev = Client.SearchInput t1 \/ ev = Client.DepartmentChange dept ->
     view ev ⊆+ Client.employees s /\
     Client.tableBody (Client.step ev s) `sublist_of` view ev /\
     Client.currentPage (Client.step ev s) = 1).
Proof.
  intros Hin view. split; [|split; [|split]].
  - unfold view, Client.step, Client.handleSearch.
    rewrite !applyFilters_perm. simpl.
    apply sublist_submseteq, filter_narrower. intros emp.
    unfold visible. simpl. rewrite !andb_true_iff. intros [Hs Hd].
    split; [|exact Hd]. exact (matchesSearch_longer _ _ emp Hin Hs).
  - unfold view, Client.step, Client.handleFilter.
    rewrite !applyFilters_perm. simpl.
    apply sublist_submseteq, filter_narrower. intros emp.
    unfold visible. simpl. rewrite !andb_true_iff. intros [Hs _].
    split; [exact Hs | reflexivity].
  - intros Hall. unfold view, Client.step, Client.handleSearch.
    rewrite applyFilters_perm. simpl.
    rewrite filter_all; [reflexivity|]. intros emp.
    unfold visible. simpl. rewrite Hall. reflexivity.
  - intros ev [-> | ->];
      unfold view, Client.step, Client.handleSearch, Client.handleFilter.
    + split; [|split; [apply applyFilters_table | reflexivity]].
      rewrite applyFilters_perm. apply sublist_submseteq, filter_sublist.
    + split; [|split; [apply applyFilters_table | reflexivity]].
      rewrite applyFilters_perm. apply sublist_submseteq, filter_sublist.
Qed.

(** The texts [st] and [First1] over a staff of three. *)
Lemma longer_search_narrows_view_witness :
  Client.filteredEmployees
    (Client.step (Client.SearchInput "First1") (Samples.loaded (Samples.staff 3))) ⊆+
  Client.filteredEmployees
    (Client.step (Client.SearchInput "st") (Samples.loaded (Samples.staff 3))).
Proof.
  pose proof (longer_search_narrows_view "st" "First1" "CSE"
                (Samples.loaded (Samples.staff 3)) eq_refl) as H.
  cbv zeta in H. destruct H as (H & _). exact H.
Defined.

(** ** Reading the export back *)

Section CsvReadFacts.

Import Client.

Lemma toString_inj (n m : Z) : Js.toString n = Js.toString m -> n = m.
Proof.
  unfold Js.toString. intros H. apply DecimalZ.to_int_inj.
  apply (f_equal NilEmpty.int_of_string) in H.
  rewrite !NilEmpty.isi in H. congruence.
Qed.

Lemma quote_uint (d : Decimal.uint) :
  lacks quote (NilEmpty.string_of_uint d) = true.
Proof. induction d; simpl; auto. Qed.

Lemma quote_toString (n : Z) : lacks quote (Js.toString n) = true.
Proof.
  unfold Js.toString. destruct (Z.to_int n); simpl; apply quote_uint.
Qed.

(** A cell without a quotation mark ends at the first one. *)
Lemma cell_cut (a b r t : string) :
  lacks quote a = true -> lacks quote b = true ->
  a +:+ String quote r = b +:+ String quote t -> a = b /\ r = t.
Proof.
  revert b. induction a as [|x a IH]; intros [|y b] Ha Hb H.
  - injection H as H. auto.
  - change (String quote r = String y (b +:+ String quote t)) in H.
    injection H as Hy _. subst y.
    change (negb (Ascii.eqb quote quote) && lacks quote b = true)%bool in Hb.
    rewrite Ascii.eqb_refl in Hb. discriminate.
  - change (String x (a +:+ String quote r) = String quote t) in H.
    injection H as Hx _. subst x.
    change (negb (Ascii.eqb quote quote) && lacks quote a = true)%bool in Ha.
    rewrite Ascii.eqb_refl in Ha. discriminate.
  - change (String x (a +:+ String quote r) = String y (b +:+ String quote t)) in H.
    injection H as Hxy H. subst y.
    change (negb (Ascii.eqb x quote) && lacks quote a = true)%bool in Ha.
    change (negb (Ascii.eqb x quote) && lacks quote b = true)%bool in Hb.
    apply andb_true_iff in Ha as [_ Ha]. apply andb_true_iff in Hb as [_ Hb].
    destruct (IH b Ha Hb H) as [-> ->]. auto.
Qed.

Lemma quoted_append (cell r : string) :
  quoted cell +:+ r = String quote (cell +:+ String quote r).
Proof.
  unfold quoted.
  change (String quote ((cell +:+ String quote EmptyString) +:+ r) =
          String quote (cell +:+ String quote r)).
  rewrite append_assoc. reflexivity.
Qed.

Lemma quoted_cut (a b r t : string) :
  lacks quote a = true -> lacks quote b = true ->
  quoted a +:+ r = quoted b +:+ t -> a = b /\ r = t.
Proof.
  intros Ha Hb. rewrite !quoted_append. intros H. injection H as H.
  exact (cell_cut a b r t Ha Hb H).
Qed.

Lemma comma_cut (r t : string) : "," +:+ r = "," +:+ t -> r = t.
Proof. intros H. injection H as H. exact H. Qed.

Lemma append_empty (s : string) : s +:+ EmptyString = s.
Proof.
  induction s as [|x s IH]; [reflexivity|].
  change (String x (s +:+ EmptyString) = String x s). rewrite IH. reflexivity.
Qed.

Lemma plainRecord_fullName (emp : Emp.t) :
  plainRecord emp = true -> lacks quote (fullName emp) = true.
Proof.
  unfold plainRecord, fullName. rewrite !andb_true_iff.
  intros ((((_ & Hf) & Hl) & _) & _).
  rewrite !lacks_append, Hf, Hl. reflexivity.
Qed.

(** The line of a record gives back its four cells. *)
Lemma csvLine_cells (a b : Emp.t) :
  plainRecord a = true -> plainRecord b = true ->
  csvLine a = csvLine b -> csvRow a = csvRow b.
Proof.
  intros Ha Hb H.
  pose proof (plainRecord_fullName a Ha) as Hna.
  pose proof (plainRecord_fullName b Hb) as Hnb.
  unfold plainRecord in Ha, Hb. rewrite !andb_true_iff in Ha, Hb.
  destruct Ha as ((((_ & _) & _) & Hea) & Hda).
  destruct Hb as ((((_ & _) & _) & Heb) & Hdb).
  rewrite !csvLine_quoted in H.
  apply quoted_cut in H as [Hn H]; [|assumption..].
  apply comma_cut in H.
  apply quoted_cut in H as [He H]; [|assumption..].
  apply comma_cut in H.
  apply quoted_cut in H as [Hd H]; [|assumption..].
  apply comma_cut in H.
  rewrite <- (append_empty (quoted (Js.toString (Emp.salary a)))) in H.
  rewrite <- (append_empty (quoted (Js.toString (Emp.salary b)))) in H.
  apply quoted_cut in H as [Hs _]; [|apply quote_toString..].
  unfold csvRow. rewrite Hn, He, Hd, Hs. reflexivity.
Qed.

Lemma csvLines_cells (l1 l2 : list Emp.t) :
  forallb plainRecord l1 = true -> forallb plainRecord l2 = true ->
  map csvLine l1 = map csvLine l2 -> map csvRow l1 = map csvRow l2.
Proof.
  revert l2. induction l1 as [|a l1 IH]; intros [|b l2] H1 H2 H;
    try discriminate; [reflexivity|].
  cbn [forallb] in H1, H2. apply andb_true_iff in H1 as [Ha H1].
  apply andb_true_iff in H2 as [Hb H2].
  cbn [map] in *.
  assert (Hab : csvLine a = csvLine b) by congruence.
  assert (Ht : map csvLine l1 = map csvLine l2) by congruence.
  rewrite (csvLine_cells a b Ha Hb Hab), (IH l2 H1 H2 Ht). reflexivity.
Qed.

Lemma plainRecord_singleLine (l : list Emp.t) :
  forallb plainRecord l = true -> forallb singleLine l = true.
Proof.
  induction l as [|a l IH]; [reflexivity|]. cbn [forallb].
  rewrite !andb_true_iff. intros [Ha Hl]. split; [|exact (IH Hl)].
  unfold plainRecord in Ha. rewrite !andb_true_iff in Ha. tauto.
Qed.

Lemma csvContent_split (s : State) :
  forallb singleLine (filteredEmployees s) = true ->
  Js.split lineFeed (csvContent s) =
  csvHeaderLine :: map csvLine (filteredEmployees s).
Proof.
  intros H. rewrite csvContent_lines. apply split_join.
  cbn [forallb]. apply andb_true_iff. split; [reflexivity|].
  induction (filteredEmployees s) as [|a l IH]; [reflexivity|].
  cbn [forallb map] in *. apply andb_true_iff in H as [Ha Hl].
  rewrite (lacks_csvLine a Ha). exact (IH Hl).
Qed.

End CsvReadFacts.

(** X14.  The export can be read back.  When no text field of the records
    of two views holds a quotation mark or a line feed, views that export
    the same file have the same rows: the same full names, emails,
    departments and salaries, in the same order; in particular the line of
    such a record determines its four cells, and the salary is read back as
    the number it was. *)
Theorem csv_file_determines_rows (s1 s2 : Client.State) :
  forallb plainRecord (Client.filteredEmployees s1) = true ->
  forallb plainRecord (Client.filteredEmployees s2) = true ->
  (Client.exportToCSV s1).1 = (Client.exportToCSV s2).1 ->
  map Client.csvRow (Client.filteredEmployees s1) =
    map Client.csvRow (Client.filteredEmployees s2) /\
  map Client.fullName (Client.filteredEmployees s1) =
    map Client.fullName (Client.filteredEmployees s2) /\
  map Emp.salary (Client.filteredEmployees s1) =
    map Emp.salary (Client.filteredEmployees s2).
Proof.
  intros H1 H2 H. cbn [fst Client.exportToCSV] in H.
  assert (Hrows : map Client.csvRow (Client.filteredEmployees s1) =
                  map Client.csvRow (Client.filteredEmployees s2)).
  { apply csvLines_cells; [exact H1 | exact H2 |].
    apply (f_equal (Js.split lineFeed)) in H.
    rewrite !csvContent_split in H by (apply plainRecord_singleLine; assumption).
    injection H as H. exact H. }
  split; [exact Hrows|].
  clear H H1 H2. revert Hrows.
  generalize (Client.filteredEmployees s2).
  induction (Client.filteredEmployees s1) as [|a l1 IH]; intros [|b l2] Hrows;
    try discriminate; [split; reflexivity|].
  cbn [map] in *.
  assert (Hrow : Client.csvRow a = Client.csvRow b) by congruence.
  assert (Ht : map Client.csvRow l1 = map Client.csvRow l2) by congruence.
  unfold Client.csvRow in Hrow.
  assert (Hn : Client.fullName a = Client.fullName b) by congruence.
  assert (Hs : Js.toString (Emp.salary a) = Js.toString (Emp.salary b))
    by congruence.
  destruct (IH l2 Ht) as [IHn IHs].
  rewrite Hn, IHn, IHs, (toString_inj _ _ Hs). split; reflexivity.
Qed.

(** A staff of three, exported before and after the page size is changed. *)
Lemma csv_file_determines_rows_witness :
  map Client.csvRow (Client.filteredEmployees (Samples.loaded (Samples.staff 3))) =
  map Client.csvRow
    (Client.filteredEmployees
       (Client.handleRowsPerPageChange 25 (Samples.loaded (Samples.staff 3)))).
Proof.
  exact (proj1 (csv_file_determines_rows
                  (Samples.loaded (Samples.staff 3))
                  (Client.handleRowsPerPageChange 25 (Samples.loaded (Samples.staff 3)))
                  eq_refl eq_refl eq_refl)).
Defined.
(** ** The cache of the page and the list of the server *)

Section SyncFacts.

Import Server.
Context `{RT : Runtime}.
Variable cookie : option string.
Variable userId : string.
Hypothesis caller : getUserIdFromCookie cookie = Js.Normal (Some userId).
Hypothesis named : userId <> EmptyString.
Hypothesis bound : bindable [userId] = true.

Lemma ok_false (r : Response) : 400 <= status r -> Browser.ok r = false.
Proof.
  intros H. unfold Browser.ok. apply andb_false_iff. right.
  apply Z.leb_gt. lia.
Qed.

Lemma findIndex_Some {A} (p : A -> bool) (l : list A) (i : nat) :
  Js.findIndex p l = Some i -> exists x, l !! i = Some x /\ p x = true.
Proof.
  revert i. induction l as [|y l IH]; intros i; simpl; [discriminate|].
  destruct (p y) eqn:Hp.
  - intros H. injection H as <-. exists y. auto.
  - destruct (Js.findIndex p l) as [j|]; [|discriminate].
    intros H. injection H as <-. exact (IH j eq_refl).
Qed.

Lemma findIndex_None {A} (p : A -> bool) (l : list A) :
  Js.findIndex p l = None -> forall x, In x l -> p x = false.
Proof.
  induction l as [|y l IH]; simpl; [intros _ x []|].
  destruct (p y) eqn:Hp; [discriminate|].
  destruct (Js.findIndex p l) as [j|]; [discriminate|].
  intros _ x [<-|Hin]; [exact Hp | exact (IH eq_refl x Hin)].
Qed.

Lemma insert_Permutation {A} (l : list A) (i : nat) (x y : A) :
  l !! i = Some x -> <[i := y]> l ≡ₚ y :: delete i l.
Proof.
  intros H. rewrite insert_take_drop by (eapply lookup_lt_Some, H).
  rewrite delete_take_drop. symmetry. apply Permutation_middle.
Qed.

(** Two records of a list without repeated ids that share an id are one. *)
Lemma same_id_same_record (l : list Emp.t) (a b : Emp.t) :
  NoDup (map Emp.id l) -> In a l -> In b l -> Emp.id a = Emp.id b -> a = b.
Proof.
  induction l as [|x l IH]; simpl; [intros _ []|].
  intros Hnd Ha Hb Hid. apply NoDup_cons in Hnd as [Hx Hnd].
  destruct Ha as [<-|Ha], Hb as [<-|Hb]; auto.
  - exfalso. apply Hx. rewrite Hid. apply list_elem_of_In, in_map, Hb.
  - exfalso. apply Hx. rewrite <- Hid. apply list_elem_of_In, in_map, Ha.
Qed.

Lemma inSync_NoDup (w : Browser.World) :
  inSync userId w -> NoDup (map Emp.id (Client.employees (Browser.page w))).
Proof.
  intros H. unfold inSync in H. rewrite H. apply selectEmployees_NoDup.
Qed.

(** The list of a caller whose id the database takes. *)
Lemma getEmployees_bound (db : Db) :
  getEmployees cookie db =
  (respond 200 (Employees (selectEmployees userId (employees db))), db).
Proof.
  unfold getEmployees.
  rewrite (authRequired_pass _ userId _ _ caller named), bound. reflexivity.
Qed.

Lemma load_world (w : Browser.World) :
  Browser.load cookie w =
  Browser.mkWorld
    (Client.applyFilters
       (Client.set_employees
          (selectEmployees userId (employees (Browser.store w))) (Browser.page w)))
    (Browser.store w).
Proof. unfold Browser.load. rewrite getEmployees_bound. reflexivity. Qed.

Lemma load_inSync (w : Browser.World) : inSync userId (Browser.load cookie w).
Proof. rewrite load_world. unfold inSync. reflexivity. Qed.

Lemma fetched_failure (r : Response) :
  400 <= status r ->
  exists json, Browser.fetchedEmployee r = Client.Responded false json.
Proof.
  intros H. unfold Browser.fetchedEmployee. rewrite (ok_false r H). eauto.
Qed.

(** The answer to a create, handled by a page whose cache follows the store
    the create was answered on. *)
Lemma add_delivered (d : Client.FormData) (newId : string) (w : Browser.World) :
  inSync userId w ->
  inSync userId
    (Browser.mkWorld
       (Client.addEmployee d
          (Browser.fetchedEmployee
             (postEmployees cookie (Browser.bodyOf d) newId (Browser.store w)).1)
          (Browser.page w))
       (postEmployees cookie (Browser.bodyOf d) newId (Browser.store w)).2).
Proof.
  intros Hs.
  destruct (postEmployees_effect cookie (Browser.bodyOf d) newId (Browser.store w))
    as [[Hst Hdb]|(u & row & Hc & _ & Hrow & Hid & Heq)].
  - destruct (fetched_failure _ Hst) as [json Hf].
    unfold inSync. cbn [Browser.page Browser.store]. rewrite Hdb, Hf. exact Hs.
  - rewrite caller in Hc. injection Hc as <-.
    rewrite Heq. unfold inSync. cbn [fst snd Browser.page Browser.store employees].
    change (Client.employees (Browser.page w) ++ [toEmployee (newId, row)] ≡ₚ
            selectEmployees userId (<[newId := row]> (employees (Browser.store w)))).
    rewrite (selectEmployees_insert userId newId row _ Hid).
    apply String.eqb_eq in Hrow. rewrite Hrow.
    rewrite <- Permutation_cons_append. constructor. exact Hs.
Qed.

(** The same for an update. *)
Lemma edit_delivered (id : string) (d : Client.FormData) (w : Browser.World) :
  inSync userId w ->
  inSync userId
    (Browser.mkWorld
       (Client.updateEmployee id d
          (Browser.fetchedEmployee
             (putEmployees cookie id (Browser.bodyOf d) (Browser.store w)).1)
          (Browser.page w))
       (putEmployees cookie id (Browser.bodyOf d) (Browser.store w)).2).
Proof.
  intros Hs.
  destruct (putEmployees_effect cookie id (Browser.bodyOf d) (Browser.store w))
    as [[Hst Hdb]|(u & old & row & Hc & _ & Hold & Hou & Hrow & Heq)].
  - destruct (fetched_failure _ Hst) as [json Hf].
    unfold inSync. cbn [Browser.page Browser.store]. rewrite Hdb, Hf. exact Hs.
  - rewrite caller in Hc. injection Hc as <-.
    rewrite Heq. unfold inSync. cbn [fst snd Browser.page Browser.store employees].
    change (Browser.fetchedEmployee (respond 200 (OneEmployee (toEmployee (id, row)))))
      with (Client.Responded true (inr (toEmployee (id, row)) : string + Emp.t)).
    pose proof (selectEmployees_delete userId id old _ Hold) as Hlist.
    apply String.eqb_eq in Hou. rewrite Hou in Hlist.
    change ([toEmployee (id, old)] ++ ?l) with (toEmployee (id, old) :: l) in Hlist.
    assert (Hin : In (toEmployee (id, old)) (Client.employees (Browser.page w))).
    { apply (Permutation_in _ (symmetry Hs)). apply (Permutation_in _ (symmetry Hlist)).
      left. reflexivity. }
    unfold Client.updateEmployee.
    destruct (Js.findIndex _ _) as [index|] eqn:Hfind.
    + destruct (findIndex_Some _ _ _ Hfind) as (x & Hx & Hxid).
      apply String.eqb_eq in Hxid.
      assert (x = toEmployee (id, old)) as ->.
      { apply (same_id_same_record (Client.employees (Browser.page w)));
          [apply inSync_NoDup, Hs | | exact Hin | exact Hxid].
        apply list_elem_of_In. eapply list_elem_of_lookup_2, Hx. }
      change (<[index := toEmployee (id, row)]> (Client.employees (Browser.page w)) ≡ₚ
              selectEmployees userId (<[id := row]> (employees (Browser.store w)))).
      rewrite (insert_Permutation _ _ _ _ Hx).
      rewrite (selectEmployees_replace userId id row).
      apply String.eqb_eq in Hrow. rewrite Hrow.
      change ([toEmployee (id, row)] ++ ?l) with (toEmployee (id, row) :: l).
      constructor.
      apply (Permutation_cons_inv (a := toEmployee (id, old))).
      rewrite <- (delete_Permutation _ _ _ Hx), <- Hlist. exact Hs.
    + exfalso. pose proof (findIndex_None _ _ Hfind _ Hin) as Hno.
      simpl in Hno. rewrite String.eqb_refl in Hno. discriminate.
Qed.

Lemma filter_keeps {A} (f : A -> bool) (l : list A) :
  (forall x, In x l -> f x = true) -> List.filter f l = l.
Proof.
  induction l as [|x l IH]; intros H; simpl; [reflexivity|].
  rewrite (H x (or_introl eq_refl)), IH; [reflexivity|].
  intros y Hy. apply H. right. exact Hy.
Qed.

(** The same for a delete. *)
Lemma delete_delivered (id : string) (employee : Emp.t) (w : Browser.World) :
  inSync userId w ->
  inSync userId
    (Browser.mkWorld
       (Browser.deleted id employee
          (deleteEmployees cookie id (Browser.store w)).1 (Browser.page w))
       (deleteEmployees cookie id (Browser.store w)).2).
Proof.
  intros Hs.
  destruct (deleteEmployees_effect cookie id (Browser.store w))
    as [[Hst Hdb]|(u & old & Hc & _ & Hold & Hou & Heq)].
  - unfold inSync. cbn [Browser.page Browser.store]. rewrite Hdb.
    unfold Browser.deleted. rewrite (ok_false _ Hst). exact Hs.
  - rewrite caller in Hc. injection Hc as <-.
    rewrite Heq. unfold inSync. cbn [fst snd Browser.page Browser.store employees].
    change (List.filter (fun emp => negb (String.eqb (Emp.id emp) id))
              (Client.employees (Browser.page w)) ≡ₚ
            selectEmployees userId (delete id (employees (Browser.store w)))).
    pose proof (selectEmployees_delete userId id old _ Hold) as Hlist.
    apply String.eqb_eq in Hou. rewrite Hou in Hlist.
    rewrite (filter_Permutation _ _ _ Hs), (filter_Permutation _ _ _ Hlist).
    cbn [app List.filter toEmployee Emp.id fst]. rewrite String.eqb_refl. cbn [negb].
    rewrite filter_keeps; [reflexivity|].
    intros e He. apply negb_true_iff, String.eqb_neq. intros Hid.
    apply selectEmployees_In in He as (r & Hr & _). rewrite Hid in Hr.
    rewrite lookup_delete_eq in Hr. discriminate.
Qed.

(** An answer handled by a page whose cache follows the store the request
    was answered on: the cache follows the store the answer left. *)
Lemma handled_inSync (q : Browser.Request) (newId : string) (w : Browser.World) :
  inSync userId w ->
  inSync userId
    (Browser.mkWorld
       (Browser.handled q (Browser.served cookie q newId (Browser.store w)).1
          (Browser.page w))
       (Browser.served cookie q newId (Browser.store w)).2).
Proof.
  intros Hs. destruct q as [|d|id d|id employee]; cbn [Browser.handled Browser.served].
  - rewrite getEmployees_bound. unfold inSync. reflexivity.
  - apply add_delivered, Hs.
  - apply edit_delivered, Hs.
  - apply delete_delivered, Hs.
Qed.

(** What the user does without a request leaves the cache as it is. *)
Lemma perform_quiet (a : Browser.Action) (l : Browser.Live) :
  Browser.asks a = false ->
  exists s',
    Browser.perform a l =
      Browser.mkLive (Browser.mkWorld s' (Browser.store (Browser.world l)))
        (Browser.wire l) /\
    Client.employees s' = Client.employees (Browser.page (Browser.world l)).
Proof.
  destruct a as [|text|dept|n|number|field| |formData|id formData|id yes];
    try discriminate; intros _; eexists; (split; [reflexivity|]);
    cbn [Client.step]; try reflexivity.
  - unfold Client.changePage. destruct (_ || _)%bool; reflexivity.
  - unfold Client.handleSort. destruct (Client.SortField_eqb _ _); reflexivity.
Qed.

Lemma following_cache (l : Browser.Live) (s' : Client.State) :
  Client.employees s' = Client.employees (Browser.page (Browser.world l)) ->
  following cookie userId l ->
  following cookie userId
    (Browser.mkLive (Browser.mkWorld s' (Browser.store (Browser.world l)))
       (Browser.wire l)).
Proof.
  intros He. unfold following, inSync.
  cbn [Browser.wire Browser.world Browser.page Browser.store].
  destruct (Browser.wire l) as [|x [|y rest]]; [| |exact (fun H => H)].
  - rewrite He. exact (fun H => H).
  - destruct (Browser.answer x) as [r|].
    + intros (db & newId & Hs & Hserved). exists db, newId.
      split; [|exact Hserved]. rewrite He. exact Hs.
    + rewrite He. exact (fun H => H).
Qed.

Lemma following_rest (l : Browser.Live) :
  Browser.wire l = [] -> following cookie userId l -> inSync userId (Browser.world l).
Proof. unfold following. intros ->. exact (fun H => H). Qed.

Lemma following_sent (w : Browser.World) (q : Browser.Request) :
  inSync userId w ->
  following cookie userId (Browser.mkLive w ([] ++ [Browser.mkExchange q None])).
Proof. intros H. exact H. Qed.

(** A request started while none is under way. *)
Lemma perform_asks (a : Browser.Action) (l : Browser.Live) :
  Browser.asks a = true -> Browser.wire l = [] ->
  following cookie userId l -> following cookie userId (Browser.perform a l).
Proof.
  intros Ha Hw Hf. pose proof (following_rest l Hw Hf) as Hs.
  destruct a as [|text|dept|n|number|field| |formData|id formData|id yes];
    try discriminate; unfold Browser.perform; cbv zeta; rewrite ?Hw.
  - apply following_sent, Hs.
  - destruct (existsb _ _) eqn:Hg.
    + rewrite <- Hw. apply following_cache; [|exact Hf].
      unfold Client.handleAddEmployee. rewrite Hg. reflexivity.
    + apply following_sent, Hs.
  - apply following_sent, Hs.
  - destruct (List.find _ _); [|exact Hf].
    destruct yes; [|exact Hf]. apply following_sent, Hs.
Qed.

Lemma serve_following (k : nat) (newId : string) (l : Browser.Live) :
  following cookie userId l -> following cookie userId (Browser.serve cookie k newId l).
Proof.
  intros Hf. unfold Browser.serve.
  destruct (Browser.wire l) as [|[q [r|]] [|y rest]] eqn:Hw.
  - exact Hf.
  - destruct k; exact Hf.
  - unfold following in Hf. rewrite Hw in Hf. destruct Hf.
  - destruct k; [|exact Hf].
    unfold following in *. rewrite Hw in Hf.
    cbn [Browser.wire Browser.world Browser.page Browser.store Browser.answer
         Browser.request lookup list_lookup insert list_insert] in *.
    exists (Browser.store (Browser.world l)), newId. split; [exact Hf|].
    destruct (Browser.served cookie q newId (Browser.store (Browser.world l)));
      reflexivity.
  - unfold following in Hf. rewrite Hw in Hf. destruct Hf.
Qed.

Lemma deliver_following (k : nat) (l : Browser.Live) :
  following cookie userId l -> following cookie userId (Browser.deliver k l).
Proof.
  intros Hf. unfold Browser.deliver.
  destruct (Browser.wire l) as [|[q [r|]] [|y rest]] eqn:Hw.
  - exact Hf.
  - destruct k; [|exact Hf].
    unfold following in *. rewrite Hw in Hf.
    cbn [Browser.wire Browser.world Browser.page Browser.store Browser.answer
         Browser.request lookup list_lookup delete list_delete] in *.
    destruct Hf as (db & newId & Hs & Hserved).
    pose proof (handled_inSync q newId _ Hs) as H.
    cbn [Browser.page Browser.store] in H. rewrite Hserved in H. exact H.
  - unfold following in Hf. rewrite Hw in Hf. destruct Hf.
  - destruct k; exact Hf.
  - unfold following in Hf. rewrite Hw in Hf. destruct Hf.
Qed.

Lemma step_following (ev : Browser.Event) (l : Browser.Live) :
  match ev with
  | Browser.User a =>
      if Browser.asks a then Nat.eqb (length (Browser.wire l)) 0 else true
  | _ => true
  end = true ->
  following cookie userId l -> following cookie userId (Browser.step cookie ev l).
Proof.
  intros Hone Hf. destruct ev as [a|k newId|k]; cbn [Browser.step].
  - destruct (Browser.asks a) eqn:Ha.
    + apply (perform_asks a l Ha); [|exact Hf].
      apply Nat.eqb_eq in Hone. destruct (Browser.wire l); [reflexivity|discriminate].
    + destruct (perform_quiet a l Ha) as (s' & -> & He).
      apply following_cache; assumption.
  - apply serve_following, Hf.
  - apply deliver_following, Hf.
Qed.

Lemma run_following (evs : list Browser.Event) (l : Browser.Live) :
  Browser.oneAtATime cookie evs l = true ->
  following cookie userId l -> following cookie userId (Browser.run cookie evs l).
Proof.
  revert l. induction evs as [|ev evs IH]; intros l Hone Hf; [exact Hf|].
  cbn [Browser.oneAtATime] in Hone. apply andb_true_iff in Hone as [Hev Hone].
  change (following cookie userId
            (Browser.run cookie evs (Browser.step cookie ev l))).
  apply IH; [exact Hone|]. apply step_following; assumption.
Qed.

Lemma following_wire (l : Browser.Live) :
  following cookie userId l -> (length (Browser.wire l) <= 1)%nat.
Proof.
  unfold following. destruct (Browser.wire l) as [|x [|y rest]]; simpl; [lia|lia|].
  intros [].
Qed.

Lemma following_unanswered (l : Browser.Live) :
  following cookie userId l -> unanswered l = true -> inSync userId (Browser.world l).
Proof.
  unfold following, unanswered.
  destruct (Browser.wire l) as [|x [|y rest]]; [auto| |intros []].
  cbn [forallb]. destruct (Browser.answer x); [discriminate|auto].
Qed.

(** The duplicate check of the page, read against the unique index. *)
Lemma guard_spec (email : string) (w : Browser.World) :
  inSync userId w ->
  existsb (fun emp => String.eqb (Js.toLowerCase (Emp.email emp))
                                 (Js.toLowerCase email))
          (Client.employees (Browser.page w)) = true <->
  exists i r, employees (Browser.store w) !! i = Some r /\
              indexKey r = (userId, LOWER email).
Proof.
  intros Hs. rewrite existsb_exists. split.
  - intros (e & Hin & He). apply String.eqb_eq in He.
    apply (Permutation_in _ Hs) in Hin.
    apply selectEmployees_In in Hin as (r & Hr & Hu & Heq).
    assert (Hem : Emp.email e = EmployeeRow.email r) by (rewrite Heq; reflexivity).
    exists (Emp.id e), r. split; [exact Hr|].
    unfold indexKey, LOWER. rewrite Hu, <- Hem, He. reflexivity.
  - intros (i & r & Hr & Hk). unfold indexKey, LOWER in Hk.
    assert (Hu : EmployeeRow.userid r = userId) by congruence.
    assert (He : Js.toLowerCase (EmployeeRow.email r) = Js.toLowerCase email)
      by congruence.
    exists (toEmployee (i, r)). split.
    + apply (Permutation_in _ (symmetry Hs)), selectEmployees_In.
      exists r. split; [exact Hr|]. split; [exact Hu | reflexivity].
    + apply String.eqb_eq. exact He.
Qed.

Lemma guard_free (email : string) (w : Browser.World) :
  inSync userId w ->
  existsb (fun emp => String.eqb (Js.toLowerCase (Emp.email emp))
                                 (Js.toLowerCase email))
          (Client.employees (Browser.page w)) = false <->
  emailFree (employees (Browser.store w)) userId email.
Proof.
  intros Hs. rewrite <- not_true_iff_false, (guard_spec email w Hs).
  unfold emailFree. split.
  - intros H i r Hr Hk. apply H. eauto.
  - intros H (i & r & Hr & Hk). exact (H i r Hr Hk).
Qed.

(** The create that a form leads to. *)
Lemma post_form (d : Client.FormData) (newId : string) (db : Db) :
  postEmployees cookie (Browser.bodyOf d) newId db =
  if invalidEmployeeData (Browser.bodyOf d)
  then (respond 400 (Message "Invalid employee data"), db)
  else
    match pgInt4 (salary (Browser.bodyOf d)) with
    | None => (respond 500 (Message "Failed to add employee"), db)
    | Some sal =>
        let row := EmployeeRow.make (Client.firstName d) (Client.lastName d)
                     (Client.email d) (Client.department d) sal userId in
        if bindable [newId; Client.firstName d; Client.lastName d;
                     Client.email d; Client.department d; userId]
        then
          match insertEmployee newId row (employees db) with
          | inr tbl =>
              (respond 201 (OneEmployee (toEmployee (newId, row))), mkDb (users db) tbl)
          | inl UniqueViolation =>
              (respond 409 (Message "An employee with this email already exists."), db)
          | inl OtherError => (respond 500 (Message "Failed to add employee"), db)
          end
        else (respond 500 (Message "Failed to add employee"), db)
    end.
Proof.
  unfold postEmployees. rewrite (authRequired_pass _ userId _ _ caller named).
  destruct (invalidEmployeeData _); [reflexivity|].
  destruct (pgInt4 _); [|reflexivity].
  cbn [Browser.bodyOf firstName lastName email department].
  rewrite !prepareValue_string. reflexivity.
Qed.

Lemma validForm_body (d : Client.FormData) :
  validForm d ->
  exists n, Client.salary d = Some n /\
            invalidEmployeeData (Browser.bodyOf d) = false /\
            pgInt4 (salary (Browser.bodyOf d)) = Some n.
Proof.
  intros (Hf & Hl & He & Hd & _ & n & Hn & Hr). exists n. split; [exact Hn|].
  unfold Browser.bodyOf. rewrite Hn. split.
  - exact (valid_textBody _ _ _ _ n Hf Hl He Hd).
  - exact (pgInt4_integer n Hr).
Qed.

(** The texts of a form the server takes, with two ids the database takes. *)
Lemma validForm_bindable (d : Client.FormData) (newId : string) :
  validForm d -> bindable [newId; userId] = true ->
  bindable [newId; Client.firstName d; Client.lastName d; Client.email d;
            Client.department d; userId] = true.
Proof.
  intros (_ & _ & _ & _ & Hb & _) Hids. apply bindable_all.
  intros x [<-|[<-|[<-|[<-|[<-|[<-|[]]]]]]].
  - apply (bindable_In _ _ Hids). simpl. tauto.
  - apply (bindable_In _ _ Hb). simpl. tauto.
  - apply (bindable_In _ _ Hb). simpl. tauto.
  - apply (bindable_In _ _ Hb). simpl. tauto.
  - apply (bindable_In _ _ Hb). simpl. tauto.
  - apply (bindable_In _ _ Hids). simpl. tauto.
Qed.

End SyncFacts.

(** ** What the table shows *)

Section ShownFacts.

Import Client.

Lemma shown_applyFilters (s : State) : shown (applyFilters s).
Proof.
  split; [apply applyFilters_table|].
  exact (applyFilters_perm s).
Qed.

Lemma shown_showToast (t d v : string) (s : State) :
  shown s -> shown (showToast t d v s).
Proof. intros H. exact H. Qed.

Lemma shown_handleSort (field : SortField) (s : State) :
  shown s -> shown (handleSort field s).
Proof.
  intros [_ Hv]. split; [apply slice_sublist|].
  unfold viewConsistent in *.
  destruct (handleSort_filtered field s) as (_ & _ & ->).
  rewrite sort_perm.
  unfold handleSort. destruct (SortField_eqb _ _); exact Hv.
Qed.

Lemma shown_changePage (number : Z) (s : State) :
  shown s -> shown (changePage number s).
Proof.
  intros Hs. unfold changePage. destruct (_ || _)%bool; [exact Hs|].
  destruct Hs as [_ Hv]. split; [apply slice_sublist | exact Hv].
Qed.

Lemma shown_rows (n : Z) (s : State) :
  shown s -> shown (handleRowsPerPageChange n s).
Proof. intros [_ Hv]. split; [apply slice_sublist | exact Hv]. Qed.

Lemma shown_step (ev : Event) (s : State) : shown s -> shown (step ev s).
Proof.
  intros Hs.
  destruct ev as [text|dept|n|number|field|formData result|id formData result
                 |id yes result|]; cbn [step].
  - apply shown_applyFilters.
  - apply shown_applyFilters.
  - apply shown_rows, Hs.
  - apply shown_changePage, Hs.
  - apply shown_handleSort, Hs.
  - unfold handleAddEmployee. destruct (existsb _ _); [exact Hs|].
    unfold addEmployee. destruct result as [m|[] [m|e]]; try exact Hs.
    apply shown_showToast, shown_applyFilters.
  - unfold handleEditEmployee, updateEmployee.
    destruct result as [m|[] [m|e]]; try exact Hs.
    destruct (Js.findIndex _ _); [|exact Hs].
    apply shown_showToast, shown_applyFilters.
  - unfold deleteEmployee. destruct (List.find _ _); [|exact Hs].
    destruct yes; [|exact Hs]. cbn [negb].
    destruct result as [m|[] j]; try exact Hs.
    apply shown_showToast, shown_applyFilters.
  - exact Hs.
Qed.

Lemma shown_loadEmployees (result : FetchResult (list Emp.t)) (s : State) :
  shown s -> shown (loadEmployees result s).
Proof.
  intros Hs. unfold loadEmployees. destruct result as [m|[] [m|rows]]; try exact Hs.
  apply shown_applyFilters.
Qed.

End ShownFacts.

Section ShownWorld.

Context `{RT : Server.Runtime}.
Variable cookie : option string.

Lemma shown_handled (q : Browser.Request) (r : Server.Response) (s : Client.State) :
  shown s -> shown (Browser.handled q r s).
Proof.
  intros Hs. destruct q as [|d|id d|id employee]; cbn [Browser.handled].
  - apply shown_loadEmployees, Hs.
  - unfold Client.addEmployee.
    destruct (Browser.fetchedEmployee r) as [m|[] [m|e]]; try exact Hs.
    apply shown_showToast, shown_applyFilters.
  - unfold Client.updateEmployee.
    destruct (Browser.fetchedEmployee r) as [m|[] [m|e]]; try exact Hs.
    destruct (Js.findIndex _ _); [|exact Hs].
    apply shown_showToast, shown_applyFilters.
  - unfold Browser.deleted. destruct (Browser.ok r); [|exact Hs].
    apply shown_showToast, shown_applyFilters.
Qed.

Lemma shown_perform (a : Browser.Action) (l : Browser.Live) :
  shown (Browser.page (Browser.world l)) ->
  shown (Browser.page (Browser.world (Browser.perform a l))).
Proof.
  intros Hs. unfold Browser.perform. cbv zeta.
  destruct a as [|text|dept|n|number|field| |formData|id formData|id yes];
    cbn [Browser.page Browser.world].
  - exact Hs.
  - apply shown_step, Hs.
  - apply shown_step, Hs.
  - apply shown_step, Hs.
  - apply shown_step, Hs.
  - apply shown_step, Hs.
  - apply shown_step, Hs.
  - destruct (existsb _ _); cbn [Browser.page Browser.world]; [|exact Hs].
    exact (shown_step (Client.AddSubmit formData (Client.Rejected "")) _ Hs).
  - exact Hs.
  - destruct (List.find _ _); [|exact Hs]. destruct yes; exact Hs.
Qed.

Lemma shown_live (ev : Browser.Event) (l : Browser.Live) :
  shown (Browser.page (Browser.world l)) ->
  shown (Browser.page (Browser.world (Browser.step cookie ev l))).
Proof.
  intros Hs. destruct ev as [a|k newId|k]; cbn [Browser.step].
  - apply shown_perform, Hs.
  - unfold Browser.serve.
    destruct (Browser.wire l !! k) as [[q [r|]]|]; exact Hs.
  - unfold Browser.deliver.
    destruct (Browser.wire l !! k) as [[q [r|]]|]; try exact Hs.
    cbn [Browser.page Browser.world]. apply shown_handled, Hs.
Qed.

Lemma shown_run (evs : list Browser.Event) (l : Browser.Live) :
  shown (Browser.page (Browser.world l)) ->
  shown (Browser.page (Browser.world (Browser.run cookie evs l))).
Proof.
  revert l. induction evs as [|ev evs IH]; intros l Hs; [exact Hs|].
  apply IH, shown_live, Hs.
Qed.

(** In a world whose cache follows the store, what the table shows is
    stored. *)
Lemma shown_stored (userId : string) (w : Browser.World) (e : Emp.t) :
  inSync userId w -> shown (Browser.page w) ->
  In e (Client.tableBody (Browser.page w)) \/
  In e (Client.filteredEmployees (Browser.page w)) ->
  storedFor (Server.employees (Browser.store w)) userId e.
Proof.
  intros Hsync [Ht Hv] Hin.
  assert (Hview : In e (Client.filteredEmployees (Browser.page w))).
  { destruct Hin as [Hin|Hin]; [|exact Hin].
    apply list_elem_of_In. eapply elem_of_sublist; [|exact Ht].
    apply list_elem_of_In, Hin. }
  apply selectEmployees_In.
  apply (Permutation_in _ Hsync).
  apply (Permutation_in _ Hv) in Hview.
  apply filter_In in Hview as [Hc _]. exact Hc.
Qed.

End ShownWorld.



(** Without that condition the cache can part from the store: two edits of
    one record under way together, answered in the order sent and handled
    in the other order, leave the first edit in the cache and the second in
    the store. *)
Lemma overlapping_edits_part_cache_and_store :
  let evs :=
    [Browser.User (Browser.Add (Samples.formOf (Samples.employee 1 "CSE" 10)));
     Browser.Serve 0 "a1";
     Browser.Deliver 0;
     Browser.User (Browser.Edit "a1" (Samples.formOf (Samples.employee 1 "ECE" 20)));
     Browser.User (Browser.Edit "a1" (Samples.formOf (Samples.employee 1 "EEE" 30)));
     Browser.Serve 0 "b1";
     Browser.Serve 1 "b2";
     Browser.Deliver 1;
     Browser.Deliver 0] in
  let opened :=
    Browser.mkLive
      (Browser.load (RT := SampleRuntime.runtime) (Some "uid=u1")
         (Browser.mkWorld (Client.initialState "" "all") Server.emptyDb)) [] in
  let l' := Browser.run (RT := SampleRuntime.runtime) (Some "uid=u1") evs opened in
  forallb generatedIds evs = true /\
  Browser.oneAtATime (RT := SampleRuntime.runtime) (Some "uid=u1") evs opened = false /\
  Browser.wire l' = [] /\
  Client.employees (Browser.page (Browser.world l')) =
    [Emp.make "a1" "First1" "Last1" "user1@x.com" "ECE" 20] /\
  Server.selectEmployees (RT := SampleRuntime.runtime) "u1"
    (Server.employees (Browser.store (Browser.world l'))) =
    [Emp.make "a1" "First1" "Last1" "user1@x.com" "EEE" 30] /\
  ~ inSync (RT := SampleRuntime.runtime) "u1" (Browser.world l').
Proof.
  intros evs opened l'.
  assert (Hcache : Client.employees (Browser.page (Browser.world l')) =
            [Emp.make "a1" "First1" "Last1" "user1@x.com" "ECE" 20])
    by (vm_compute; reflexivity).
  assert (Hstore : Server.selectEmployees (RT := SampleRuntime.runtime) "u1"
                     (Server.employees (Browser.store (Browser.world l'))) =
            [Emp.make "a1" "First1" "Last1" "user1@x.com" "EEE" 30])
    by (vm_compute; reflexivity).
  split; [vm_compute; reflexivity|]. split; [vm_compute; reflexivity|].
  split; [vm_compute; reflexivity|]. split; [exact Hcache|].
  split; [exact Hstore|].
  unfold inSync. rewrite Hcache, Hstore. intros H.
  apply Permutation_length_1 in H. apply (f_equal Emp.salary) in H.
  cbn [Emp.salary] in H. discriminate H.
Qed.



(** ** What the page tells the user *)

Section AnswerFacts.

Import Server.
Context `{RT : Runtime}.

Lemma getEmployees_answers (cookie : option string) (db : Db) :
  In (status (getEmployees cookie db).1) [200; 401; 500] /\
  (status (getEmployees cookie db).1 = 200 ->
   exists rows, payload (getEmployees cookie db).1 = Employees rows).
Proof.
  unfold getEmployees. apply authRequired_elim; cbn [fst status payload].
  - split; [simpl; tauto | discriminate].
  - split; [simpl; tauto | discriminate].
  - intros userId. destruct (bindable _); cbn [fst status payload].
    + split; [simpl; tauto | eauto].
    + split; [simpl; tauto | discriminate].
Qed.

Lemma postEmployees_answers (cookie : option string) (body : EmployeeBody)
    (newId : string) (db : Db) :
  In (status (postEmployees cookie body newId db).1) [201; 400; 401; 409; 500].
Proof.
  unfold postEmployees. apply authRequired_elim; cbn [fst status].
  - simpl; tauto.
  - simpl; tauto.
  - intros userId. destruct (invalidEmployeeData body); [simpl; tauto|].
    destruct (pgInt4 (salary body)); [|simpl; tauto].
    cbv zeta. destruct (bindable _); [|simpl; tauto].
    destruct (insertEmployee _ _ _) as [[]|]; simpl; tauto.
Qed.

Lemma putEmployees_answers (cookie : option string) (id : string)
    (body : EmployeeBody) (db : Db) :
  In (status (putEmployees cookie id body db).1) [200; 400; 401; 404; 409; 500].
Proof.
  unfold putEmployees. apply authRequired_elim; cbn [fst status].
  - simpl; tauto.
  - simpl; tauto.
  - intros userId. destruct (invalidEmployeeData body); [simpl; tauto|].
    destruct (pgInt4 (salary body)); [|simpl; tauto].
    destruct (bindable _); [|simpl; tauto].
    destruct (updateEmployee _ _ _ _ _ _ _ _) as [[]|[[|kr rows] tbl]];
      simpl; tauto.
Qed.

Lemma deleteEmployees_answers (cookie : option string) (id : string) (db : Db) :
  In (status (deleteEmployees cookie id db).1) [204; 401; 404; 500].
Proof.
  unfold deleteEmployees. apply authRequired_elim; cbn [fst status].
  - simpl; tauto.
  - simpl; tauto.
  - intros userId. destruct (bindable _); [|simpl; tauto].
    destruct (deleteEmployee id userId (employees db)) as [n tbl].
    destruct (n =? 0); simpl; tauto.
Qed.

End AnswerFacts.

(** X17.  Every refusal reaches the user, in fixed words.  Whatever cookie
    the page sends, and for ids as [generateId] makes them: a list, a create, an update or a delete that the server
    does not answer with its success status (200, 201, 200, 204) is answered
    401 or 500, or also 400 or 409 for a create and an update and 404 for an
    update and a delete, and the page then shows one more notification,
    titled "Error", with the fixed text of the operation, not the message of
    the server, and changes nothing else, nor does the store change.  A form
    stopped by the duplicate check gives the notification "Duplicate Email"
    alone.  A success gives the notification of the operation, none for the
    list; only a successful update of a record that the cache does not hold
    leaves the page as it was. *)
Theorem refusals_are_surfaced `{RT : Server.Runtime}
    (cookie : option string) (w : Browser.World) :
  (let r := (Server.getEmployees cookie (Browser.store w)).1 in
   (Server.status r = 200 /\
    Client.toasts (Browser.page (Browser.load cookie w)) =
      Client.toasts (Browser.page w)) \/
   (In (Server.status r) [401; 500] /\
    Browser.load cookie w =
      notified "Error" "Failed to load employees" "destructive" w)) /\
  (forall (d : Client.FormData) (newId : string),
     let r := (Server.postEmployees cookie (Browser.bodyOf d) newId
                 (Browser.store w)).1 in
     let w' := Browser.submitAdd cookie d newId w in
     let blocked :=
       existsb (fun emp => String.eqb (Js.toLowerCase (Emp.email emp))
                                      (Js.toLowerCase (Client.email d)))
               (Client.employees (Browser.page w)) in
     (blocked = true /\
      w' = notified "Duplicate Email" "An employee with this email already exists."
             "destructive" w) \/
     (blocked = false /\ Server.status r = 201 /\
      Client.toasts (Browser.page w') =
        Client.toasts (Browser.page w) ++
        [Client.mkToast "Employee Added"
           (Client.firstName d +:+ " " +:+ Client.lastName d +:+
            " has been added successfully.") ""]) \/
     (blocked = false /\ In (Server.status r) [400; 401; 409; 500] /\
      w' = notified "Error" "Failed to add employee" "destructive" w)) /\
  (forall (id : string) (d : Client.FormData),
     generated id = true ->
     let r := (Server.putEmployees cookie id (Browser.bodyOf d)
                 (Browser.store w)).1 in
     let w' := Browser.submitEdit cookie id d w in
     (Server.status r = 200 /\
      (Client.toasts (Browser.page w') =
         Client.toasts (Browser.page w) ++
         [Client.mkToast "Employee Updated"
            (Client.firstName d +:+ " " +:+ Client.lastName d +:+
             " has been updated successfully.") ""] \/
       (Browser.page w' = Browser.page w /\
        forall e, In e (Client.employees (Browser.page w)) -> Emp.id e <> id))) \/
     (In (Server.status r) [400; 401; 404; 409; 500] /\
      w' = notified "Error" "Failed to update employee" "destructive" w)) /\
  (forall (id : string) (yes : bool),
     generated id = true ->
     let r := (Server.deleteEmployees cookie id (Browser.store w)).1 in
     let w' := Browser.clickDelete cookie id yes w in
     match List.find (fun emp => String.eqb (Emp.id emp) id)
                     (Client.employees (Browser.page w)) with
     | None => w' = w
     | Some employee =>
         if yes then
           (Server.status r = 204 /\
            Client.toasts (Browser.page w') =
              Client.toasts (Browser.page w) ++
              [Client.mkToast "Employee Deleted"
                 (Client.fullName employee +:+ " has been removed.")
                 "destructive"]) \/
           (In (Server.status r) [401; 404; 500] /\
            w' = notified "Error" "Failed to delete employee" "destructive" w)
         else w' = w
     end).
Proof.
  split; [|split; [|split]].
  - cbv zeta.
    destruct (getEmployees_answers cookie (Browser.store w)) as [Hin Hrows].
    assert (Hdb : (Server.getEmployees cookie (Browser.store w)).2 = Browser.store w).
    { unfold Server.getEmployees. apply authRequired_elim; try reflexivity.
      intros userId. destruct (Server.bindable _); reflexivity. }
    unfold Browser.load. rewrite Hdb.
    destruct Hin as [H200|Hin].
    + left. split; [symmetry; exact H200|].
      destruct (Hrows (eq_sym H200)) as [rows Hp].
      unfold Browser.fetchedEmployees, Browser.ok. rewrite Hp, <- H200. reflexivity.
    + right. split; [exact Hin|].
      unfold Browser.fetchedEmployees. rewrite ok_false; [reflexivity|].
      destruct Hin as [H|[H|[]]]; rewrite <- H; lia.
  - intros d newId r w' blocked.
    unfold w', Browser.submitAdd, Client.handleAddEmployee. fold blocked.
    destruct blocked eqn:Hb.
    + left. split; reflexivity.
    + right.
      destruct (postEmployees_effect cookie (Browser.bodyOf d) newId (Browser.store w))
        as [[Hst Hdb]|(u & row & _ & _ & _ & _ & Heq)].
      * right. split; [reflexivity|]. split.
        -- pose proof (postEmployees_answers cookie (Browser.bodyOf d) newId
                         (Browser.store w)) as Hin.
           fold r in Hst, Hin. destruct Hin as [H|Hin]; [lia | exact Hin].
        -- destruct (fetched_failure _ Hst) as [json Hf].
           rewrite Hf, Hdb. reflexivity.
      * left. split; [reflexivity|]. unfold r. rewrite Heq.
        split; reflexivity.
  - intros id d _ r w'.
    unfold w', Browser.submitEdit, Client.handleEditEmployee.
    destruct (putEmployees_effect cookie id (Browser.bodyOf d) (Browser.store w))
      as [[Hst Hdb]|(u & old & row & _ & _ & _ & _ & _ & Heq)].
    + right. split.
      * pose proof (putEmployees_answers cookie id (Browser.bodyOf d)
                      (Browser.store w)) as Hin.
        fold r in Hst, Hin. destruct Hin as [H|Hin]; [lia | exact Hin].
      * destruct (fetched_failure _ Hst) as [json Hf].
        rewrite Hf, Hdb. reflexivity.
    + left. unfold r. rewrite Heq. split; [reflexivity|].
      cbn [fst snd Browser.page].
      change (Browser.fetchedEmployee
                (Server.respond 200 (Server.OneEmployee (Server.toEmployee (id, row)))))
        with (Client.Responded true
                (inr (Server.toEmployee (id, row)) : string + Emp.t)).
      unfold Client.updateEmployee.
      destruct (Js.findIndex _ _) eqn:Hfind.
      * left. reflexivity.
      * right. split; [reflexivity|]. intros e He Hid.
        pose proof (findIndex_None _ _ Hfind e He) as Hno.
        simpl in Hno. rewrite Hid, String.eqb_refl in Hno. discriminate.
  - intros id yes _ r w'. unfold w', Browser.clickDelete.
    destruct (List.find _ _) as [employee|] eqn:Hfind; [|reflexivity].
    destruct yes; [|reflexivity]. cbn [negb].
    unfold Client.deleteEmployee, Browser.fetchedNothing. rewrite Hfind. cbn [negb].
    destruct (deleteEmployees_effect cookie id (Browser.store w))
      as [[Hst Hdb]|(u & old & _ & _ & _ & _ & Heq)].
    + right. split.
      * pose proof (deleteEmployees_answers cookie id (Browser.store w)) as Hin.
        fold r in Hst, Hin. destruct Hin as [H|Hin]; [lia | exact Hin].
      * rewrite (ok_false _ Hst), Hdb. reflexivity.
    + left. unfold r. rewrite Heq. split; reflexivity.
Qed.

(** A page without a session cookie: the edit is answered 401 and the page
    shows the notification of a failed update. *)
Lemma refusals_are_surfaced_witness :
  let w := Browser.mkWorld (Client.initialState "" "all") Server.emptyDb in
  Browser.submitEdit (RT := SampleRuntime.runtime) None "a1"
    (Client.mkFormData "Jane" "Doe" "jane@x.com" "CSE" (Some 10)) w =
  notified "Error" "Failed to update employee" "destructive" w.
Proof.
  intros w.
  pose proof (refusals_are_surfaced (RT := SampleRuntime.runtime) None w)
    as (_ & _ & Hedit & _).
  destruct (Hedit "a1" (Client.mkFormData "Jane" "Doe" "jane@x.com" "CSE" (Some 10))
              eq_refl) as [[H200 _]|[_ H]].
  - vm_compute in H200. discriminate H200.
  - exact H.
Defined.
